(** * RPCA: counts/annotation merge and GffCompare match extraction

    A shallow embedding of the two scripts of the workflow,
    [workflow/scripts/combine.py] and [workflow/scripts/extract_overlap.py],
    together with the properties of their reconciliation logic.

    Conventions of the embedding.
    - A Python [str] is a Rocq [string]; its characters are the code points
      below 256.
    - A text file that is read is the list of the lines that iterating over
      the file object yields, each line still carrying its terminator.
    - A text file that is written is the list of the payloads of the
      successive [write] calls.
    - A raised exception is the [Raise] outcome of the result type [Res].
    - A Python [float] is a binary64 number of the IEEE 754 model of the
      standard library ([spec_float] at precision 53).
    - A plain [dict] that is only looked up is a [gmap]; a [dict] that is
      iterated is an association list in insertion order; a
      [defaultdict(list)] is a [gmap] whose [__getitem__] inserts the missing
      key. *)

From Stdlib Require Import Ascii String ZArith Lia SpecFloat.
From stdpp Require Import gmap strings list fin_maps pretty.

Local Open Scope string_scope.
Local Open Scope list_scope.
Local Open Scope nat_scope.

(** ** Python primitives *)

Module Py.

(** The exceptions the two scripts can raise. *)
Inductive exn : Type :=
| IndexError
| KeyError
| ValueError
| StopIteration.

Inductive Res (A : Type) : Type :=
| Ok (a : A)
| Raise (e : exn).
Arguments Ok {A} a.
Arguments Raise {A} e.

#[global] Instance exn_eq_dec : EqDecision exn.
Proof. solve_decision. Defined.
#[global] Instance Res_eq_dec {A : Type} `{EqDecision A} : EqDecision (Res A).
Proof. solve_decision. Defined.

(** Sequencing: the first exception raised ends the computation. *)
#[global] Instance Res_ret : MRet Res := fun A a => Ok a.
#[global] Instance Res_bind : MBind Res := fun A B k m =>
  match m with
  | Ok a => k a
  | Raise e => Raise e
  end.

(** [l[i]] for a non-negative literal index. *)
Definition getitem {A : Type} (l : list A) (i : nat) : Res A :=
  match l !! i with
  | Some x => Ok x
  | None => Raise IndexError
  end.

(** [str.isspace] on one character: tab to carriage return, the four
    separators 0x1c-0x1f, space, NEL and the no-break space. *)
Definition isspace (c : ascii) : bool :=
  let n := nat_of_ascii c in
  (((9 <=? n) && (n <=? 13)) || ((28 <=? n) && (n <=? 32))
   || (n =? 133) || (n =? 160))%nat.

(** A string as the list of its characters, and back. *)
Definition of_chars (cs : list ascii) : string := string_of_list_ascii cs.
Definition chars (s : string) : list ascii := list_ascii_of_string s.

(** [s.split()]: the maximal runs of non-whitespace characters. [cur]
    holds the current run, last character first. *)
Fixpoint split_go (cur : list ascii) (s : list ascii) : list string :=
  match s with
  | [] => match cur with [] => [] | _ => [of_chars (rev cur)] end
  | c :: s' =>
      if isspace c
      then match cur with
           | [] => split_go [] s'
           | _ => of_chars (rev cur) :: split_go [] s'
           end
      else split_go (c :: cur) s'
  end.

Definition split (s : string) : list string := split_go [] (chars s).

(** [s.split(sep)] for a one-character separator: never empty. *)
Fixpoint split_on_go (sep : ascii) (cur : list ascii) (s : list ascii)
  : list string :=
  match s with
  | [] => [of_chars (rev cur)]
  | c :: s' =>
      if Ascii.eqb c sep
      then of_chars (rev cur) :: split_on_go sep [] s'
      else split_on_go sep (c :: cur) s'
  end.

Definition split_on (sep : ascii) (s : string) : list string :=
  split_on_go sep [] (chars s).

(** [s.strip(c)] for a one-character argument. *)
Fixpoint lstrip_go (c : ascii) (s : list ascii) : list ascii :=
  match s with
  | x :: s' => if Ascii.eqb x c then lstrip_go c s' else s
  | [] => []
  end.

Definition strip (c : ascii) (s : string) : string :=
  of_chars (rev (lstrip_go c (rev (lstrip_go c (chars s))))).

(** [s[1:-2]] *)
Definition slice_1_m2 (s : string) : string :=
  let cs := chars s in
  of_chars (take (length cs - 3) (drop 1 cs)).

(** [s[:-1]] *)
Definition slice_to_m1 (s : string) : string :=
  let cs := chars s in
  of_chars (take (length cs - 1) cs).

(** [l[-1]] *)
Definition getitem_last {A : Type} (l : list A) : Res A :=
  match last l with
  | Some x => Ok x
  | None => Raise IndexError
  end.

(** [int(s)] in base 10: surrounding whitespace is dropped, one sign is
    allowed, and the digits may be grouped by single underscores. The
    whitespace [int] drops is tab to carriage return, space, NEL and the
    no-break space; the separators 0x1c-0x1f are not part of it. *)
Definition int_space (c : ascii) : bool :=
  let n := nat_of_ascii c in
  (((9 <=? n) && (n <=? 13)) || (n =? 32) || (n =? 133) || (n =? 160))%nat.

Definition digit (c : ascii) : option N :=
  let n := nat_of_ascii c in
  if ((48 <=? n) && (n <=? 57))%nat then Some (N.of_nat (n - 48)) else None.

Fixpoint int_digits (acc : N) (after_digit : bool) (s : list ascii)
  : option N :=
  match s with
  | [] => if after_digit then Some acc else None
  | c :: s' =>
      match digit c with
      | Some d => int_digits (10 * acc + d)%N true s'
      | None =>
          if Ascii.eqb c "_" && after_digit
          then int_digits acc false s'
          else None
      end
  end.

Fixpoint lstrip_space (s : list ascii) : list ascii :=
  match s with
  | x :: s' => if int_space x then lstrip_space s' else s
  | [] => []
  end.

Definition strip_space (s : list ascii) : list ascii :=
  rev (lstrip_space (rev (lstrip_space s))).

Definition int (s : string) : Res Z :=
  let parsed :=
    match strip_space (chars s) with
    | "-"%char :: ds => Z.opp <$> (Z.of_N <$> int_digits 0 false ds)
    | "+"%char :: ds => Z.of_N <$> int_digits 0 false ds
    | ds => Z.of_N <$> int_digits 0 false ds
    end in
  match parsed with
  | Some z => Ok z
  | None => Raise ValueError
  end.

(** *** float *)

(** A [float] is a binary64 number: [spec_float] with 53 binary digits and
    exponents below 1024. [float(s)] is the number of this format nearest
    to the decimal [s], ties going to the even mantissa, and [+] is the
    rounded sum [SFadd]. *)
Definition prec : Z := 53.
Definition emax : Z := 1024.

(** [x + y] on two [float]s. *)
Definition float_add (x y : spec_float) : spec_float := SFadd prec emax x y.

(** [float(n)] for an [int] that needs no rounding. *)
Definition float_of_int (n : Z) : spec_float :=
  binary_normalize prec emax n 0 false.

(** The [float] nearest to [m * 10^e], ties to the even mantissa: an
    integer is rounded as it stands, a fraction [m / 10^k] is rounded from
    its quotient and remainder. *)
Definition float_of_decimal (neg : bool) (m : N) (e : Z) : spec_float :=
  match m with
  | N0 => S754_zero neg
  | Npos p =>
      match e with
      | Zneg k =>
          SFdiv prec emax (S754_finite neg p 0)
                (S754_finite false (Pos.pow 10 k) 0)
      | _ => binary_round prec emax neg (p * Z.to_pos (10 ^ e)) 0
      end
  end.

(** What a string that [float] accepts denotes. *)
Inductive literal : Type :=
| Infinity (neg : bool)
| NaN
| Decimal (neg : bool) (m : N) (e : Z).

Definition float_of_literal (l : literal) : spec_float :=
  match l with
  | Infinity neg => S754_infinity neg
  | NaN => S754_nan
  | Decimal neg m e => float_of_decimal neg m e
  end.

(** [digit (["_"] digit)*], read from the front of [s] after a first digit:
    the digits as a number on top of [acc], how many they are, and what
    follows them. *)
Fixpoint digitpart_go (acc : N) (count : nat) (s : list ascii)
  : N * nat * list ascii :=
  match s with
  | c :: s' =>
      match digit c with
      | Some d => digitpart_go (10 * acc + d)%N (S count) s'
      | None =>
          if Ascii.eqb c "_" then
            match s' with
            | c' :: s'' =>
                match digit c' with
                | Some d => digitpart_go (10 * acc + d)%N (S count) s''
                | None => (acc, count, s)
                end
            | [] => (acc, count, s)
            end
          else (acc, count, s)
      end
  | [] => (acc, count, s)
  end.

Definition digitpart (acc : N) (s : list ascii)
  : option (N * nat * list ascii) :=
  match s with
  | c :: s' =>
      match digit c with
      | Some d => Some (digitpart_go (10 * acc + d)%N 1 s')
      | None => None
      end
  | [] => None
  end.

Definition lower (c : ascii) : ascii :=
  let n := nat_of_ascii c in
  if ((65 <=? n) && (n <=? 90))%nat then ascii_of_nat (n + 32) else c.

(** The rest of a number: nothing, or [e] or [E], a sign and digits. *)
Definition exponent (s : list ascii) : option Z :=
  match s with
  | [] => Some 0%Z
  | c :: s' =>
      if Ascii.eqb (lower c) "e" then
        let '(neg, ds) :=
          match s' with
          | "-"%char :: ds => (true, ds)
          | "+"%char :: ds => (false, ds)
          | ds => (false, ds)
          end in
        match digitpart 0 ds with
        | Some (n, _, []) => Some (if neg then - Z.of_N n else Z.of_N n)%Z
        | _ => None
        end
      else None
  end.

(** [digits [. [digits]]] or [. digits], then the exponent: all the
    digits as one integer, and the power of ten that goes with it. *)
Definition floatnumber (s : list ascii) : option (N * Z) :=
  match digitpart 0 s with
  | Some (n, _, rest) =>
      match rest with
      | "."%char :: rest' =>
          match digitpart n rest' with
          | Some (m, k, rest'') =>
              e ← exponent rest''; Some (m, (e - Z.of_nat k)%Z)
          | None => e ← exponent rest'; Some (n, e)
          end
      | _ => e ← exponent rest; Some (n, e)
      end
  | None =>
      match s with
      | "."%char :: rest' =>
          '(m, k, rest'') ← digitpart 0 rest';
          e ← exponent rest''; Some (m, (e - Z.of_nat k)%Z)
      | _ => None
      end
  end.

Definition float_literal (s : string) : option literal :=
  let '(neg, body) :=
    match strip_space (chars s) with
    | "-"%char :: r => (true, r)
    | "+"%char :: r => (false, r)
    | r => (false, r)
    end in
  let word := of_chars (lower <$> body) in
  if String.eqb word "inf" || String.eqb word "infinity" then
    Some (Infinity neg)
  else if String.eqb word "nan" then Some NaN
  else '(m, e) ← floatnumber body; Some (Decimal neg m e).

(** [float(s)] *)
Definition float (s : string) : Res spec_float :=
  match float_literal s with
  | Some l => Ok (float_of_literal l)
  | None => Raise ValueError
  end.

(** [str(n)] for an [int]. *)
Definition str_int (n : Z) : string := pretty n.

(** The characters that cannot be typed inside a literal. *)
Definition dq : string := String (ascii_of_nat 34) EmptyString.
Definition nl : string := String (ascii_of_nat 10) EmptyString.
Definition tab : string := String (ascii_of_nat 9) EmptyString.

End Py.

Import Py.

(** ** combine.py *)

Module Combine.

(** [sum(map(int, fields))], also [sum([int(c) for c in fields])]: the
    first field that is not an integer literal raises. *)
Fixpoint map_int (fields : list string) : Res (list Z) :=
  match fields with
  | [] => mret []
  | c :: rest =>
      n ← int c;
      ns ← map_int rest;
      mret (n :: ns)
  end.

Definition sum (ns : list Z) : Z := foldl Z.add 0%Z ns.

Definition nonempty (c : string) : bool := negb (String.eqb c "").

(** The loop of [format_oxford] over the lines after the header. *)
Fixpoint format_oxford_loop (ox_dict : gmap string Z) (file : list string)
  : Res (gmap string Z) :=
  match file with
  | [] => mret ox_dict
  | line :: rest =>
      let line := split_on "," (strip "010" line) in
      transcript_id ← getitem line 0;
      ns ← map_int (filter (fun c => nonempty c = true) (drop 1 line));
      format_oxford_loop (<[transcript_id := sum ns]> ox_dict) rest
  end.

(** [format_oxford(abundance)] on the lines of the abundance file. *)
Definition format_oxford (file : list string) : Res (gmap string Z) :=
  match file with
  | [] => Raise StopIteration
  | _ :: rows => format_oxford_loop ∅ rows
  end.

Fixpoint format_talon_loop (talon_dict : gmap string Z) (file : list string)
  : Res (gmap string Z) :=
  match file with
  | [] => mret talon_dict
  | line :: rest =>
      let line := split_on "009" (strip "010" line) in
      transcript_id ← getitem line 3;
      ns ← map_int (drop 11 line);
      format_talon_loop (<[transcript_id := sum ns]> talon_dict) rest
  end.

(** [format_talon(abundance)] on the lines of the abundance file. *)
Definition format_talon (file : list string) : Res (gmap string Z) :=
  match file with
  | [] => Raise StopIteration
  | _ :: rows => format_talon_loop ∅ rows
  end.

(** The counts of [format_flair]: [sum] starts from the [int] [0] and
    gives a [float] as soon as one [float] has been added. *)
Inductive number : Type :=
| PyInt (n : Z)
| PyFloat (x : spec_float).

(** [map(float, fields)]: the first field that is not a float literal
    raises. *)
Fixpoint map_float (fields : list string) : Res (list spec_float) :=
  match fields with
  | [] => mret []
  | c :: rest =>
      x ← float c;
      xs ← map_float rest;
      mret (x :: xs)
  end.

(** [sum(xs)] for [float]s, added from left to right to the [int] [0]. *)
Definition sum_float (xs : list spec_float) : number :=
  match xs with
  | [] => PyInt 0
  | x :: rest => PyFloat (foldl float_add (float_add (float_of_int 0) x) rest)
  end.

Fixpoint format_flair_loop (flair_dict : gmap string number)
    (file : list string) : Res (gmap string number) :=
  match file with
  | [] => mret flair_dict
  | line :: rest =>
      let line := split_on "009" (strip "010" line) in
      transcript_id ← getitem line 0;
      xs ← map_float (drop 1 line);
      format_flair_loop (<[transcript_id := sum_float xs]> flair_dict) rest
  end.

(** [format_flair(abundance)] on the lines of the abundance file. *)
Definition format_flair (file : list string) : Res (gmap string number) :=
  match file with
  | [] => Raise StopIteration
  | _ :: rows => format_flair_loop ∅ rows
  end.

(** [sum(d.values())] *)
Definition sum_values (d : gmap string Z) : Z :=
  map_fold (fun _ v acc => (v + acc)%Z) 0%Z d.

(** *** Vocabulary of the statements on [format_flair] *)

(** The natural number a decimal [m * 10^e] stands for, if it is one. *)
Definition decimal_integer (m : N) (e : Z) : option N :=
  match e with
  | Zneg k =>
      if (m mod Npos (Pos.pow 10 k) =? 0)%N
      then Some (m / Npos (Pos.pow 10 k))%N
      else None
  | _ => Some (m * Z.to_N (10 ^ e))%N
  end.

(** The value of a field that is a decimal number without a minus sign
    and integral in value, such as [3.0]. *)
Definition field_value (c : string) : option N :=
  match float_literal c with
  | Some (Decimal false m e) => decimal_integer m e
  | _ => None
  end.

Definition flair_fields (line : string) : list string :=
  split_on "009" (strip "010" line).

Definition flair_id (line : string) : string :=
  default "" (flair_fields line !! 0).

(** The values of the count fields of a row, if all are integral. *)
Definition flair_values (line : string) : option (list N) :=
  mapM field_value (drop 1 (flair_fields line)).

Definition N_sum (ns : list N) : N := foldr N.add 0%N ns.

(** [p] followed by [k] binary zeros. *)
Definition shl (p : positive) (k : nat) : positive := Nat.iter k xO p.

(** The binary digits a positive number of at most 53 digits leaves
    free in a mantissa. *)
Definition slack (n : positive) : nat :=
  Z.to_nat (53 - Zpos (digits2_pos n)).

(** The [float] of a natural number below [2^53]: the number itself, its
    mantissa filled up to 53 digits. *)
Definition float_of_N (n : N) : spec_float :=
  match n with
  | N0 => S754_zero false
  | Npos p => S754_finite false (shl p (slack p)) (- Z.of_nat (slack p))
  end.

(** The integer a [float] is, if it is one. *)
Definition float_integer (x : spec_float) : option Z :=
  match x with
  | S754_zero _ => Some 0%Z
  | S754_finite s m e =>
      let v := if s then Zneg m else Zpos m in
      match e with
      | Zneg k =>
          if (v mod Zpos (Pos.pow 2 k) =? 0)%Z
          then Some (v / Zpos (Pos.pow 2 k))%Z
          else None
      | _ => Some (v * 2 ^ e)%Z
      end
  | _ => None
  end.

(** The integer a count is, and the sum of the counts of a dictionary of
    [format_flair] as integers. *)
Definition number_integer (c : number) : option Z :=
  match c with
  | PyInt n => Some n
  | PyFloat x => float_integer x
  end.

Definition sum_number_values (d : gmap string number) : option Z :=
  map_fold (fun _ c acc => n ← number_integer c; a ← acc; Some (n + a)%Z)
           (Some 0%Z) d.

(** The count the specification has for a row with the values [ns]. *)
Definition integral_count (ns : list N) : number :=
  match ns with
  | [] => PyInt 0
  | _ => PyFloat (float_of_N (N_sum ns))
  end.

(** *** Vocabulary of the statements on the abundance readers *)

(** The two readers with [int] counts: variant A is [format_oxford],
    variant B is [format_talon]. *)
Inductive variant : Type := Oxford | Talon.

Definition format (v : variant) (file : list string) : Res (gmap string Z) :=
  match v with
  | Oxford => format_oxford file
  | Talon => format_talon file
  end.

(** The fields of a data row, the field that holds the identifier, and the
    fields that are summed. *)
Definition row_fields (v : variant) (line : string) : list string :=
  match v with
  | Oxford => split_on "," (strip "010" line)
  | Talon => split_on "009" (strip "010" line)
  end.

Definition row_id (v : variant) (line : string) : string :=
  match v with
  | Oxford => default "" (row_fields v line !! 0)
  | Talon => default "" (row_fields v line !! 3)
  end.

Definition row_numeric (v : variant) (line : string) : list string :=
  match v with
  | Oxford => filter (fun c => nonempty c = true) (drop 1 (row_fields v line))
  | Talon => drop 11 (row_fields v line)
  end.

(** All the numeric fields of all the rows, row after row. *)
Definition numeric_fields (v : variant) (rows : list string) : list string :=
  mjoin (row_numeric v <$> rows).

(** The loop of either reader. *)
Definition format_loop (v : variant) (d : gmap string Z) (rows : list string)
  : Res (gmap string Z) :=
  match v with
  | Oxford => format_oxford_loop d rows
  | Talon => format_talon_loop d rows
  end.

(** The two files [combine] writes to: [outfile] (opened with ['w']) and
    [removed_out] (opened with ['a']). *)
Inductive stream : Type :=
| Outfile
| RemovedOut.

#[global] Instance stream_eq_dec : EqDecision stream.
Proof. solve_decision. Defined.

(** What one iteration of the loop does to the outside world, in program
    order. *)
Inductive event : Type :=
| Write (f : stream) (payload : string)
| LogWarning (msg : string)
| LogError (msg : string).

(** [line.split()[2] == 'transcript'] *)
Definition record_kind (line : string) : Res string :=
  getitem (split line) 2.

Section Loop.
(** The values of [counts] are [int]s for two pipelines and [float]s for
    the third; [combine] only compares them with [0] and prints them. *)
Context {V : Type}.
Variable is_zero : V -> bool.
Variable str_count : V -> string.
Variable origin_file : string.
Variable counts : gmap string V.

Definition kept_line (line : string) (count : V) : string :=
  slice_to_m1 line +:+ " TPM " +:+ dq +:+ str_count count +:+ dq
    +:+ ";" +:+ nl.

Definition removed_line (line : string) : string :=
  slice_to_m1 line +:+ nl.

(** The body of [for line in GTF], from the flag [write] to the events
    of this iteration and the flag afterwards. An iteration that raises
    does so before it writes or logs anything. *)
Definition combine_line (write : bool) (line : string)
  : Res (list event * bool) :=
  kind ← record_kind line;
  if String.eqb kind "transcript" then
    field ← getitem (split line) 11;
    let transcript_id := slice_1_m2 field in
    match counts !! transcript_id with
    | Some count =>
        if is_zero count then
          mret ([LogWarning ("ORIGIN: " +:+ origin_file +:+ " 0 count: "
                               +:+ transcript_id);
                 Write RemovedOut (removed_line line)], false)
        else
          mret ([Write Outfile (kept_line line count)], true)
    | None =>
        gene_field ← getitem (split line) 9;
        let gene_id := slice_1_m2 gene_field in
        let new_transcript_id := transcript_id +:+ "_" +:+ gene_id in
        match counts !! new_transcript_id with
        | Some count =>
            mret ([Write Outfile (kept_line line count)], true)
        | None =>
            mret ([LogError ("ORIGIN: " +:+ origin_file +:+ " FIRST TRY: "
                               +:+ transcript_id +:+ " SECOND TRY: "
                               +:+ new_transcript_id);
                   Write RemovedOut (removed_line line)], false)
        end
    end
  else
    mret ([Write (if write then Outfile else RemovedOut) line], write).

(** The loop [for line in GTF]. What has been written and logged stays
    when an iteration raises, so the result is the events of the run, up to
    the exception if there is one, and the outcome: the flag after the last
    line, or the exception. *)
Fixpoint combine_loop (write : bool) (GTF : list string)
  : list event * Res bool :=
  match GTF with
  | [] => ([], Ok write)
  | line :: rest =>
      match combine_line write line with
      | Ok (evs, write') =>
          let '(evs', outcome) := combine_loop write' rest in
          ((evs ++ evs')%list, outcome)
      | Raise e => ([], Raise e)
      end
  end.

End Loop.

(** [combine(gtf_file, counts, output, missing_output)], where [GTF] is
    the content of [gtf_file]: the events of the run and its outcome. *)
Definition combine {V : Type} (is_zero : V -> bool) (str_count : V -> string)
    (gtf_file : string) (GTF : list string) (counts : gmap string V)
  : list event * Res unit :=
  match getitem_last (split_on "/" gtf_file) with
  | Ok origin_file =>
      let '(evs, outcome) :=
        combine_loop is_zero str_count origin_file counts true GTF in
      (evs, _ ← outcome; mret tt)
  | Raise e => ([], Raise e)
  end.

(** The [write] calls of a trace, in order. *)
Definition writes (tr : list event) : list (stream * string) :=
  omap (fun ev => match ev with
                  | Write f payload => Some (f, payload)
                  | _ => None
                  end) tr.

(** The file the flag [write] selects for a line that is not a header. *)
Definition stream_of (write : bool) : stream :=
  if write then Outfile else RemovedOut.

(** [combine] at [int] counts. *)
Definition combine_int := combine (V:=Z) (Z.eqb 0) str_int.

(** *** Vocabulary of the statements on the outcome of the readers *)

(** The place of the identifier in the fields of a data row. *)
Definition id_slot (v : variant) : nat :=
  match v with Oxford => 0 | Talon => 3 end.

(** Whether [int] accepts a field, and [float] a field. *)
Definition is_int (c : string) : bool :=
  match int c with Ok _ => true | Raise _ => false end.

Definition is_float (c : string) : bool :=
  match float_literal c with Some _ => true | None => false end.

(** A data row a reader with [int] counts gets through: the field of the
    identifier is there, and every field that is summed is an integer
    literal. *)
Definition row_ok (v : variant) (line : string) : bool :=
  (id_slot v <? length (row_fields v line))
  && forallb is_int (row_numeric v line).

(** What a reader raises at a row it does not get through: the identifier
    is read before the counts are. *)
Definition row_error (v : variant) (line : string) : exn :=
  if id_slot v <? length (row_fields v line) then ValueError else IndexError.

(** A data row [format_flair] gets through. *)
Definition flair_row_ok (line : string) : bool :=
  forallb is_float (drop 1 (flair_fields line)).

(** *** Vocabulary of the statements on the runs of [combine] *)

(** A line [combine] gets through: it has a third field, and twelve
    fields if the third one is [transcript]. *)
Definition combine_line_ok (line : string) : bool :=
  match split line !! 2 with
  | Some kind =>
      if String.eqb kind "transcript" then 11 <? length (split line) else true
  | None => false
  end.

(** The records of the log among the events. *)
Definition is_log (ev : event) : bool :=
  match ev with
  | Write _ _ => false
  | _ => true
  end.

(** A line with the write made for it: whether the line is a transcript
    header that went to [removed_out]. *)
Definition removed_header (entry : string * (stream * string)) : bool :=
  bool_decide (record_kind entry.1 = Ok "transcript")
  && bool_decide (entry.2.1 = RemovedOut).

(** The write [combine] makes for a transcript header with the transcript
    identifier [tid] and the gene identifier [gid]. *)
Definition header_write {V : Type} (is_zero : V -> bool)
    (str_count : V -> string) (counts : gmap string V) (line : string)
    (tid gid : string) : stream * string :=
  match counts !! tid with
  | Some count =>
      if is_zero count then (RemovedOut, removed_line line)
      else (Outfile, kept_line str_count line count)
  | None =>
      match counts !! (tid +:+ "_" +:+ gid) with
      | Some count => (Outfile, kept_line str_count line count)
      | None => (RemovedOut, removed_line line)
      end
  end.

(** [count == 0] for a count of [format_flair]: a [float] equals [0] when
    it is a zero, of either sign. *)
Definition number_is_zero (c : number) : bool :=
  match c with
  | PyInt n => Z.eqb 0 n
  | PyFloat (S754_zero _) => true
  | PyFloat _ => false
  end.

End Combine.

(** ** extract_overlap.py *)

Module ExtractOverlap.

(** A [dict] that is iterated: the items in insertion order. Assigning to
    a key that is present replaces the value where it stands. *)
Fixpoint setitem {V : Type} (k : string) (v : V) (d : list (string * V))
  : list (string * V) :=
  match d with
  | [] => [(k, v)]
  | (k', v') :: d' =>
      if String.eqb k' k then (k', v) :: d' else (k', v') :: setitem k v d'
  end.

Fixpoint get {V : Type} (k : string) (d : list (string * V)) : option V :=
  match d with
  | [] => None
  | (k', v') :: d' => if String.eqb k' k then Some v' else get k d'
  end.

(** The loop [for transcript in transcripts] of [categorize_tracking]. *)
Fixpoint transcript_loop (transcripts : list string) (count : nat)
    (transcript_ids : list string) : Res (nat * list string) :=
  match transcripts with
  | [] => mret (count, transcript_ids)
  | transcript :: rest =>
      if String.eqb transcript "-" then
        transcript_loop rest (S count) (transcript_ids ++ [transcript])
      else
        transcript_id ← getitem (split_on "|" transcript) 1;
        transcript_loop rest count (transcript_ids ++ [transcript_id])
  end%list.

(** The three dictionaries, in the order they are returned. *)
Record buckets : Type := Buckets {
  three_match : list (string * list string);
  two_match : list (string * list string);
  no_match : list (string * list string)
}.

(** The body of [for line in tracking]. *)
Definition categorize_line (b : buckets) (line : string) : Res buckets :=
  let line := split line in
  let transcripts := drop 4 line in
  '(count, transcript_ids) ← transcript_loop transcripts 0 [];
  key ← getitem line 0;
  if (count =? 1)%nat then
    mret (Buckets (three_match b) (setitem key transcript_ids (two_match b))
                  (no_match b))
  else if (count =? 2)%nat then
    mret (Buckets (three_match b) (two_match b)
                  (setitem key transcript_ids (no_match b)))
  else
    mret (Buckets (setitem key transcript_ids (three_match b)) (two_match b)
                  (no_match b)).

Fixpoint categorize_loop (b : buckets) (tracking : list string)
  : Res buckets :=
  match tracking with
  | [] => mret b
  | line :: rest =>
      b' ← categorize_line b line;
      categorize_loop b' rest
  end.

(** [categorize_tracking(tracking_file)] on the lines of the file. *)
Definition categorize_tracking (tracking : list string) : Res buckets :=
  categorize_loop (Buckets [] [] []) tracking.

(** A [defaultdict(list)]: reading a missing key stores and returns a
    new empty list. *)
Definition dd_getitem (d : gmap string (list string)) (k : string)
  : list string * gmap string (list string) :=
  match d !! k with
  | Some v => (v, d)
  | None => ([], <[k := []]> d)
  end.

Definition startswith (c : ascii) (s : string) : bool :=
  match s with
  | String x _ => Ascii.eqb x c
  | EmptyString => false
  end.

Fixpoint gtf_loop (gtf_dict : gmap string (list string)) (GTF : list string)
  : Res (gmap string (list string)) :=
  match GTF with
  | [] => mret gtf_dict
  | line :: rest =>
      if startswith "#" line then gtf_loop gtf_dict rest
      else
        kind ← getitem (split line) 2;
        if String.eqb kind "gene" then gtf_loop gtf_dict rest
        else
          field ← getitem (split line) 11;
          let transcript_id := slice_1_m2 field in
          let '(lines, gtf_dict) := dd_getitem gtf_dict transcript_id in
          gtf_loop (<[transcript_id := (lines ++ [strip "010" line])%list]>
                      gtf_dict) rest
  end.

(** [gtf(file)] on the lines of the file. *)
Definition gtf (GTF : list string) : Res (gmap string (list string)) :=
  gtf_loop ∅ GTF.

(** The three annotation dictionaries [write] is handed; [main] passes
    three distinct objects, each to all three calls of [write]. *)
Record indexes : Type := Indexes {
  oxford : gmap string (list string);
  flair : gmap string (list string);
  talon : gmap string (list string)
}.

(** The payload of one [out.write] call. *)
Definition tagged (tcons_id line : string) : string :=
  line +:+ " match_id " +:+ dq +:+ tcons_id +:+ dq +:+ ";" +:+ nl.

(** The body of [for tcons_id, transcipt_ids in tracking_dict.items()]:
    the payloads written, and the dictionaries afterwards. *)
Definition write_group (ix : indexes) (tcons_id : string)
    (transcipt_ids : list string) : Res (list string * indexes) :=
  id0 ← getitem transcipt_ids 0;
  if negb (String.eqb id0 "-") then
    let '(lines, d) := dd_getitem (oxford ix) id0 in
    mret (tagged tcons_id <$> lines, Indexes d (flair ix) (talon ix))
  else
    id1 ← getitem transcipt_ids 1;
    if negb (String.eqb id1 "-") then
      let '(lines, d) := dd_getitem (flair ix) id1 in
      mret (tagged tcons_id <$> lines, Indexes (oxford ix) d (talon ix))
    else
      id2 ← getitem transcipt_ids 2;
      let '(lines, d) := dd_getitem (talon ix) id2 in
      mret (tagged tcons_id <$> lines, Indexes (oxford ix) (flair ix) d).

(** [write(tracking_dict, oxford, flair, talon, outfile)]: the content of
    [outfile] and the three dictionaries when it returns. *)
Fixpoint write (tracking_dict : list (string * list string)) (ix : indexes)
  : Res (list string * indexes) :=
  match tracking_dict with
  | [] => mret ([], ix)
  | (tcons_id, transcipt_ids) :: rest =>
      '(out, ix') ← write_group ix tcons_id transcipt_ids;
      '(out', ix'') ← write rest ix';
      mret ((out ++ out')%list, ix'')
  end.

(** [main()] on the lines of the tracking file and of the three annotation
    files: the content of the files [tracking_three], [tracking_two] and
    [tracking_one] when it returns. The dictionaries [gtf] builds are handed
    to all three calls of [write], so what one call stores in them is there
    for the next. *)
Definition main (tracking oxford_gtf flair_gtf talon_gtf : list string)
  : Res (list string * list string * list string) :=
  '(Buckets tracking_three tracking_two tracking_one) ←
    categorize_tracking tracking;
  oxford ← gtf oxford_gtf;
  flair ← gtf flair_gtf;
  talon ← gtf talon_gtf;
  '(out_three, ix) ← write tracking_three (Indexes oxford flair talon);
  '(out_two, ix) ← write tracking_two ix;
  '(out_one, _) ← write tracking_one ix;
  mret (out_three, out_two, out_one).

(** *** Vocabulary of the statements *)

(** The three pipelines, in the order of the slots of a tracking group
    ([q1 oxford, q2 flair, q3 talon]); they are the pipelines A, B and C of
    the specification. *)
Inductive pipeline : Type := Q1 | Q2 | Q3.

#[global] Instance pipeline_eq_dec : EqDecision pipeline.
Proof. solve_decision. Defined.

Definition slot (p : pipeline) : nat :=
  match p with Q1 => 0 | Q2 => 1 | Q3 => 2 end.

Definition index_of (p : pipeline) (ix : indexes)
  : gmap string (list string) :=
  match p with Q1 => oxford ix | Q2 => flair ix | Q3 => talon ix end.

Definition with_index (p : pipeline) (d : gmap string (list string))
    (ix : indexes) : indexes :=
  match p with
  | Q1 => Indexes d (flair ix) (talon ix)
  | Q2 => Indexes (oxford ix) d (talon ix)
  | Q3 => Indexes (oxford ix) (flair ix) d
  end.

(** The record an index holds for an identifier; a [defaultdict] holds
    the empty list for every key it does not have. *)
Definition record (p : pipeline) (ix : indexes) (id : string)
  : list string :=
  default [] (index_of p ix !! id).

(** The identifier a group has for pipeline [p], if the slot exists and
    is not the sentinel. *)
Definition present (ids : list string) (p : pipeline) : option string :=
  match ids !! slot p with
  | Some id => if String.eqb id "-" then None else Some id
  | None => None
  end.

(** The specification's choice: the first non-sentinel identifier in the
    priority order A, B, C. *)
Definition first_present (ids : list string) : option (pipeline * string) :=
  match present ids Q1, present ids Q2, present ids Q3 with
  | Some id, _, _ => Some (Q1, id)
  | None, Some id, _ => Some (Q2, id)
  | None, None, Some id => Some (Q3, id)
  | None, None, None => None
  end.

(** The choice of the [if]/[elif]/[else] chain of [write]: the last
    branch does not test its slot. *)
Definition chosen (ids : list string) : Res (pipeline * string) :=
  id0 ← getitem ids 0;
  if negb (String.eqb id0 "-") then mret (Q1, id0)
  else
    id1 ← getitem ids 1;
    if negb (String.eqb id1 "-") then mret (Q2, id1)
    else
      id2 ← getitem ids 2;
      mret (Q3, id2).

(** What the specification has [write] emit for one group: every line of
    the record of the first pipeline that is present, with the field
    [match_id] of the group appended. The field is written out here in the
    specification's words; it is not taken from [tagged]. *)
Definition representative_lines (ix : indexes)
    (group : string * list string) : list string :=
  match first_present group.2 with
  | Some (p, id) =>
      (fun line =>
         line +:+ " match_id " +:+ dq +:+ group.1 +:+ dq +:+ ";" +:+ nl)
        <$> record p ix id
  | None => []
  end.

(** The identifiers [write] looks up in the index of pipeline [p]. *)
Fixpoint looked_up (p : pipeline)
    (tracking_dict : list (string * list string)) : gset string :=
  match tracking_dict with
  | [] => ∅
  | (_, ids) :: rest =>
      match chosen ids with
      | Ok (q, id) =>
          if decide (q = p) then {[ id ]} ∪ looked_up p rest
          else looked_up p rest
      | Raise _ => looked_up p rest
      end
  end.

(** The number of sentinels among the pipeline fields of a tracking
    line, and the group identifier of the line. *)
Definition sentinels (line : string) : nat :=
  length (filter (fun t => t = "-") (drop 4 (split line))).

Definition group_id (line : string) : string :=
  default "" (split line !! 0).

(** The three buckets, and the one the chain [if count == 1] /
    [elif count == 2] / [else] selects for a sentinel count. *)
Inductive bucket_name : Type := ThreeMatch | TwoMatch | NoMatch.

#[global] Instance bucket_name_eq_dec : EqDecision bucket_name.
Proof. solve_decision. Defined.

Definition bucket (k : bucket_name) (b : buckets)
  : list (string * list string) :=
  match k with
  | ThreeMatch => three_match b
  | TwoMatch => two_match b
  | NoMatch => no_match b
  end.

Definition bucket_for (count : nat) : bucket_name :=
  match count with
  | 1 => TwoMatch
  | 2 => NoMatch
  | _ => ThreeMatch
  end.

Definition total (b : buckets) : nat :=
  length (three_match b) + length (two_match b) + length (no_match b).

(** *** Vocabulary of the statements on [gtf] *)

(** A line [gtf] gets through: a comment, or a line with a third field,
    and with twelve fields unless the third one is [gene]. *)
Definition gtf_line_ok (line : string) : bool :=
  startswith "#" line
  || match split line !! 2 with
     | Some kind => String.eqb kind "gene" || (11 <? length (split line))
     | None => false
     end.

(** The identifier [gtf] stores a line under, if it stores the line. *)
Definition gtf_key (line : string) : option string :=
  if startswith "#" line then None
  else
    match split line !! 2 with
    | Some kind =>
        if String.eqb kind "gene" then None
        else slice_1_m2 <$> split line !! 11
    | None => None
    end.

(** *** Vocabulary of the statements on the outcome of
    [categorize_tracking] *)

(** A pipeline field the inner loop gets through: the sentinel, or a field
    with a [|] in it. *)
Definition transcript_ok (transcript : string) : bool :=
  String.eqb transcript "-" || (1 <? length (split_on "|" transcript)).

(** A line [categorize_tracking] gets through. *)
Definition tracking_line_ok (line : string) : bool :=
  forallb transcript_ok (drop 4 (split line)) && (0 <? length (split line)).

(** What the inner loop appends for a pipeline field, and the entry a
    line makes in its dictionary. *)
Definition transcript_id_of (transcript : string) : string :=
  if String.eqb transcript "-" then transcript
  else default "" (split_on "|" transcript !! 1).

Definition transcript_ids_of (line : string) : list string :=
  transcript_id_of <$> drop 4 (split line).

Definition group_of (line : string) : string * list string :=
  (group_id line, transcript_ids_of line).

(** *** Vocabulary of the statements on the outcome of [write] and on
    [main] *)

(** A group that has the slots the chain of [write] reads: slot 0, then
    slot 1 if slot 0 is the sentinel, then slot 2 if slot 1 is the sentinel
    as well. *)
Definition slots_ok (ids : list string) : bool :=
  match ids with
  | [] => false
  | id0 :: rest =>
      negb (String.eqb id0 "-")
      || match rest with
         | [] => false
         | id1 :: rest' => negb (String.eqb id1 "-") || (0 <? length rest')
         end
  end.

(** The lines [write] emits for a group: the record of the identifier the
    chain picks, whether it is the sentinel or not. *)
Definition chosen_lines (ix : indexes) (group : string * list string)
  : list string :=
  match chosen group.2 with
  | Ok (p, id) => tagged group.1 <$> record p ix id
  | Raise _ => []
  end.

(** The annotation file of a pipeline, and the file [main] writes for a
    bucket. *)
Definition annotation (p : pipeline)
    (oxford_gtf flair_gtf talon_gtf : list string) : list string :=
  match p with Q1 => oxford_gtf | Q2 => flair_gtf | Q3 => talon_gtf end.

Definition output (k : bucket_name)
    (outs : list string * list string * list string) : list string :=
  match k with
  | ThreeMatch => outs.1.1
  | TwoMatch => outs.1.2
  | NoMatch => outs.2
  end.

(** The lines of the annotation file of the pipeline the chain picks
    that [gtf] stores under the picked identifier, each without its line
    terminator and followed by a space, the field [match_id], the group
    identifier between double quotes, a semicolon and a line terminator.
    The field is written out here; it is not taken from [tagged]. *)
Definition group_lines (oxford_gtf flair_gtf talon_gtf : list string)
    (group : string * list string) : list string :=
  match chosen group.2 with
  | Ok (p, id) =>
      (fun line =>
         strip "010" line +:+ " match_id " +:+ dq +:+ group.1 +:+ dq
           +:+ ";" +:+ nl)
        <$> filter (fun line => gtf_key line = Some id)
                   (annotation p oxford_gtf flair_gtf talon_gtf)
  | Raise _ => []
  end.

End ExtractOverlap.

Import Combine ExtractOverlap.

(** ** Sample data *)

(** A line of an annotation file: eight tab-separated columns, then the
    attributes [gene_id] and [transcript_id]. *)
Definition gtf_line (kind gene_id transcript_id : string) : string :=
  "chr1" +:+ tab +:+ "tool" +:+ tab +:+ kind +:+ tab +:+ "100" +:+ tab
    +:+ "900" +:+ tab +:+ "." +:+ tab +:+ "+" +:+ tab +:+ "." +:+ tab
    +:+ "gene_id " +:+ dq +:+ gene_id +:+ dq +:+ "; transcript_id "
    +:+ dq +:+ transcript_id +:+ dq +:+ ";" +:+ nl.

Definition sample_gtf : list string :=
  [ "# made by tool";
    gtf_line "transcript" "G1" "T1";
    gtf_line "exon" "G1" "T1";
    gtf_line "transcript" "G5" "T2";
    gtf_line "exon" "G5" "T2";
    gtf_line "exon" "G5" "T2";
    gtf_line "transcript" "G7" "T3";
    gtf_line "exon" "G7" "T3" ].

Definition sample_counts : gmap string Z :=
  {[ "T1" := 4%Z; "T2" := 0%Z ]}.

(** An oxford abundance file (scenario 1 of the specification is its first
    row), a talon abundance file, and an oxford file in which an identifier
    comes twice. *)
Definition sample_oxford : list string :=
  [ "ids,sample1,sample2,sample3" +:+ nl;
    "T1,4,,2" +:+ nl;
    "T2,,,7" +:+ nl ].

Definition talon_row (transcript_id : string) (counts : list string)
  : string :=
  foldr (fun c acc => c +:+ tab +:+ acc) ""
        (["1"; "1"; "G1"; transcript_id; "g"; "t"; "1"; "1000"; "Known";
          "No"; "Known"] ++ counts).

Definition sample_talon : list string :=
  [ "header" +:+ nl;
    talon_row "L1" ["3"] +:+ "5" +:+ nl;
    talon_row "L3" ["0"] +:+ "1" +:+ nl ].

Definition repeated_oxford : list string :=
  [ "ids,sample1,sample2,sample3" +:+ nl;
    "T1,4,,2" +:+ nl;
    "T1,1,," +:+ nl ].

(** A flair abundance file; the counts of the last row add up to
    [2^53 + 1]. *)
Definition sample_flair : list string :=
  [ "ids" +:+ tab +:+ "sample1" +:+ tab +:+ "sample2" +:+ nl;
    "F1" +:+ tab +:+ "3.0" +:+ tab +:+ "2.0" +:+ nl;
    "F2" +:+ tab +:+ "0.0" +:+ tab +:+ "12.0" +:+ nl;
    "F3" +:+ tab +:+ "9007199254740992.0" +:+ tab +:+ "1.0" +:+ nl ].

(** Three small indexes and a bucket of tracking groups over them. *)
Definition sample_indexes : indexes :=
  Indexes {[ "T1" := ["ox T1"; "ox T1 exon"] ]}
          {[ "F1" := ["fl F1"]; "F2" := ["fl F2"; "fl F2 exon"] ]}
          {[ "L3" := ["ta L3"] ]}.

(** An annotation file as [gtf] reads it: a comment, a gene line and two
    transcripts, the exons of the first one apart. *)
Definition sample_annotation : list string :=
  [ "# made by tool" +:+ nl;
    "chr1" +:+ tab +:+ "tool" +:+ tab +:+ "gene" +:+ tab +:+ "100" +:+ nl;
    gtf_line "transcript" "G1" "T1";
    gtf_line "exon" "G1" "T1";
    gtf_line "transcript" "G5" "T2";
    gtf_line "exon" "G1" "T1" ].

Definition sample_bucket : list (string * list string) :=
  [ ("TCONS_00000001", ["T1"; "F1"; "-"]);
    ("TCONS_00000002", ["-"; "F2"; "L3"]);
    ("TCONS_00000003", ["-"; "-"; "L3"]) ].

(** Three lines of a tracking file, one for each bucket, and a file in
    which a group identifier comes twice. *)
Definition sample_tracking : list string :=
  [ "TCONS_00000001 XLOC_000001 G1|T1 = q1:G1|T1|1 q2:G1|F1|1 q3:G1|L1|1" +:+ nl;
    "TCONS_00000002 XLOC_000002 G2|T2 c q1:G2|T2|2 q2:G2|F2|2 -" +:+ nl;
    "TCONS_00000003 XLOC_000003 - u - - q3:G3|L3|1" +:+ nl ].

Definition repeated_tracking : list string :=
  [ "TCONS_00000001 XLOC_000001 G1|T1 = q1:G1|T1|1 q2:G1|F1|1 -" +:+ nl;
    "TCONS_00000001 XLOC_000001 G1|T1 = q1:G1|T1|1 q2:G1|F9|1 -" +:+ nl ].

(** A group whose oxford transcript is in no index. *)
Definition stray_bucket : list (string * list string) :=
  [ ("TCONS_00000004", ["T404"; "-"; "-"]) ].

(** An oxford abundance file in which [T2] has empty count fields only. *)
Definition empty_count_oxford : list string :=
  [ "ids,sample1,sample2,sample3" +:+ nl;
    "T1,4,,2" +:+ nl;
    "T2,,," +:+ nl ].

(** The annotation files of flair and talon that go with the sample
    tracking file; [sample_annotation] is the one of oxford. *)
Definition sample_flair_gtf : list string :=
  [ gtf_line "transcript" "G1" "F1";
    gtf_line "exon" "G1" "F1";
    gtf_line "transcript" "G2" "F2" ].

Definition sample_talon_gtf : list string :=
  [ gtf_line "transcript" "G1" "L1";
    gtf_line "transcript" "G3" "L3";
    gtf_line "exon" "G3" "L3" ].

(** The sample tracking file followed by a line of two fields, and a
    tracking file whose pipeline field has no [|]. *)
Definition short_tracking : list string :=
  sample_tracking ++ [ "TCONS_00000009 XLOC_000009" +:+ nl ].

Definition broken_tracking : list string :=
  [ "TCONS_00000001 XLOC_000001 G1|T1 = q1:G1" +:+ nl ].

(** * Properties *)

(** ** The primitives on sample inputs *)

Example split_gtf_line :
  split (gtf_line "exon" "G5" "T2")
  = ["chr1"; "tool"; "exon"; "100"; "900"; "."; "+"; "."; "gene_id";
     dq +:+ "G5" +:+ dq +:+ ";"; "transcript_id"; dq +:+ "T2" +:+ dq +:+ ";"].
Proof. reflexivity. Qed.

Example split_on_keeps_empty_fields :
  split_on "," (strip "010" ("T1,4,,2" +:+ nl)) = ["T1"; "4"; ""; "2"].
Proof. reflexivity. Qed.

Example slice_identifier :
  slice_1_m2 (dq +:+ "T2" +:+ dq +:+ ";") = "T2" /\ slice_1_m2 "ab" = "".
Proof. split; reflexivity. Qed.

(** [float] on literals: an integral decimal, a fraction that is rounded,
    a tie that goes to the even neighbour, an overflow, and a string that
    is no number. *)
Example float_literals :
  float "3.0" = Ok (float_of_N 3) /\
  float "0.1" = Ok (S754_finite false 7205759403792794 (-56)) /\
  float "9007199254740993.0" = Ok (S754_finite false 4503599627370496 1) /\
  float "1e400" = Ok (S754_infinity false) /\
  float " -1_0.5e1 " = Ok (S754_finite true 7388718138654720 (-46)) /\
  float "3,0" = Raise ValueError.
Proof. repeat split; vm_compute; reflexivity. Qed.

Example int_literals :
  int " -1_000 " = Ok (-1000)%Z /\ int "+7" = Ok 7%Z /\
  int "" = Raise ValueError /\ int "3.0" = Raise ValueError /\
  int "1__0" = Raise ValueError.
Proof. repeat split; reflexivity. Qed.


(** ** The result monad *)

Lemma bind_Ok {A B : Type} (m : Res A) (k : A -> Res B) (b : B) :
  m ≫= k = Ok b -> exists a, m = Ok a /\ k a = Ok b.
Proof.
  destruct m as [a|e]; [|discriminate].
  intros H. exists a. split; [reflexivity|exact H].
Qed.

Lemma getitem_Ok {A : Type} (l : list A) (i : nat) (x : A) :
  getitem l i = Ok x <-> l !! i = Some x.
Proof.
  unfold getitem. destruct (l !! i); split; intros H; inversion H; reflexivity.
Qed.

(** Take apart a successful sequence of binds in hypothesis [H]. *)
Ltac res_inv H :=
  repeat match type of H with
    | _ ≫= _ = Ok _ =>
        let a := fresh "a" in
        let Ha := fresh "Ha" in
        apply bind_Ok in H as (a & Ha & H)
    | (let '(_, _) := ?p in _) = Ok _ => destruct p
    end;
  cbv [mret Res_ret] in H.

(** ** combine: one iteration *)

Section CombineFacts.
Context {V : Type}.
Variable is_zero : V -> bool.
Variable str_count : V -> string.
Variable counts : gmap string V.

Abbreviation is_header line := (record_kind line = Ok "transcript").
Abbreviation step o := (combine_line is_zero str_count o counts).
Abbreviation loop o := (combine_loop is_zero str_count o counts).

(** A header line is written once: annotated to [outfile], and then the
    flag is set, or as it is to [removed_out], and then the flag is
    cleared. *)
Lemma combine_line_header o write line evs write' :
  is_header line ->
  step o write line = Ok (evs, write') ->
  exists payload,
    writes evs = [(stream_of write', payload)] /\
    (if write' then exists count, payload = kept_line str_count line count
     else payload = removed_line line).
Proof.
  intros Hk H. unfold combine_line in H. rewrite Hk in H. simpl in H.
  res_inv H.
  destruct (counts !! slice_1_m2 a) as [count|].
  - destruct (is_zero count); injection H as <- <-; simpl; eauto.
  - res_inv H.
    destruct (counts !! _) as [count|]; injection H as <- <-; simpl; eauto.
Qed.

(** Any other line is copied to the file the flag selects, and leaves the
    flag alone. *)
Lemma combine_line_other o write line evs write' :
  record_kind line <> Ok "transcript" ->
  step o write line = Ok (evs, write') ->
  evs = [Write (stream_of write) line] /\ write' = write.
Proof.
  intros Hk H. unfold combine_line in H.
  apply bind_Ok in H as (kind & Hkind & H).
  destruct (String.eqb_spec kind "transcript") as [->|Hne].
  - contradiction.
  - injection H as <- <-. split; reflexivity.
Qed.

Lemma writes_app tr1 tr2 : writes (tr1 ++ tr2) = writes tr1 ++ writes tr2.
Proof. unfold writes. apply omap_app. Qed.

Lemma combine_line_one_write o write line evs write' :
  step o write line = Ok (evs, write') -> length (writes evs) = 1.
Proof.
  intros H.
  destruct (decide (is_header line)) as [Hk|Hk].
  - destruct (combine_line_header _ _ _ _ _ Hk H) as (p & -> & _). reflexivity.
  - destruct (combine_line_other _ _ _ _ _ Hk H) as [-> _]. reflexivity.
Qed.

(** ** combine: the loop *)

Lemma combine_loop_cons o write line rest tr write'' :
  loop o write (line :: rest) = (tr, Ok write'') ->
  exists evs write' tr',
    step o write line = Ok (evs, write') /\
    loop o write' rest = (tr', Ok write'') /\
    tr = evs ++ tr'.
Proof.
  simpl. intros H.
  destruct (step o write line) as [[evs w1]|e]; [|discriminate].
  destruct (loop o w1 rest) as [tr' r] eqn:Hrest.
  injection H as <- ->. eauto 6.
Qed.

Lemma combine_loop_app o write l1 l2 tr write'' :
  loop o write (l1 ++ l2) = (tr, Ok write'') ->
  exists tr1 write' tr2,
    loop o write l1 = (tr1, Ok write') /\
    loop o write' l2 = (tr2, Ok write'') /\
    tr = tr1 ++ tr2.
Proof.
  revert write tr. induction l1 as [|line l1 IH]; intros write tr H.
  - exists [], write, tr. auto.
  - apply combine_loop_cons in H as (evs & w1 & tr' & Hstep & Hrest & ->).
    apply IH in Hrest as (tr1 & w' & tr2 & H1 & H2 & ->).
    exists (evs ++ tr1), w', tr2. simpl. rewrite Hstep, H1.
    split; [reflexivity|]. split; [assumption|apply app_assoc].
Qed.

Lemma combine_loop_length o write l tr write' :
  loop o write l = (tr, Ok write') -> length (writes tr) = length l.
Proof.
  revert write tr. induction l as [|line l IH]; intros write tr H.
  - injection H as <- _. reflexivity.
  - apply combine_loop_cons in H as (evs & w1 & tr' & Hstep & Hrest & ->).
    rewrite writes_app, length_app.
    rewrite (combine_line_one_write _ _ _ _ _ Hstep), (IH _ _ Hrest).
    reflexivity.
Qed.


(** A run that raises has done what the run on the lines before the
    exception does: [n] is the number of lines it has dealt with. *)
Lemma combine_loop_processed o GTF : forall write tr outcome,
  loop o write GTF = (tr, outcome) ->
  exists n write',
    loop o write (take n GTF) = (tr, Ok write') /\
    length (writes tr) = n /\
    n <= length GTF /\
    (forall write'', outcome = Ok write'' -> n = length GTF).
Proof.
  induction GTF as [|line rest IH]; intros write tr outcome H.
  - injection H as <- <-. exists 0, write. repeat split; auto.
  - simpl in H. destruct (step o write line) as [[evs w1]|e] eqn:Hstep.
    + destruct (loop o w1 rest) as [tr' r] eqn:Hrest. injection H as <- <-.
      destruct (IH _ _ _ Hrest) as (n & w' & Hn & Hlen & Hle & Hall).
      exists (S n), w'. simpl. rewrite Hstep, Hn.
      split; [reflexivity|]. split; [|split].
      * rewrite writes_app, length_app, Hlen.
        rewrite (combine_line_one_write _ _ _ _ _ Hstep). reflexivity.
      * lia.
      * intros w'' Hr. rewrite (Hall _ Hr). reflexivity.
    + injection H as <- <-. exists 0, write.
      split; [reflexivity|]. split; [reflexivity|]. split; [simpl; lia|].
      discriminate.
Qed.

Lemma getitem_last_split_on sep s :
  exists x, getitem_last (split_on sep s) = Ok x.
Proof.
  unfold getitem_last, split_on. generalize (@nil ascii) as cur.
  induction (chars s) as [|c cs IH]; intros cur; simpl.
  - eauto.
  - destruct (Ascii.eqb c sep).
    + destruct (IH []) as [x Hx]. exists x.
      destruct (split_on_go sep [] cs) as [|y ys]; [discriminate|].
      destruct (last (y :: ys)) eqn:E; [|discriminate].
      rewrite last_cons, E. exact Hx.
    + apply IH.
Qed.

(** [combine] is its loop, started with the flag set. *)
Lemma combine_loop_of gtf_file GTF tr outcome :
  combine is_zero str_count gtf_file GTF counts = (tr, outcome) ->
  exists o outcome',
    loop o true GTF = (tr, outcome') /\
    (outcome = Ok tt <-> exists write', outcome' = Ok write').
Proof.
  unfold combine. intros H.
  destruct (getitem_last_split_on "/" gtf_file) as [o Ho]. rewrite Ho in H.
  destruct (loop o true GTF) as [evs r] eqn:Hloop. injection H as <- <-.
  exists o, r. split; [exact Hloop|].
  destruct r as [w|e]; simpl; split; eauto; try discriminate.
  intros [w' Hw]. discriminate.
Qed.


(** ** combine: routing of the lines *)

(** C5. In a run of [combine] that raises nothing there are as many
    writes as lines of the annotation file, and the write at the place of
    a transcript header is that header: either with its count appended,
    to [outfile], or as it stands, to [removed_out]. So each header goes
    to exactly one of the two files. *)
Theorem combine_header_exactly_one_stream gtf_file GTF tr :
  combine is_zero str_count gtf_file GTF counts = (tr, Ok tt) ->
  length (writes tr) = length GTF /\
  forall i line,
    GTF !! i = Some line ->
    is_header line ->
    (exists count,
        writes tr !! i = Some (Outfile, kept_line str_count line count)) \/
    writes tr !! i = Some (RemovedOut, removed_line line).
Proof.
  intros H. apply combine_loop_of in H as (o & r & H & Hr).
  destruct (proj1 Hr eq_refl) as [wf ->]. split.
  - eapply combine_loop_length, H.
  - intros i line Hi Hk.
    rewrite <- (take_drop_middle _ _ _ Hi) in H.
    apply combine_loop_app in H as (tr1 & w1 & tr2 & H1 & H2 & ->).
    apply combine_loop_cons in H2 as (evs & w2 & tr' & Hstep & _ & ->).
    apply combine_loop_length in H1.
    assert (length (writes tr1) = i) as Hlen.
    { rewrite H1, length_take. apply lookup_lt_Some in Hi. lia. }
    destruct (combine_line_header _ _ _ _ _ Hk Hstep) as (p & Hw & Hp).
    rewrite !writes_app, Hw, <- Hlen.
    rewrite lookup_app_r by lia. rewrite Nat.sub_diag. simpl.
    destruct w2; [left|right].
    + destruct Hp as [count ->]. eauto.
    + subst p. reflexivity.
Qed.






End CombineFacts.

(** The sample annotation: [T1] is kept, [T2] has no reads and [T3] is
    unknown, so five lines go to [removed_out]. *)
Lemma combine_header_exactly_one_stream_witness :
  exists tr,
    combine_int "results/oxford.gtf" sample_gtf sample_counts = (tr, Ok tt) /\
    (length (writes tr) = length sample_gtf /\
     forall i line,
       sample_gtf !! i = Some line ->
       record_kind line = Ok "transcript" ->
       (exists count,
           writes tr !! i = Some (Outfile, kept_line str_int line count)) \/
       writes tr !! i = Some (RemovedOut, removed_line line)).
Proof.
  eexists. split.
  - vm_compute. reflexivity.
  - apply (combine_header_exactly_one_stream
             (Z.eqb 0) str_int sample_counts "results/oxford.gtf" sample_gtf).
    vm_compute. reflexivity.
Defined.



(** Scenario 2 of the specification: [T1] has the count 0, so its header
    and its exon go to [removed_out] and a warning is logged. *)
Example combine_zero_count :
  combine_int "results/oxford.gtf"
              [gtf_line "transcript" "G1" "T1"; gtf_line "exon" "G1" "T1"]
              {[ "T1" := 0%Z ]}
  = ([ LogWarning "ORIGIN: oxford.gtf 0 count: T1";
       Write RemovedOut (gtf_line "transcript" "G1" "T1");
       Write RemovedOut (gtf_line "exon" "G1" "T1") ],
     Ok tt).
Proof. vm_compute. reflexivity. Qed.

(** Scenario 3 of the specification: [T2] is not in [counts], [T2_G5] is,
    with the count 3. *)
Example combine_second_lookup :
  combine_int "results/flair.gtf" [gtf_line "transcript" "G5" "T2"]
              {[ "T2_G5" := 3%Z ]}
  = ([ Write Outfile
             (kept_line str_int (gtf_line "transcript" "G5" "T2") 3%Z) ],
     Ok tt).
Proof. vm_compute. reflexivity. Qed.

(** A transcript in neither form: both identifiers are logged. *)
Example combine_missing :
  combine_int "results/flair.gtf" [gtf_line "transcript" "G5" "T2"] ∅
  = ([ LogError "ORIGIN: flair.gtf FIRST TRY: T2 SECOND TRY: T2_G5";
       Write RemovedOut (gtf_line "transcript" "G5" "T2") ],
     Ok tt).
Proof. vm_compute. reflexivity. Qed.

(** A run that stops: the third line has two fields only, and the two
    lines before it have been written. *)
Example combine_stops_at_short_line :
  combine_int "results/oxford.gtf"
              [gtf_line "transcript" "G1" "T1"; gtf_line "exon" "G1" "T1";
               "chr1 tool"; gtf_line "exon" "G1" "T1"]
              sample_counts
  = ([ Write Outfile
             (kept_line str_int (gtf_line "transcript" "G1" "T1") 4%Z);
       Write Outfile (gtf_line "exon" "G1" "T1") ],
     Raise IndexError).
Proof. vm_compute. reflexivity. Qed.

(** ** combine: the second lookup *)

(** When the first lookup fails and the second one succeeds, the header is
    written to [outfile] with the count found, whatever that count is: the
    comparison with [0] is made after the first lookup only. *)
Lemma combine_line_second_lookup {V : Type} (is_zero : V -> bool)
    (str_count : V -> string) (counts : gmap string V)
    (o : string) (write : bool) (line tid gid : string) (count : V) :
  record_kind line = Ok "transcript" ->
  slice_1_m2 <$> split line !! 11 = Some tid ->
  slice_1_m2 <$> split line !! 9 = Some gid ->
  counts !! tid = None ->
  counts !! (tid +:+ "_" +:+ gid) = Some count ->
  combine_line is_zero str_count o counts write line
    = Ok ([Write Outfile (kept_line str_count line count)], true).
Proof.
  intros Hk H11 H9 Hmiss Hhit. unfold combine_line. rewrite Hk. simpl.
  destruct (split line !! 11) as [f11|] eqn:E11; [|discriminate].
  destruct (split line !! 9) as [f9|] eqn:E9; [|discriminate].
  injection H11 as <-. injection H9 as <-.
  unfold getitem. rewrite E11. simpl. rewrite Hmiss, E9. simpl.
  rewrite Hhit. reflexivity.
Qed.

(** C2. The header of [T2] (gene [G5]) with [counts = {T2_G5: 0}]: the
    header and its exon are written to [outfile], the header with the
    field [TPM "0";], nothing is logged and nothing reaches
    [removed_out]. *)
Theorem combine_second_lookup_zero_is_kept :
  combine_int "results/flair.gtf"
              [gtf_line "transcript" "G5" "T2"; gtf_line "exon" "G5" "T2"]
              {[ "T2_G5" := 0%Z ]}
  = ([ Write Outfile
             (slice_to_m1 (gtf_line "transcript" "G5" "T2")
                +:+ " TPM " +:+ dq +:+ "0" +:+ dq +:+ ";" +:+ nl);
       Write Outfile (gtf_line "exon" "G5" "T2") ],
     Ok tt).
Proof. vm_compute. reflexivity. Qed.

(** ** write: one group *)

Section WriteFacts.
Implicit Types (ix : indexes) (ids : list string) (p q : pipeline).
Implicit Types (d : gmap string (list string)).

Lemma dd_getitem_union d k :
  dd_getitem d k = (default [] (d !! k), d ∪ {[ k := [] ]}).
Proof.
  unfold dd_getitem. destruct (d !! k) as [v|] eqn:E; simpl; f_equal.
  - symmetry. apply map_eq. intros j. rewrite lookup_union.
    destruct (decide (j = k)) as [->|Hne].
    + rewrite E, lookup_singleton_eq. reflexivity.
    + rewrite lookup_singleton_ne by congruence.
      destruct (d !! j); reflexivity.
  - rewrite insert_union_singleton_r by assumption. reflexivity.
Qed.

(** The three branches of [write] differ only in the dictionary they
    read. *)
Lemma write_group_chosen ix tcons_id ids :
  write_group ix tcons_id ids =
    '(p, id) ← chosen ids;
    mret (tagged tcons_id <$> record p ix id,
          with_index p (index_of p ix ∪ {[ id := [] ]}) ix).
Proof.
  unfold write_group, chosen, record.
  destruct (getitem ids 0) as [id0|]; simpl; [|reflexivity].
  destruct (String.eqb id0 "-"); simpl.
  - destruct (getitem ids 1) as [id1|]; simpl; [|reflexivity].
    destruct (String.eqb id1 "-"); simpl.
    + destruct (getitem ids 2) as [id2|]; simpl; [|reflexivity].
      rewrite dd_getitem_union. reflexivity.
    + rewrite dd_getitem_union. reflexivity.
  - rewrite dd_getitem_union. reflexivity.
Qed.

(** Where a group has a non-sentinel identifier, the chain picks the
    first one. *)
Lemma first_present_chosen ids p id :
  first_present ids = Some (p, id) -> chosen ids = Ok (p, id).
Proof.
  unfold first_present, present, chosen, getitem, slot.
  destruct ids as [|id0 [|id1 [|id2 rest]]]; simpl;
    repeat match goal with
      | |- context [String.eqb ?x "-"] => destruct (String.eqb x "-"); simpl
      end;
    cbv [mret Res_ret]; congruence.
Qed.

Lemma index_of_with_index p q d ix :
  index_of p (with_index q d ix) = if decide (p = q) then d else index_of p ix.
Proof. destruct p, q, ix; reflexivity. Qed.

(** Reading a key does not change the record of any key. *)
Lemma record_with_index p q id ix k :
  record p (with_index q (index_of q ix ∪ {[ id := [] ]}) ix) k = record p ix k.
Proof.
  unfold record. rewrite index_of_with_index.
  destruct (decide (p = q)) as [->|]; [|reflexivity].
  rewrite lookup_union. destruct (decide (k = id)) as [->|Hne].
  - rewrite lookup_singleton_eq. destruct (index_of q ix !! id); reflexivity.
  - rewrite lookup_singleton_ne by congruence.
    destruct (index_of q ix !! k); reflexivity.
Qed.

Lemma representative_lines_with_index q id ix group :
  representative_lines (with_index q (index_of q ix ∪ {[ id := [] ]}) ix) group
  = representative_lines ix group.
Proof.
  unfold representative_lines.
  destruct (first_present group.2) as [[p k]|]; [|reflexivity].
  rewrite record_with_index. reflexivity.
Qed.

Lemma write_cons tcons_id ids rest ix p id :
  chosen ids = Ok (p, id) ->
  write ((tcons_id, ids) :: rest) ix =
    '(out', ix'') ←
       write rest (with_index p (index_of p ix ∪ {[ id := [] ]}) ix);
    mret (((tagged tcons_id <$> record p ix id) ++ out'), ix'').
Proof.
  intros Hc. simpl. rewrite write_group_chosen, Hc. reflexivity.
Qed.

(** ** write: the whole bucket *)

(** C7. When every group of the bucket has an identifier that is not the
    sentinel, [write] returns, and the file it wrote is, group after
    group, the record of the first pipeline in the order A, B, C whose
    slot is not the sentinel, each line followed by a space, the field
    [match_id], the group identifier between double quotes, a semicolon
    and a line terminator; a group with an identifier for A gets the
    record of A. *)
Theorem write_emits_first_present tracking_dict ix :
  Forall (fun group => is_Some (first_present group.2)) tracking_dict ->
  (exists ix',
      write tracking_dict ix
      = Ok (mjoin (representative_lines ix <$> tracking_dict), ix')) /\
  (forall group a,
      group ∈ tracking_dict ->
      present group.2 Q1 = Some a ->
      representative_lines ix group
      = (fun line =>
           line +:+ " match_id " +:+ dq +:+ group.1 +:+ dq +:+ ";" +:+ nl)
          <$> record Q1 ix a) /\
  (forall group p id,
      group ∈ tracking_dict ->
      first_present group.2 = Some (p, id) ->
      representative_lines ix group
      = (fun line =>
           line +:+ " match_id " +:+ dq +:+ group.1 +:+ dq +:+ ";" +:+ nl)
          <$> record p ix id).
Proof.
  intros Hall. split; [|split].
  - revert ix. induction Hall as [|[tcons_id ids] rest [[p id] Hfp] _ IH];
      intros ix.
    + exists ix. reflexivity.
    + rewrite (write_cons _ _ _ _ _ _ (first_present_chosen _ _ _ Hfp)).
      destruct (IH (with_index p (index_of p ix ∪ {[ id := [] ]}) ix))
        as [ix' ->].
      exists ix'. simpl in Hfp. rewrite fmap_cons.
      change (mjoin (representative_lines ix (tcons_id, ids)
                       :: (representative_lines ix <$> rest)))
        with (representative_lines ix (tcons_id, ids)
                ++ mjoin (representative_lines ix <$> rest)).
      unfold representative_lines at 2. cbn [fst snd]. rewrite Hfp.
      unfold tagged. cbv [mret Res_ret mbind Res_bind]. do 4 f_equal.
      apply list_fmap_ext. intros _ group _.
      apply representative_lines_with_index.
  - intros [tcons_id ids] a _ Ha. unfold representative_lines, first_present.
    simpl in *. rewrite Ha. reflexivity.
  - intros group p id _ Hfp. unfold representative_lines. rewrite Hfp.
    reflexivity.
Qed.

(** C1. A group whose chosen identifier is missing from its index is not
    an error: the group writes no line, the identifier enters the index
    with an empty record, and [write] goes on with the groups that
    follow. *)
Theorem write_absent_identifier_is_skipped tcons_id ids rest ix p id :
  first_present ids = Some (p, id) ->
  index_of p ix !! id = None ->
  let ix1 := with_index p (<[ id := [] ]> (index_of p ix)) ix in
  write_group ix tcons_id ids = Ok ([], ix1) /\
  write ((tcons_id, ids) :: rest) ix = write rest ix1.
Proof.
  intros Hfp Hmiss ix1. apply first_present_chosen in Hfp.
  assert (index_of p ix ∪ {[ id := [] ]} = <[ id := [] ]> (index_of p ix))
    as Hins by (symmetry; apply insert_union_singleton_r, Hmiss).
  split.
  - rewrite write_group_chosen, Hfp. simpl. unfold record.
    rewrite Hmiss, Hins. reflexivity.
  - rewrite (write_cons _ _ _ _ _ _ Hfp). unfold record.
    rewrite Hmiss, Hins. fold ix1.
    destruct (write rest ix1) as [[out ix'']|e]; reflexivity.
Qed.

Lemma union_empty_records d id (S : gset string) :
  (d ∪ {[ id := [] ]}) ∪ gset_to_gmap [] S
  = d ∪ gset_to_gmap [] ({[ id ]} ∪ S).
Proof.
  rewrite <- (assoc_L (∪)). f_equal.
  rewrite gset_to_gmap_union_singleton.
  symmetry. apply insert_union_singleton_l.
Qed.

Lemma union_empty_records_present d (S : gset string) :
  S ⊆ dom d -> d ∪ gset_to_gmap [] S = d.
Proof.
  intros Hsub. apply map_eq. intros k. rewrite lookup_union.
  destruct (d !! k) as [v|] eqn:E.
  - destruct (gset_to_gmap [] S !! k); reflexivity.
  - rewrite lookup_gset_to_gmap, option_guard_False; [reflexivity|].
    intros Hk. apply Hsub, elem_of_dom in Hk as [v Hv]. congruence.
Qed.

Lemma indexes_ext ix ix' :
  (forall p, index_of p ix' = index_of p ix) -> ix' = ix.
Proof.
  intros H. destruct ix, ix'.
  pose proof (H Q1). pose proof (H Q2). pose proof (H Q3).
  simpl in *. congruence.
Qed.

(** C3. [write] removes no entry of the three indexes and changes none;
    what it adds is an empty record for each identifier it looked up and
    did not find. When every identifier it looks up is in its index, the
    three indexes are the same after [write] as before. *)
Theorem write_indexes_gain_only_empty_records tracking_dict ix out ix' :
  write tracking_dict ix = Ok (out, ix') ->
  (forall p,
      index_of p ix'
      = index_of p ix ∪ gset_to_gmap [] (looked_up p tracking_dict)) /\
  ((forall p, looked_up p tracking_dict ⊆ dom (index_of p ix)) -> ix' = ix).
Proof.
  intros H.
  assert (forall p,
             index_of p ix'
             = index_of p ix ∪ gset_to_gmap [] (looked_up p tracking_dict))
    as Hgain.
  { revert ix out H.
    induction tracking_dict as [|[tcons_id ids] rest IH]; intros ix out H p.
    - injection H as _ <-. simpl.
      rewrite gset_to_gmap_empty, (right_id_L ∅ (∪)). reflexivity.
    - simpl in H. rewrite write_group_chosen in H.
      apply bind_Ok in H as ([lines ix1] & Hgroup & H).
      apply bind_Ok in Hgroup as ([q id] & Hc & Hgroup).
      injection Hgroup as _ <-.
      apply bind_Ok in H as ([out' ix''] & Hrest & H).
      injection H as _ <-.
      rewrite (IH _ _ Hrest p), index_of_with_index. simpl. rewrite Hc.
      destruct (decide (p = q)) as [->|Hne].
      + rewrite decide_True by reflexivity. apply union_empty_records.
      + rewrite decide_False by congruence. reflexivity. }
  split; [exact Hgain|].
  intros Hsub. apply indexes_ext. intros p.
  rewrite Hgain. apply union_empty_records_present, Hsub.
Qed.

End WriteFacts.

Lemma write_emits_first_present_witness :
  Forall (fun group => is_Some (first_present group.2)) sample_bucket /\
  mjoin (representative_lines sample_indexes <$> sample_bucket)
  = [ "ox T1 match_id " +:+ dq +:+ "TCONS_00000001" +:+ dq +:+ ";" +:+ nl;
      "ox T1 exon match_id " +:+ dq +:+ "TCONS_00000001" +:+ dq +:+ ";"
        +:+ nl;
      "fl F2 match_id " +:+ dq +:+ "TCONS_00000002" +:+ dq +:+ ";" +:+ nl;
      "fl F2 exon match_id " +:+ dq +:+ "TCONS_00000002" +:+ dq +:+ ";"
        +:+ nl;
      "ta L3 match_id " +:+ dq +:+ "TCONS_00000003" +:+ dq +:+ ";" +:+ nl ] /\
  match write sample_bucket sample_indexes with
  | Ok (first_line :: _, _) => nat_of_ascii <$> chars first_line
  | _ => []
  end
  = [ 111; 120; 32; 84; 49; 32; 109; 97; 116; 99; 104; 95; 105; 100; 32; 34;
      84; 67; 79; 78; 83; 95; 48; 48; 48; 48; 48; 48; 48; 49; 34; 59; 10 ] /\
  ((exists ix',
       write sample_bucket sample_indexes
       = Ok (mjoin (representative_lines sample_indexes <$> sample_bucket),
             ix')) /\
   (forall group a,
       group ∈ sample_bucket ->
       present group.2 Q1 = Some a ->
       representative_lines sample_indexes group
       = (fun line =>
            line +:+ " match_id " +:+ dq +:+ group.1 +:+ dq +:+ ";" +:+ nl)
           <$> record Q1 sample_indexes a) /\
   (forall group p id,
       group ∈ sample_bucket ->
       first_present group.2 = Some (p, id) ->
       representative_lines sample_indexes group
       = (fun line =>
            line +:+ " match_id " +:+ dq +:+ group.1 +:+ dq +:+ ";" +:+ nl)
           <$> record p sample_indexes id)).
Proof.
  assert (Forall (fun group => is_Some (first_present group.2)) sample_bucket)
    as Hall by (repeat constructor; vm_compute; eauto).
  split; [exact Hall|]. split; [vm_compute; reflexivity|].
  split; [vm_compute; reflexivity|].
  apply (write_emits_first_present sample_bucket sample_indexes Hall).
Defined.

(** The index [gtf] builds: the lines of a transcript under its identifier,
    in the order of the file, comment and gene lines left out. *)
Example gtf_sample_annotation :
  gtf sample_annotation
  = Ok {[ "T1" := [ strip "010" (gtf_line "transcript" "G1" "T1");
                    strip "010" (gtf_line "exon" "G1" "T1");
                    strip "010" (gtf_line "exon" "G1" "T1") ];
          "T2" := [ strip "010" (gtf_line "transcript" "G5" "T2") ] ]}.
Proof. vm_compute. reflexivity. Qed.

(** The file written for the sample bucket: oxford for the first group,
    flair for the second, talon for the third. *)
Example write_sample_bucket :
  exists ix',
    write sample_bucket sample_indexes
    = Ok ([ "ox T1 match_id " +:+ dq +:+ "TCONS_00000001" +:+ dq +:+ ";"
              +:+ nl;
            "ox T1 exon match_id " +:+ dq +:+ "TCONS_00000001" +:+ dq +:+ ";"
              +:+ nl;
            "fl F2 match_id " +:+ dq +:+ "TCONS_00000002" +:+ dq +:+ ";"
              +:+ nl;
            "fl F2 exon match_id " +:+ dq +:+ "TCONS_00000002" +:+ dq +:+ ";"
              +:+ nl;
            "ta L3 match_id " +:+ dq +:+ "TCONS_00000003" +:+ dq +:+ ";"
              +:+ nl ], ix').
Proof. eexists. vm_compute. reflexivity. Qed.

(** Scenario 5 of the specification: a group with identifiers for A and
    C gets the record of A. *)
Example write_prefers_oxford :
  exists ix',
    write [("TCONS_00000005", ["T1"; "-"; "L3"])] sample_indexes
    = Ok ([ "ox T1 match_id " +:+ dq +:+ "TCONS_00000005" +:+ dq +:+ ";"
              +:+ nl;
            "ox T1 exon match_id " +:+ dq +:+ "TCONS_00000005" +:+ dq +:+ ";"
              +:+ nl ], ix').
Proof. eexists. vm_compute. reflexivity. Qed.

(** C1, as the specification has it, fails on the stray bucket: [T404] is
    chosen and is in no index, and [write] returns with an empty file. *)
Lemma write_absent_identifier_raises_nothing :
  first_present ["T404"; "-"; "-"] = Some (Q1, "T404") /\
  oxford sample_indexes !! "T404" = None /\
  (exists ix', write stray_bucket sample_indexes = Ok ([], ix')) /\
  (forall e, write stray_bucket sample_indexes <> Raise e).
Proof.
  split; [reflexivity|]. split; [vm_compute; reflexivity|]. split.
  - eexists. vm_compute. reflexivity.
  - intros e. vm_compute. discriminate.
Qed.

Lemma write_absent_identifier_is_skipped_witness :
  first_present ["T404"; "-"; "-"] = Some (Q1, "T404") /\
  index_of Q1 sample_indexes !! "T404" = None /\
  (let ix1 := with_index Q1 (<[ "T404" := [] ]> (index_of Q1 sample_indexes))
                         sample_indexes in
   write_group sample_indexes "TCONS_00000004" ["T404"; "-"; "-"]
     = Ok ([], ix1) /\
   write (("TCONS_00000004", ["T404"; "-"; "-"]) :: sample_bucket)
         sample_indexes
     = write sample_bucket ix1).
Proof.
  assert (first_present ["T404"; "-"; "-"] = Some (Q1, "T404")) as Hfp
    by reflexivity.
  assert (index_of Q1 sample_indexes !! "T404" = None) as Hmiss
    by (vm_compute; reflexivity).
  split; [exact Hfp|]. split; [exact Hmiss|].
  apply (write_absent_identifier_is_skipped
           "TCONS_00000004" ["T404"; "-"; "-"] sample_bucket sample_indexes
           Q1 "T404" Hfp Hmiss).
Defined.

(** C3, as the specification has it, fails on the stray bucket: after
    [write] the oxford index has the key [T404], which it did not have
    before. *)
Lemma write_adds_key_to_index :
  exists out ix',
    write stray_bucket sample_indexes = Ok (out, ix') /\
    oxford sample_indexes !! "T404" = None /\
    oxford ix' !! "T404" = Some [] /\
    oxford ix' <> oxford sample_indexes.
Proof.
  eexists. eexists. split; [vm_compute; reflexivity|].
  split; [vm_compute; reflexivity|]. split; [vm_compute; reflexivity|].
  intros Heq. apply (f_equal (fun d => d !! "T404")) in Heq.
  vm_compute in Heq. discriminate.
Qed.

Lemma write_indexes_gain_only_empty_records_witness :
  exists out ix',
    write sample_bucket sample_indexes = Ok (out, ix') /\
    ((forall p,
         index_of p ix'
         = index_of p sample_indexes
             ∪ gset_to_gmap [] (looked_up p sample_bucket)) /\
     ((forall p, looked_up p sample_bucket ⊆ dom (index_of p sample_indexes))
      -> ix' = sample_indexes)).
Proof.
  eexists. eexists. split.
  - vm_compute. reflexivity.
  - eapply (write_indexes_gain_only_empty_records sample_bucket sample_indexes).
    vm_compute. reflexivity.
Defined.

(** ** categorize_tracking *)

Section CategorizeFacts.
Implicit Types (b : buckets) (d : list (string * list string)).

Lemma get_setitem_eq d key (ids : list string) :
  get key (setitem key ids d) = Some ids.
Proof.
  induction d as [|[k v] d IH]; simpl.
  - rewrite String.eqb_refl. reflexivity.
  - destruct (String.eqb_spec k key) as [->|Hne]; simpl.
    + rewrite String.eqb_refl. reflexivity.
    + destruct (String.eqb_spec k key); [contradiction|exact IH].
Qed.

Lemma get_setitem_ne d key key' (ids : list string) :
  key <> key' -> get key' (setitem key ids d) = get key' d.
Proof.
  intros Hne. induction d as [|[k v] d IH]; simpl.
  - destruct (String.eqb_spec key key'); [contradiction|reflexivity].
  - destruct (String.eqb_spec k key) as [->|Hk]; simpl.
    + destruct (String.eqb_spec key key'); [contradiction|reflexivity].
    + rewrite IH. reflexivity.
Qed.

Lemma length_setitem_fresh d key (ids : list string) :
  get key d = None -> length (setitem key ids d) = S (length d).
Proof.
  induction d as [|[k v] d IH]; simpl; intros Hget.
  - reflexivity.
  - destruct (String.eqb_spec k key); [discriminate|].
    simpl. rewrite IH by assumption. reflexivity.
Qed.

(** The counter of the inner loop counts the sentinels. *)
Lemma transcript_loop_count transcripts count ids n out :
  transcript_loop transcripts count ids = Ok (n, out) ->
  n = count + length (filter (fun t => t = "-") transcripts).
Proof.
  revert count ids. induction transcripts as [|t rest IH]; intros count ids H.
  - injection H as <- _. simpl. lia.
  - simpl in H. destruct (String.eqb_spec t "-") as [->|Hne].
    + apply IH in H. rewrite filter_cons_True by reflexivity. simpl. lia.
    + apply bind_Ok in H as (tid & _ & H). apply IH in H.
      rewrite filter_cons_False by assumption. exact H.
Qed.

(** One line changes one bucket, at the group identifier of the line. *)
Lemma categorize_line_bucket b line b' :
  categorize_line b line = Ok b' ->
  exists ids,
    transcript_loop (drop 4 (split line)) 0 [] = Ok (sentinels line, ids) /\
    forall k,
      bucket k b' =
        if decide (k = bucket_for (sentinels line))
        then setitem (group_id line) ids (bucket k b)
        else bucket k b.
Proof.
  unfold categorize_line. intros H.
  apply bind_Ok in H as ([count ids] & Hloop & H).
  apply bind_Ok in H as (key & Hkey & H).
  pose proof (transcript_loop_count _ _ _ _ _ Hloop) as Hcount. simpl in Hcount.
  fold (sentinels line) in Hcount. subst count.
  apply getitem_Ok in Hkey.
  assert (group_id line = key) as Hgid
    by (unfold group_id; rewrite Hkey; reflexivity).
  exists ids. split; [exact Hloop|]. rewrite Hgid.
  destruct (sentinels line) as [|[|[|n]]]; simpl in H; injection H as <-;
    intros []; reflexivity.
Qed.

Lemma total_bucket b :
  total b = length (bucket ThreeMatch b) + length (bucket TwoMatch b)
            + length (bucket NoMatch b).
Proof. reflexivity. Qed.

(** A line whose group identifier is in no bucket yet adds one entry. *)
Lemma categorize_line_fresh b line b' :
  categorize_line b line = Ok b' ->
  (forall k, get (group_id line) (bucket k b) = None) ->
  total b' = S (total b).
Proof.
  intros H Hfresh. apply categorize_line_bucket in H as (ids & _ & Hb).
  rewrite !total_bucket, !Hb.
  destruct (bucket_for (sentinels line));
    repeat case_decide; try congruence;
    rewrite length_setitem_fresh by apply Hfresh; lia.
Qed.

Lemma categorize_line_get b line b' key k :
  categorize_line b line = Ok b' ->
  key <> group_id line ->
  get key (bucket k b') = get key (bucket k b).
Proof.
  intros H Hne. apply categorize_line_bucket in H as (ids & _ & Hb).
  rewrite Hb. case_decide; [|reflexivity].
  apply get_setitem_ne. congruence.
Qed.

(** The loop, started from buckets that know none of the group identifiers
    to come. *)
Lemma categorize_loop_partition tracking : forall b b',
  categorize_loop b tracking = Ok b' ->
  NoDup (group_id <$> tracking) ->
  (forall line k, line ∈ tracking -> get (group_id line) (bucket k b) = None) ->
  total b' = total b + length tracking /\
  (forall key k,
      key ∉ group_id <$> tracking ->
      get key (bucket k b') = get key (bucket k b)) /\
  (forall line,
      line ∈ tracking ->
      exists ids,
        transcript_loop (drop 4 (split line)) 0 [] = Ok (sentinels line, ids) /\
        forall k,
          get (group_id line) (bucket k b') =
            if decide (k = bucket_for (sentinels line)) then Some ids
            else None).
Proof.
  induction tracking as [|line rest IH]; intros b b' H Hnd Hfresh.
  - injection H as <-. split; [simpl; lia|]. split; [reflexivity|].
    intros line Hin. inversion Hin.
  - simpl in H. apply bind_Ok in H as (b1 & Hline & Hrest).
    rewrite fmap_cons in Hnd. apply NoDup_cons in Hnd as [Hhead Hnd].
    assert (forall line' k,
               line' ∈ rest -> get (group_id line') (bucket k b1) = None)
      as Hfresh1.
    { intros line' k Hin.
      rewrite (categorize_line_get _ _ _ _ _ Hline).
      - apply Hfresh. right. exact Hin.
      - intros Heq. apply Hhead. rewrite <- Heq.
        apply list_elem_of_fmap. eauto. }
    destruct (IH _ _ Hrest Hnd Hfresh1) as (Htotal & Hother & Hplaced).
    split; [|split].
    + rewrite Htotal, (categorize_line_fresh _ _ _ Hline).
      * simpl. lia.
      * intros k. apply Hfresh. left.
    + intros key k Hkey. rewrite fmap_cons in Hkey.
      apply not_elem_of_cons in Hkey as [Hne Hkey].
      rewrite (Hother _ _ Hkey).
      apply (categorize_line_get _ _ _ _ _ Hline Hne).
    + intros line' Hin. apply elem_of_cons in Hin as [->|Hin].
      * destruct (categorize_line_bucket _ _ _ Hline) as (ids & Hloop & Hb).
        exists ids. split; [exact Hloop|]. intros k.
        rewrite (Hother _ _ Hhead), Hb. case_decide.
        -- apply get_setitem_eq.
        -- apply Hfresh. left.
      * apply Hplaced, Hin.
Qed.

(** C8. For a tracking file in which no group identifier comes twice, the
    three dictionaries together have one entry for each line, and the group
    of a line is in one dictionary only: [two_match] for one sentinel,
    [no_match] for two, [three_match] for any other number. *)
Theorem categorize_tracking_partition tracking b :
  categorize_tracking tracking = Ok b ->
  NoDup (group_id <$> tracking) ->
  total b = length tracking /\
  forall line,
    line ∈ tracking ->
    exists ids,
      transcript_loop (drop 4 (split line)) 0 [] = Ok (sentinels line, ids) /\
      forall k,
        get (group_id line) (bucket k b) =
          if decide (k = bucket_for (sentinels line)) then Some ids else None.
Proof.
  intros H Hnd.
  destruct (categorize_loop_partition tracking _ _ H Hnd)
    as (Htotal & _ & Hplaced).
  - intros line []; reflexivity.
  - split; [exact Htotal|exact Hplaced].
Qed.

End CategorizeFacts.

Lemma categorize_tracking_partition_witness :
  exists b,
    categorize_tracking sample_tracking = Ok b /\
    NoDup (group_id <$> sample_tracking) /\
    (total b = length sample_tracking /\
     forall line,
       line ∈ sample_tracking ->
       exists ids,
         transcript_loop (drop 4 (split line)) 0 [] = Ok (sentinels line, ids) /\
         forall k,
           get (group_id line) (bucket k b) =
             if decide (k = bucket_for (sentinels line)) then Some ids
             else None).
Proof.
  assert (NoDup (group_id <$> sample_tracking)) as Hnd
    by (apply (bool_decide_unpack _); vm_compute; exact I).
  eexists. split; [vm_compute; reflexivity|]. split; [exact Hnd|].
  apply (categorize_tracking_partition sample_tracking);
    [vm_compute; reflexivity | exact Hnd].
Defined.

(** The three dictionaries of the sample file. *)
Example categorize_sample_tracking :
  categorize_tracking sample_tracking
  = Ok (Buckets [("TCONS_00000001", ["T1"; "F1"; "L1"])]
                [("TCONS_00000002", ["T2"; "F2"; "-"])]
                [("TCONS_00000003", ["-"; "-"; "L3"])]).
Proof. vm_compute. reflexivity. Qed.

(** C8, as the specification has it, fails when a group identifier comes
    twice: the second line replaces the entry of the first, and the three
    dictionaries have one entry for two lines. *)
Lemma categorize_repeated_group_loses_a_line :
  exists b,
    categorize_tracking repeated_tracking = Ok b /\
    total b = 1 /\
    length repeated_tracking = 2.
Proof. eexists. split; [vm_compute; reflexivity|]. split; reflexivity. Qed.

(** ** The abundance readers *)

Section ReaderFacts.
Local Open Scope Z_scope.

Lemma map_int_app fields1 fields2 ns1 ns2 :
  map_int fields1 = Ok ns1 ->
  map_int fields2 = Ok ns2 ->
  map_int (fields1 ++ fields2) = Ok (ns1 ++ ns2).
Proof.
  revert ns1. induction fields1 as [|c rest IH]; intros ns1 H1 H2.
  - injection H1 as <-. exact H2.
  - simpl in H1. apply bind_Ok in H1 as (n & Hn & H1).
    apply bind_Ok in H1 as (ns & Hns & H1). injection H1 as <-.
    simpl. rewrite Hn. simpl. rewrite (IH _ Hns H2). reflexivity.
Qed.

Lemma foldl_add_acc (acc : Z) (ns : list Z) :
  foldl Z.add acc ns = acc + foldl Z.add 0 ns.
Proof.
  revert acc. induction ns as [|n ns IH]; intros acc; simpl.
  - lia.
  - rewrite (IH (acc + n)), (IH (0 + n)). lia.
Qed.

Lemma sum_app (ns1 ns2 : list Z) : sum (ns1 ++ ns2) = sum ns1 + sum ns2.
Proof. unfold sum. rewrite foldl_app. apply foldl_add_acc. Qed.

Lemma sum_values_empty : sum_values ∅ = 0.
Proof. unfold sum_values. apply map_fold_empty. Qed.

Lemma sum_values_insert_fresh (d : gmap string Z) key n :
  d !! key = None -> sum_values (<[ key := n ]> d) = n + sum_values d.
Proof.
  intros Hfresh. unfold sum_values.
  apply (map_fold_insert_L (fun _ v acc => v + acc)); [|exact Hfresh].
  intros. lia.
Qed.

(** One turn of the loop of a reader: the row is stored under its
    identifier with the sum of its numeric fields. *)
Lemma format_loop_cons v d line rest d' :
  format_loop v d (line :: rest) = Ok d' ->
  exists ns,
    map_int (row_numeric v line) = Ok ns /\
    format_loop v (<[ row_id v line := sum ns ]> d) rest = Ok d'.
Proof.
  destruct v; simpl; intros H;
    apply bind_Ok in H as (tid & Htid & H);
    apply bind_Ok in H as (ns & Hns & H);
    apply getitem_Ok in Htid;
    exists ns; (split; [exact Hns|]);
    unfold row_id, row_fields; rewrite Htid; exact H.
Qed.

Lemma format_loop_nil v d d' : format_loop v d [] = Ok d' -> d' = d.
Proof. destruct v; simpl; intros H; injection H as <-; reflexivity. Qed.

Lemma format_loop_sum v rows : forall d d',
  format_loop v d rows = Ok d' ->
  NoDup (row_id v <$> rows) ->
  (forall line, line ∈ rows -> d !! row_id v line = None) ->
  exists ns,
    map_int (numeric_fields v rows) = Ok ns /\
    sum_values d' = sum_values d + sum ns.
Proof.
  induction rows as [|line rest IH]; intros d d' H Hnd Hfresh.
  - apply format_loop_nil in H as ->. exists []. split; [reflexivity|].
    unfold sum. simpl. lia.
  - apply format_loop_cons in H as (ns & Hns & H).
    rewrite fmap_cons in Hnd. apply NoDup_cons in Hnd as [Hhead Hnd].
    destruct (IH _ _ H Hnd) as (ns' & Hns' & Hsum).
    { intros line' Hin. rewrite lookup_insert_ne.
      - apply Hfresh. right. exact Hin.
      - intros Heq. apply Hhead. rewrite Heq.
        apply list_elem_of_fmap. eauto. }
    exists (ns ++ ns'). split.
    + unfold numeric_fields. rewrite fmap_cons. simpl.
      apply map_int_app; assumption.
    + rewrite Hsum, sum_values_insert_fresh by (apply Hfresh; left).
      rewrite sum_app. lia.
Qed.

(** For an abundance file of variant A or B in which no identifier comes
    twice, every numeric field of every data row is an integer literal, and
    the values of the dictionary add up to the sum of all these fields. *)
Lemma format_int_sum_of_all_fields v header rows d :
  format v (header :: rows) = Ok d ->
  NoDup (row_id v <$> rows) ->
  exists ns,
    map_int (numeric_fields v rows) = Ok ns /\
    sum_values d = sum ns.
Proof.
  intros H Hnd.
  assert (format_loop v ∅ rows = Ok d) as Hloop by (destruct v; exact H).
  destruct (format_loop_sum v rows _ _ Hloop Hnd) as (ns & Hns & Hsum).
  - intros line _. apply lookup_empty.
  - exists ns. split; [exact Hns|]. rewrite Hsum, sum_values_empty. lia.
Qed.

End ReaderFacts.

(** Scenario 1 of the specification: the row [T1,4,,2] counts 6. *)
Example format_oxford_sample :
  format_oxford sample_oxford = Ok {[ "T1" := 6%Z; "T2" := 7%Z ]}.
Proof. vm_compute. reflexivity. Qed.

Example format_talon_sample :
  format_talon sample_talon = Ok {[ "L1" := 8%Z; "L3" := 1%Z ]}.
Proof. vm_compute. reflexivity. Qed.

(** C9, as the specification has it, fails when an identifier comes twice:
    the numeric fields of the two rows of [T1] add up to 7, and the values
    of the dictionary to 1, the count of the last row. *)
Lemma format_repeated_identifier_drops_a_row :
  exists d,
    format_oxford repeated_oxford = Ok d /\
    map_int (numeric_fields Oxford (drop 1 repeated_oxford))
      = Ok [4; 2; 1]%Z /\
    sum [4; 2; 1]%Z = 7%Z /\
    sum_values d = 1%Z.
Proof.
  eexists. split; [vm_compute; reflexivity|].
  split; [vm_compute; reflexivity|]. split; vm_compute; reflexivity.
Qed.

(** ** Floats of natural numbers *)

Section FloatFacts.
Local Open Scope Z_scope.

(** *** Shifts and binary digits *)

Lemma shl_S p k : shl p (S k) = xO (shl p k).
Proof. reflexivity. Qed.

Lemma shl_add p j k : shl (shl p j) k = shl p (k + j).
Proof. unfold shl. induction k; simpl; congruence. Qed.

Lemma Zpos_shl p k : Zpos (shl p k) = Zpos p * 2 ^ Z.of_nat k.
Proof.
  induction k as [|k IH].
  - simpl. lia.
  - rewrite shl_S. change (Zpos (shl p k)~0) with (2 * Zpos (shl p k)).
    rewrite IH, Nat2Z.inj_succ, Z.pow_succ_r by lia. lia.
Qed.

Lemma digits_shl p k :
  Zpos (digits2_pos (shl p k)) = Zpos (digits2_pos p) + Z.of_nat k.
Proof.
  induction k as [|k IH].
  - simpl. lia.
  - rewrite shl_S. simpl digits2_pos. rewrite Pos2Z.inj_succ, IH. lia.
Qed.

Lemma Pos_iter_xO p d : Pos.iter xO p d = shl p (Pos.to_nat d).
Proof. unfold shl. apply Pos2Nat.inj_iter. Qed.

(** The iterator of the rounding functions, as an iteration over [nat]. *)
Lemma iter_pos_nat {A : Type} (f : A -> A) (p : positive) (x : A) :
  SpecFloat.iter_pos f p x = Nat.iter (Pos.to_nat p) f x.
Proof.
  revert x. induction p as [p IH|p IH|]; intros x.
  - rewrite Pos2Nat.inj_xI. cbn [SpecFloat.iter_pos]. rewrite !IH.
    replace (S (2 * Pos.to_nat p))%nat
      with (Pos.to_nat p + (Pos.to_nat p + 1))%nat by lia.
    rewrite !Nat.iter_add. reflexivity.
  - rewrite Pos2Nat.inj_xO. cbn [SpecFloat.iter_pos]. rewrite !IH.
    replace (2 * Pos.to_nat p)%nat with (Pos.to_nat p + Pos.to_nat p)%nat
      by lia.
    rewrite Nat.iter_add. reflexivity.
  - reflexivity.
Qed.

(** Shifting out [k] zeros loses nothing. *)
Lemma shr_1_shl p k :
  Nat.iter k shr_1 (Build_shr_record (Zpos (shl p k)) false false)
  = Build_shr_record (Zpos p) false false.
Proof.
  induction k as [|k IH].
  - reflexivity.
  - rewrite Nat.iter_succ_r, shl_S. simpl shr_1. exact IH.
Qed.

Lemma pow2_pred d : 0 < d -> 2 ^ d = 2 * 2 ^ (d - 1).
Proof.
  intros Hd. rewrite <- Z.pow_succ_r by lia. f_equal. lia.
Qed.

(** [digits2_pos p] is the number of binary digits of [p]. *)
Lemma digits_bounds p :
  2 ^ (Zpos (digits2_pos p) - 1) <= Zpos p < 2 ^ Zpos (digits2_pos p).
Proof.
  induction p as [p IH|p IH|]; cbn [digits2_pos].
  - rewrite Pos2Z.inj_succ. change (Zpos p~1) with (2 * Zpos p + 1).
    replace (Z.succ (Zpos (digits2_pos p)) - 1) with (Zpos (digits2_pos p))
      by lia.
    rewrite Z.pow_succ_r by lia.
    pose proof (pow2_pred (Zpos (digits2_pos p)) ltac:(lia)). lia.
  - rewrite Pos2Z.inj_succ. change (Zpos p~0) with (2 * Zpos p).
    replace (Z.succ (Zpos (digits2_pos p)) - 1) with (Zpos (digits2_pos p))
      by lia.
    rewrite Z.pow_succ_r by lia.
    pose proof (pow2_pred (Zpos (digits2_pos p)) ltac:(lia)). lia.
  - simpl. lia.
Qed.

Lemma digits_lt_pow p d :
  0 <= d -> Zpos p < 2 ^ d -> Zpos (digits2_pos p) <= d.
Proof.
  intros Hd Hlt. destruct (digits_bounds p) as [Hp _].
  destruct (Z.le_gt_cases (Zpos (digits2_pos p)) d) as [|Hgt];
    [assumption|].
  assert (2 ^ d <= 2 ^ (Zpos (digits2_pos p) - 1))
    by (apply Z.pow_le_mono_r; lia).
  lia.
Qed.

Lemma digits_mul p q :
  Zpos (digits2_pos (p * q)) <= Zpos (digits2_pos p) + Zpos (digits2_pos q).
Proof.
  apply digits_lt_pow; [lia|].
  destruct (digits_bounds p) as [_ Hp], (digits_bounds q) as [_ Hq].
  rewrite Pos2Z.inj_mul, Z.pow_add_r by lia. nia.
Qed.

(** *** Rounding a number that needs none *)

Lemma slack_spec n :
  Zpos (digits2_pos n) <= 53 ->
  Z.of_nat (slack n) = 53 - Zpos (digits2_pos n).
Proof. intros H. unfold slack. lia. Qed.

Lemma shr_shl n s t :
  (t <= s)%nat ->
  shr (Build_shr_record (Zpos (shl n s)) false false) (- Z.of_nat s)
      (Z.of_nat s - Z.of_nat t)
  = (Build_shr_record (Zpos (shl n t)) false false, - Z.of_nat t).
Proof.
  intros Hts. unfold shr.
  destruct (Z.of_nat s - Z.of_nat t) as [|p|p] eqn:E.
  - assert (s = t) as -> by lia. reflexivity.
  - rewrite iter_pos_nat.
    replace (shl n s) with (shl (shl n t) (Pos.to_nat p))
      by (rewrite shl_add; f_equal; lia).
    rewrite shr_1_shl. f_equal. lia.
  - lia.
Qed.

Lemma shr_fexp_exact n s :
  Zpos (digits2_pos n) <= 53 ->
  (slack n <= s)%nat ->
  shr_fexp prec emax (Zpos (shl n s)) (- Z.of_nat s) loc_Exact
  = (Build_shr_record (Zpos (shl n (slack n))) false false,
     - Z.of_nat (slack n)).
Proof.
  intros Hd Hs. unfold shr_fexp. cbn [shr_record_of_loc Zdigits2].
  rewrite digits_shl.
  replace (fexp prec emax (Zpos (digits2_pos n) + Z.of_nat s + - Z.of_nat s)
           - - Z.of_nat s)
    with (Z.of_nat s - Z.of_nat (slack n)).
  - apply shr_shl, Hs.
  - unfold fexp, SpecFloat.emin, prec, emax.
    pose proof (slack_spec n Hd). lia.
Qed.

(** A mantissa [n] followed by enough zeros rounds to the float of [n]. *)
Lemma round_exact n s :
  Zpos (digits2_pos n) <= 53 ->
  (slack n <= s)%nat ->
  binary_round_aux prec emax false (Zpos (shl n s)) (- Z.of_nat s) loc_Exact
  = float_of_N (Npos n).
Proof.
  intros Hd Hs. unfold binary_round_aux.
  rewrite (shr_fexp_exact n s Hd Hs).
  cbn [shr_m loc_of_shr_record round_nearest_even].
  rewrite (shr_fexp_exact n (slack n) Hd (Nat.le_refl _)).
  cbn [shr_m].
  replace (- Z.of_nat (slack n) <=? emax - prec) with true; [reflexivity|].
  symmetry. apply Z.leb_le. unfold emax, prec. lia.
Qed.

Lemma shl_align_shl n j t :
  shl_align (shl n j) (- Z.of_nat j) (- Z.of_nat t)
  = (shl n (Nat.max j t), - Z.of_nat (Nat.max j t)).
Proof.
  unfold shl_align.
  destruct (- Z.of_nat t - - Z.of_nat j) as [|p|p] eqn:E.
  - assert (j = t) as -> by lia. rewrite Nat.max_id. reflexivity.
  - assert (Nat.max j t = j) as -> by lia. reflexivity.
  - rewrite Pos_iter_xO, shl_add.
    assert (Pos.to_nat p + j = Nat.max j t)%nat as -> by lia.
    f_equal. lia.
Qed.

Lemma binary_round_exact n j :
  Zpos (digits2_pos n) <= 53 ->
  binary_round prec emax false (shl n j) (- Z.of_nat j) = float_of_N (Npos n).
Proof.
  intros Hd. unfold binary_round. rewrite digits_shl.
  replace (fexp prec emax (Zpos (digits2_pos n) + Z.of_nat j + - Z.of_nat j))
    with (- Z.of_nat (slack n)).
  - rewrite shl_align_shl. apply round_exact; [exact Hd|lia].
  - unfold fexp, SpecFloat.emin, prec, emax.
    pose proof (slack_spec n Hd). lia.
Qed.

Lemma digits_float n : (n < 2 ^ 53)%positive -> Zpos (digits2_pos n) <= 53.
Proof. intros H. apply digits_lt_pow; lia. Qed.

(** Adding the floats of two numbers is exact as long as the sum has at
    most 53 binary digits. *)
Lemma SFadd_float_of_Npos a b :
  Zpos (digits2_pos (a + b)) <= 53 ->
  SFadd prec emax (float_of_N (Npos a)) (float_of_N (Npos b))
  = float_of_N (Npos (a + b)).
Proof.
  intros Hd. cbn [float_of_N SFadd cond_Zopp].
  set (T := Nat.max (slack a) (slack b)).
  replace (Z.min (- Z.of_nat (slack a)) (- Z.of_nat (slack b)))
    with (- Z.of_nat T) by lia.
  rewrite !shl_align_shl. cbn [fst].
  replace (Nat.max (slack a) T) with T by lia.
  replace (Nat.max (slack b) T) with T by lia.
  replace (Zpos (shl a T) + Zpos (shl b T)) with (Zpos (shl (a + b) T)).
  - cbn [binary_normalize]. apply binary_round_exact, Hd.
  - rewrite !Zpos_shl, Pos2Z.inj_add. lia.
Qed.

Lemma SFadd_float_of_N a b :
  (a + b < 2 ^ 53)%N ->
  SFadd prec emax (float_of_N a) (float_of_N b) = float_of_N (a + b).
Proof.
  intros Hlt. destruct a as [|a], b as [|b]; try reflexivity.
  apply SFadd_float_of_Npos, digits_float. lia.
Qed.

(** *** Reading a decimal of integral value *)

Lemma div_eucl_mul (q d : Z) : 0 < d -> Z.div_eucl (q * d) d = (q, 0).
Proof.
  intros Hd. pose proof (Z.div_mul q d ltac:(lia)) as Hq.
  pose proof (Z.mod_mul q d ltac:(lia)) as Hr.
  unfold Z.div, Z.modulo in Hq, Hr.
  destruct (Z.div_eucl (q * d) d) as [q' r']. simpl in *. congruence.
Qed.

Lemma new_location_0 d : new_location d 0 = loc_Exact.
Proof. unfold new_location. destruct (Z.even d); reflexivity. Qed.

(** Dividing [n * d] by [d] gives the float of [n]. *)
Lemma SFdiv_exact n d :
  Zpos (digits2_pos n) <= 53 ->
  SFdiv prec emax (S754_finite false (n * d) 0) (S754_finite false d 0)
  = float_of_N (Npos n).
Proof.
  intros Hd. cbn [SFdiv xorb]. unfold SFdiv_core_binary. cbn [Zdigits2].
  set (e' := Z.min (fexp prec emax (Zpos (digits2_pos (n * d)) + 0
                                     - (Zpos (digits2_pos d) + 0))) (0 - 0)).
  assert (e' <= 0) as He' by (unfold e'; lia).
  assert (Z.of_nat (slack n) <= - e') as Hslack.
  { pose proof (slack_spec n Hd). pose proof (digits_mul n d).
    unfold e', fexp, SpecFloat.emin, prec, emax. lia. }
  set (s := Z.to_nat (- e')).
  assert (match 0 - 0 - e' with
          | Zpos _ => Z.shiftl (Zpos (n * d)) (0 - 0 - e')
          | Z0 => Zpos (n * d)
          | Zneg _ => 0
          end = Zpos (shl n s) * Zpos d) as ->.
  { rewrite Zpos_shl.
    replace (Z.of_nat s) with (0 - 0 - e') by (unfold s; lia).
    destruct (0 - 0 - e') as [|p|p] eqn:E.
    - rewrite Pos2Z.inj_mul. simpl. lia.
    - rewrite Z.shiftl_mul_pow2, Pos2Z.inj_mul by lia. lia.
    - lia. }
  rewrite div_eucl_mul by lia. rewrite new_location_0.
  replace e' with (- Z.of_nat s) by (unfold s; lia).
  apply round_exact; [exact Hd|lia].
Qed.

(** A decimal that stands for a natural number below [2^53] is read as
    the float of this number. *)
Lemma float_of_decimal_integer m e n :
  decimal_integer m e = Some n ->
  (n < 2 ^ 53)%N ->
  float_of_decimal false m e = float_of_N n.
Proof.
  unfold decimal_integer, float_of_decimal. intros Hn Hlt.
  destruct m as [|p].
  - destruct e;
      [injection Hn as <-; reflexivity | injection Hn as <-; reflexivity |].
    destruct (_ =? _)%N; [|discriminate]. injection Hn as <-. reflexivity.
  - destruct e as [|k|k].
    + injection Hn as <-.
      change (Z.to_pos (10 ^ 0)) with 1%positive.
      change (Z.to_N (10 ^ 0)) with 1%N in Hlt.
      rewrite N.mul_1_r in *. rewrite Pos.mul_1_r.
      change p with (shl p 0) at 1.
      apply (binary_round_exact p 0), digits_float. lia.
    + injection Hn as <-.
      assert (Z.to_N (10 ^ Zpos k) = Npos (Z.to_pos (10 ^ Zpos k))) as Hpow.
      { pose proof (Z.pow_pos_nonneg 10 (Zpos k) ltac:(lia) ltac:(lia)).
        destruct (10 ^ Zpos k); simpl; lia. }
      rewrite Hpow in *. cbn [N.mul float_of_N].
      change (p * Z.to_pos (10 ^ Zpos k))%positive
        with (shl (p * Z.to_pos (10 ^ Zpos k)) 0).
      apply (binary_round_exact _ 0), digits_float. lia.
    + destruct (N.eqb_spec (Npos p mod Npos (10 ^ k)) 0) as [Hmod|];
        [|discriminate].
      injection Hn as <-.
      pose proof (N.div_mod (Npos p) (Npos (10 ^ k)) ltac:(lia)) as Hdiv.
      rewrite Hmod, N.add_0_r in Hdiv.
      destruct (Npos p / Npos (10 ^ k))%N as [|q] eqn:Eq; [lia|].
      cbn [float_of_N].
      assert (p = q * 10 ^ k)%positive as -> by lia.
      apply SFdiv_exact, digits_float. lia.
Qed.

End FloatFacts.

(** ** format_flair *)

Section FlairFacts.

Lemma float_integer_of_N n :
  (n < 2 ^ 53)%N -> float_integer (float_of_N n) = Some (Z.of_N n).
Proof.
  intros Hlt. destruct n as [|p]; [reflexivity|].
  cbn [float_of_N].
  pose proof (Zpos_shl p (slack p)) as Hshl.
  destruct (slack p) as [|t] eqn:E.
  - change (- Z.of_nat 0)%Z with 0%Z. cbn [float_integer].
    change (shl p 0) with p. change (2 ^ 0)%Z with 1%Z. f_equal. lia.
  - change (- Z.of_nat (S t))%Z with (Zneg (Pos.of_succ_nat t)).
    cbn [float_integer].
    assert (Zpos (2 ^ Pos.of_succ_nat t) = 2 ^ Z.of_nat (S t))%Z as Hpow.
    { rewrite Pos2Z.inj_pow. reflexivity. }
    rewrite Hpow, Hshl, Z.mod_mul, Z.div_mul by lia. reflexivity.
Qed.

(** A field that is a decimal of integral value is read as the float of
    this value. *)
Lemma float_field c n :
  field_value c = Some n -> (n < 2 ^ 53)%N -> float c = Ok (float_of_N n).
Proof.
  unfold field_value, float. intros H Hlt.
  destruct (float_literal c) as [[neg| |[] m e]|]; try discriminate.
  cbn [float_of_literal]. f_equal. apply float_of_decimal_integer; assumption.
Qed.

Lemma map_float_values fields : forall ns,
  mapM field_value fields = Some ns ->
  (N_sum ns < 2 ^ 53)%N ->
  map_float fields = Ok (float_of_N <$> ns).
Proof.
  induction fields as [|c rest IH]; intros ns H Hlt.
  - injection H as <-. reflexivity.
  - apply mapM_Some in H. inversion H as [|c' n rest' ns' Hc Hrest]; subst.
    apply mapM_Some in Hrest. cbn [N_sum foldr] in Hlt. fold (N_sum ns') in Hlt.
    cbn [map_float]. rewrite (float_field c n Hc) by lia. simpl.
    rewrite (IH ns' Hrest) by lia. reflexivity.
Qed.

Lemma foldl_float_add ns : forall a,
  (a + N_sum ns < 2 ^ 53)%N ->
  foldl float_add (float_of_N a) (float_of_N <$> ns)
  = float_of_N (a + N_sum ns).
Proof.
  induction ns as [|n ns IH]; intros a Hlt.
  - simpl. rewrite N.add_0_r. reflexivity.
  - cbn [N_sum foldr] in Hlt. fold (N_sum ns) in Hlt.
    rewrite fmap_cons. cbn [foldl]. unfold float_add at 2.
    rewrite SFadd_float_of_N by lia. rewrite IH by lia.
    f_equal. cbn [N_sum foldr]. fold (N_sum ns). lia.
Qed.

(** Adding up the floats of the values of a row is exact. *)
Lemma sum_float_values ns :
  (N_sum ns < 2 ^ 53)%N ->
  sum_float (float_of_N <$> ns) = integral_count ns.
Proof.
  intros Hlt. destruct ns as [|n ns]; [reflexivity|].
  rewrite fmap_cons. cbn [sum_float integral_count]. f_equal.
  change (float_of_int 0) with (float_of_N 0).
  cbn [N_sum foldr] in *. fold (N_sum ns) in *.
  unfold float_add at 2. rewrite SFadd_float_of_N by lia.
  apply foldl_float_add. lia.
Qed.

Lemma format_flair_loop_cons d line rest d' :
  format_flair_loop d (line :: rest) = Ok d' ->
  exists xs,
    map_float (drop 1 (flair_fields line)) = Ok xs /\
    format_flair_loop (<[ flair_id line := sum_float xs ]> d) rest = Ok d'.
Proof.
  simpl. intros H.
  apply bind_Ok in H as (tid & Htid & H).
  apply bind_Ok in H as (xs & Hxs & H).
  apply getitem_Ok in Htid.
  exists xs. split; [exact Hxs|].
  unfold flair_id, flair_fields. rewrite Htid. exact H.
Qed.

(** The rows that follow do not touch the identifiers they do not have. *)
Lemma format_flair_loop_other rest : forall d d' id,
  format_flair_loop d rest = Ok d' ->
  id ∉ flair_id <$> rest ->
  d' !! id = d !! id.
Proof.
  induction rest as [|line rest IH]; intros d d' id H Hid.
  - injection H as <-. reflexivity.
  - apply format_flair_loop_cons in H as (xs & _ & H).
    rewrite fmap_cons in Hid. apply not_elem_of_cons in Hid as [Hne Hid].
    rewrite (IH _ _ _ H Hid). apply lookup_insert_ne. congruence.
Qed.

(** The last row of an identifier decides its count. *)
Lemma format_flair_loop_last pre : forall d d' row post,
  format_flair_loop d (pre ++ row :: post) = Ok d' ->
  flair_id row ∉ flair_id <$> post ->
  exists xs,
    map_float (drop 1 (flair_fields row)) = Ok xs /\
    d' !! flair_id row = Some (sum_float xs).
Proof.
  induction pre as [|line pre IH]; intros d d' row post H Hid.
  - apply format_flair_loop_cons in H as (xs & Hxs & H).
    exists xs. split; [exact Hxs|].
    rewrite (format_flair_loop_other _ _ _ _ H Hid). apply lookup_insert_eq.
  - apply format_flair_loop_cons in H as (xs & _ & H).
    exact (IH _ _ _ _ H Hid).
Qed.

(** C4. Take a row of a flair abundance file whose count fields are
    decimal numbers of integral value, without a minus sign, with a sum
    below [2^53], and that is the last row of its identifier. The reader
    maps the identifier to the float of this sum, which is a float and no
    integer, and to the integer [0] if the row has no count field. *)
Theorem format_flair_integral_count header pre row post ns d :
  format_flair (header :: pre ++ row :: post) = Ok d ->
  flair_id row ∉ flair_id <$> post ->
  flair_values row = Some ns ->
  (N_sum ns < 2 ^ 53)%N ->
  d !! flair_id row = Some (integral_count ns) /\
  float_integer (float_of_N (N_sum ns)) = Some (Z.of_N (N_sum ns)).
Proof.
  intros H Hid Hns Hlt. split; [|apply float_integer_of_N, Hlt].
  cbn [format_flair] in H.
  apply format_flair_loop_last in H as (xs & Hxs & ->); [|exact Hid].
  unfold flair_values in Hns.
  rewrite (map_float_values _ _ Hns Hlt) in Hxs. injection Hxs as <-.
  f_equal. apply sum_float_values, Hlt.
Qed.

(** *** The sum of the counts *)

Lemma sum_number_values_empty : sum_number_values ∅ = Some 0%Z.
Proof. unfold sum_number_values. apply map_fold_empty. Qed.

Lemma sum_number_values_insert_fresh (d : gmap string number) key c n :
  d !! key = None ->
  number_integer c = Some n ->
  sum_number_values (<[ key := c ]> d)
  = (fun a => (n + a)%Z) <$> sum_number_values d.
Proof.
  intros Hfresh Hn. unfold sum_number_values.
  rewrite map_fold_insert_L; [rewrite Hn; reflexivity| |exact Hfresh].
  intros j1 j2 c1 c2 acc _ _ _.
  destruct (number_integer c1), (number_integer c2), acc; simpl;
    try reflexivity.
  f_equal. lia.
Qed.

Lemma number_integer_integral_count ns :
  (N_sum ns < 2 ^ 53)%N ->
  number_integer (integral_count ns) = Some (Z.of_N (N_sum ns)).
Proof.
  intros Hlt. destruct ns as [|n ns]; [reflexivity|].
  cbn [integral_count number_integer]. apply float_integer_of_N, Hlt.
Qed.

Lemma N_sum_app ns1 ns2 : N_sum (ns1 ++ ns2) = (N_sum ns1 + N_sum ns2)%N.
Proof.
  induction ns1 as [|n ns1 IH]; [reflexivity|].
  cbn [app N_sum foldr]. fold (N_sum (ns1 ++ ns2)) (N_sum ns1).
  rewrite IH. lia.
Qed.

Lemma format_flair_loop_sum rows : forall nss d d',
  format_flair_loop d rows = Ok d' ->
  NoDup (flair_id <$> rows) ->
  (forall row, row ∈ rows -> d !! flair_id row = None) ->
  mapM flair_values rows = Some nss ->
  Forall (fun ns => (N_sum ns < 2 ^ 53)%N) nss ->
  sum_number_values d'
  = (fun a => (Z.of_N (N_sum (mjoin nss)) + a)%Z) <$> sum_number_values d.
Proof.
  induction rows as [|row rest IH]; intros nss d d' H Hnd Hfresh Hnss Hlt.
  - injection H as <-. injection Hnss as <-. simpl.
    destruct (sum_number_values d); reflexivity.
  - apply format_flair_loop_cons in H as (xs & Hxs & H).
    apply mapM_Some in Hnss.
    inversion Hnss as [|row' ns rest' nss' Hns Hrest]; subst.
    apply mapM_Some in Hrest. apply Forall_cons in Hlt as [Hlt Hlts].
    rewrite fmap_cons in Hnd. apply NoDup_cons in Hnd as [Hhead Hnd].
    unfold flair_values in Hns.
    rewrite (map_float_values _ _ Hns Hlt) in Hxs. injection Hxs as <-.
    rewrite (sum_float_values _ Hlt) in H.
    rewrite (IH nss' _ _ H Hnd); [| |exact Hrest|exact Hlts].
    + rewrite (sum_number_values_insert_fresh _ _ _ _
                 (Hfresh row ltac:(left))
                 (number_integer_integral_count _ Hlt)).
      change (mjoin (ns :: nss')) with (ns ++ mjoin nss'). rewrite N_sum_app.
      destruct (sum_number_values d); simpl; [f_equal; lia|reflexivity].
    + intros row' Hin. rewrite lookup_insert_ne.
      * apply Hfresh. right. exact Hin.
      * intros Heq. apply Hhead. rewrite Heq.
        apply list_elem_of_fmap. eauto.
Qed.

(** For a flair abundance file in which no identifier comes twice and
    whose rows have integral fields with sums below [2^53], the counts of
    the dictionary, taken as integers, add up to the sum of all the
    fields. *)
Lemma format_flair_sum_of_all_fields header rows nss d :
  format_flair (header :: rows) = Ok d ->
  NoDup (flair_id <$> rows) ->
  mapM flair_values rows = Some nss ->
  Forall (fun ns => (N_sum ns < 2 ^ 53)%N) nss ->
  sum_number_values d = Some (Z.of_N (N_sum (mjoin nss))).
Proof.
  intros H Hnd Hnss Hlt. cbn [format_flair] in H.
  rewrite (format_flair_loop_sum rows nss ∅ d H Hnd); [|..|exact Hnss|exact Hlt].
  - rewrite sum_number_values_empty. simpl. f_equal. lia.
  - intros row _. apply lookup_empty.
Qed.

(** C9. For an abundance file in which no identifier comes twice, the
    values of the dictionary add up to the sum of all the numeric fields of
    all the data rows: for the variants A and B as they are, for variant C
    when every row has integral fields with a sum below [2^53] and the
    counts are taken as integers. *)
Theorem format_sum_of_all_fields :
  (forall v header rows d,
      format v (header :: rows) = Ok d ->
      NoDup (row_id v <$> rows) ->
      exists ns,
        map_int (numeric_fields v rows) = Ok ns /\
        sum_values d = sum ns) /\
  (forall header rows nss d,
      format_flair (header :: rows) = Ok d ->
      NoDup (flair_id <$> rows) ->
      mapM flair_values rows = Some nss ->
      Forall (fun ns => (N_sum ns < 2 ^ 53)%N) nss ->
      sum_number_values d = Some (Z.of_N (N_sum (mjoin nss)))).
Proof.
  split.
  - apply format_int_sum_of_all_fields.
  - apply format_flair_sum_of_all_fields.
Qed.

End FlairFacts.

Lemma format_sum_of_all_fields_witness :
  (exists d,
      format Oxford sample_oxford = Ok d /\
      NoDup (row_id Oxford <$> drop 1 sample_oxford) /\
      exists ns,
        map_int (numeric_fields Oxford (drop 1 sample_oxford)) = Ok ns /\
        sum_values d = sum ns) /\
  (exists d,
      format Talon sample_talon = Ok d /\
      NoDup (row_id Talon <$> drop 1 sample_talon) /\
      exists ns,
        map_int (numeric_fields Talon (drop 1 sample_talon)) = Ok ns /\
        sum_values d = sum ns) /\
  (exists d nss,
      format_flair (take 3 sample_flair) = Ok d /\
      NoDup (flair_id <$> drop 1 (take 3 sample_flair)) /\
      mapM flair_values (drop 1 (take 3 sample_flair)) = Some nss /\
      Forall (fun ns => (N_sum ns < 2 ^ 53)%N) nss /\
      sum_number_values d = Some (Z.of_N (N_sum (mjoin nss)))).
Proof.
  pose proof format_sum_of_all_fields as [Hint Hflair].
  split; [|split].
  - assert (NoDup (row_id Oxford <$> drop 1 sample_oxford)) as Hnd
      by (apply (bool_decide_unpack _); vm_compute; exact I).
    eexists. split; [vm_compute; reflexivity|]. split; [exact Hnd|].
    apply (Hint Oxford ("ids,sample1,sample2,sample3" +:+ nl)
             (drop 1 sample_oxford)); [vm_compute; reflexivity | exact Hnd].
  - assert (NoDup (row_id Talon <$> drop 1 sample_talon)) as Hnd
      by (apply (bool_decide_unpack _); vm_compute; exact I).
    eexists. split; [vm_compute; reflexivity|]. split; [exact Hnd|].
    apply (Hint Talon ("header" +:+ nl) (drop 1 sample_talon));
      [vm_compute; reflexivity | exact Hnd].
  - assert (NoDup (flair_id <$> drop 1 (take 3 sample_flair))) as Hnd
      by (apply (bool_decide_unpack _); vm_compute; exact I).
    assert (Forall (fun ns => (N_sum ns < 2 ^ 53)%N) [[3; 2]; [0; 12]]%N)
      as Hlt by (repeat constructor).
    eexists. exists [[3; 2]; [0; 12]]%N.
    split; [vm_compute; reflexivity|]. split; [exact Hnd|].
    split; [vm_compute; reflexivity|]. split; [exact Hlt|].
    apply (Hflair ("ids" +:+ tab +:+ "sample1" +:+ tab +:+ "sample2" +:+ nl)
             (drop 1 (take 3 sample_flair)));
      [vm_compute; reflexivity | exact Hnd | vm_compute; reflexivity
      | exact Hlt].
Defined.

Lemma format_flair_integral_count_witness :
  let header := "ids" +:+ tab +:+ "sample1" +:+ tab +:+ "sample2" +:+ nl in
  let pre := ["F1" +:+ tab +:+ "3.0" +:+ tab +:+ "2.0" +:+ nl] in
  let row := "F2" +:+ tab +:+ "0.0" +:+ tab +:+ "12.0" +:+ nl in
  let post :=
    ["F3" +:+ tab +:+ "9007199254740992.0" +:+ tab +:+ "1.0" +:+ nl] in
  let ns := [0%N; 12%N] in
  exists d,
    format_flair (header :: pre ++ row :: post) = Ok d /\
    (flair_id row ∉ flair_id <$> post) /\
    flair_values row = Some ns /\
    (N_sum ns < 2 ^ 53)%N /\
    (d !! flair_id row = Some (integral_count ns) /\
     float_integer (float_of_N (N_sum ns)) = Some (Z.of_N (N_sum ns))).
Proof.
  intros header pre row post ns.
  assert (flair_id row ∉ flair_id <$> post) as Hid
    by (apply (bool_decide_unpack _); vm_compute; exact I).
  assert (flair_values row = Some ns) as Hns by (vm_compute; reflexivity).
  assert (N_sum ns < 2 ^ 53)%N as Hlt by (vm_compute; reflexivity).
  eexists. split; [vm_compute; reflexivity|].
  split; [exact Hid|]. split; [exact Hns|]. split; [exact Hlt|].
  apply (format_flair_integral_count header pre row post ns);
    [vm_compute; reflexivity | exact Hid | exact Hns | exact Hlt].
Defined.

(** C4, as the specification has it, fails on the sample file. The count
    of [F1] is the float 5.0, not an integer; and the count of [F3], whose
    fields are 9007199254740992.0 and 1.0, is the float 9007199254740992.0,
    one less than their sum. *)
Lemma format_flair_count_is_a_float :
  exists d x,
    format_flair sample_flair = Ok d /\
    d !! "F1" = Some (PyFloat (float_of_N 5)) /\
    (forall n, PyFloat (float_of_N 5) <> PyInt n) /\
    flair_values ("F3" +:+ tab +:+ "9007199254740992.0" +:+ tab +:+ "1.0"
                    +:+ nl)
      = Some [9007199254740992%N; 1%N] /\
    N_sum [9007199254740992%N; 1%N] = 9007199254740993%N /\
    d !! "F3" = Some (PyFloat x) /\
    float_integer x = Some 9007199254740992%Z.
Proof.
  eexists. eexists. split; [vm_compute; reflexivity|].
  split; [vm_compute; reflexivity|]. split; [discriminate|].
  split; [vm_compute; reflexivity|]. split; [reflexivity|].
  split; vm_compute; reflexivity.
Qed.

(** * Outcomes, contents and composition *)

(** ** The abundance readers: when they return *)

Section ReaderOutcome.
Local Open Scope Z_scope.

(** [map(int, fields)] goes through exactly when every field is an integer
    literal, and raises [ValueError] otherwise. *)
Lemma map_int_outcome fields :
  match map_int fields with
  | Ok ns => forallb is_int fields = true
  | Raise e => e = ValueError /\ forallb is_int fields = false
  end.
Proof.
  induction fields as [|c rest IH]; [reflexivity|].
  cbn [map_int forallb]. unfold is_int at 1 3.
  unfold int.
  destruct (match strip_space (chars c) with
            | [] => _ | _ => _ end) as [z|]; cbn.
  - destruct (map_int rest); cbn; [exact IH|exact IH].
  - split; reflexivity.
Qed.

Lemma split_on_go_nonempty sep cur s : split_on_go sep cur s <> [].
Proof.
  revert cur. induction s as [|c s IH]; intros cur; simpl; [discriminate|].
  destruct (Ascii.eqb c sep); [discriminate|apply IH].
Qed.

(** [s.split(sep)] always has a first piece. *)
Lemma split_on_length sep s : (0 < length (split_on sep s))%nat.
Proof.
  unfold split_on. pose proof (split_on_go_nonempty sep [] (chars s)).
  destruct (split_on_go sep [] (chars s)); [contradiction|simpl; lia].
Qed.

Lemma getitem_outcome {A : Type} (l : list A) (i : nat) :
  match getitem l i with
  | Ok x => l !! i = Some x /\ (i < length l)%nat
  | Raise e => e = IndexError /\ (length l <= i)%nat
  end.
Proof.
  unfold getitem. destruct (l !! i) eqn:E.
  - split; [reflexivity|]. eapply lookup_lt_Some, E.
  - split; [reflexivity|]. apply lookup_ge_None, E.
Qed.

(** A well-formed row is stored, and the loop goes on. *)
Lemma format_loop_step v d line rest :
  row_ok v line = true ->
  exists ns,
    map_int (row_numeric v line) = Ok ns /\
    format_loop v d (line :: rest)
    = format_loop v (<[ row_id v line := sum ns ]> d) rest.
Proof.
  unfold row_ok. intros H. apply andb_true_iff in H as [Hid Hnum].
  apply Nat.ltb_lt in Hid.
  pose proof (map_int_outcome (row_numeric v line)) as Hm.
  destruct (map_int (row_numeric v line)) as [ns|e] eqn:E;
    [|destruct Hm; congruence].
  exists ns. split; [reflexivity|].
  apply lookup_lt_is_Some in Hid as [tid Htid].
  destruct v; simpl in *; unfold getitem, row_id, row_fields in *;
    rewrite Htid; simpl; rewrite E; reflexivity.
Qed.

(** A row that is not well formed ends the loop. *)
Lemma format_loop_bad v d line rest :
  row_ok v line = false ->
  format_loop v d (line :: rest) = Raise (row_error v line).
Proof.
  unfold row_ok, row_error. intros H.
  destruct (id_slot v <? length (row_fields v line))%nat eqn:Hid.
  - simpl in H. apply Nat.ltb_lt in Hid.
    apply lookup_lt_is_Some in Hid as [tid Htid].
    pose proof (map_int_outcome (row_numeric v line)) as Hm.
    destruct (map_int (row_numeric v line)) as [ns|e] eqn:E; [congruence|].
    destruct Hm as [-> _].
    destruct v; simpl in *; unfold getitem, row_fields in *;
      rewrite Htid; simpl; rewrite E; reflexivity.
  - apply Nat.ltb_ge in Hid. apply lookup_ge_None in Hid.
    destruct v; simpl in *; unfold getitem, row_fields in *;
      rewrite Hid; reflexivity.
Qed.

Lemma format_loop_outcome v rows : forall d,
  match format_loop v d rows with
  | Ok _ => forallb (row_ok v) rows = true
  | Raise e =>
      exists pre row post,
        rows = pre ++ row :: post /\
        forallb (row_ok v) pre = true /\
        row_ok v row = false /\
        e = row_error v row
  end.
Proof.
  induction rows as [|line rest IH]; intros d.
  - destruct v; reflexivity.
  - destruct (row_ok v line) eqn:Hok.
    + destruct (format_loop_step v d line rest Hok) as (ns & _ & ->).
      specialize (IH (<[ row_id v line := sum ns ]> d)).
      destruct (format_loop v _ rest) as [d'|e].
      * simpl. rewrite Hok. exact IH.
      * destruct IH as (pre & row & post & -> & Hpre & Hrow & ->).
        exists (line :: pre), row, post. simpl. rewrite Hok. auto.
    + rewrite (format_loop_bad v d line rest Hok).
      exists [], line, rest. auto.
Qed.

(** X1. [format_oxford] and [format_talon] on a file with a header line:
    they return exactly when every data row is well formed. Otherwise they
    raise at the first row that is not: [IndexError] when the field of the
    identifier is missing (a talon row of fewer than four fields),
    [ValueError] when a field that is summed is not an integer literal.
    [format_oxford] never raises [IndexError]: a row always has a first
    field. *)
Theorem format_outcome v header rows :
  match format v (header :: rows) with
  | Ok _ => forallb (row_ok v) rows = true
  | Raise e =>
      exists pre row post,
        rows = pre ++ row :: post /\
        forallb (row_ok v) pre = true /\
        row_ok v row = false /\
        e = row_error v row
  end /\
  format_oxford (header :: rows) <> Raise IndexError.
Proof.
  split.
  - pose proof (format_loop_outcome v rows ∅) as H.
    replace (format v (header :: rows)) with (format_loop v ∅ rows)
      by (destruct v; reflexivity).
    exact H.
  - pose proof (format_loop_outcome Oxford rows ∅) as H.
    cbn [format_oxford]. change (format_oxford_loop ∅ rows)
      with (format_loop Oxford ∅ rows).
    destruct (format_loop Oxford ∅ rows) as [d|e]; [discriminate|].
    destruct H as (pre & row & post & _ & _ & _ & ->).
    unfold row_error, row_fields, id_slot.
    pose proof (split_on_length "," (strip "010" row)) as Hlen.
    apply Nat.ltb_lt in Hlen. rewrite Hlen. discriminate.
Qed.

End ReaderOutcome.

(** A field [3.0] stops [format_oxford] with a [ValueError]; a talon row
    of three fields stops [format_talon] with an [IndexError], and an empty
    count field, which [format_oxford] skips, with a [ValueError]. *)
Example format_raises :
  format_oxford ["ids,s1" +:+ nl; "T1,3.0" +:+ nl] = Raise ValueError /\
  format_talon ["header" +:+ nl; "1" +:+ tab +:+ "1" +:+ tab +:+ "G1" +:+ nl]
    = Raise IndexError /\
  format_talon ["header" +:+ nl; talon_row "L1" ["3"] +:+ nl]
    = Raise ValueError /\
  format_oxford [] = Raise StopIteration.
Proof. repeat split; vm_compute; reflexivity. Qed.

(** A blank line is a row for [format_oxford] and [format_flair], stored
    under the empty identifier with the count 0. *)
Example format_blank_row :
  format_oxford ["ids,s1" +:+ nl; "T1,3" +:+ nl; nl]
    = Ok {[ "T1" := 3%Z; "" := 0%Z ]} /\
  format_flair ["ids" +:+ nl; nl] = Ok {[ "" := PyInt 0 ]}.
Proof. split; vm_compute; reflexivity. Qed.

(** ** The abundance readers: what they store *)

Section ReaderEntries.
Local Open Scope Z_scope.

(** The rows that follow do not touch the identifiers they do not have. *)
Lemma format_loop_other v rest : forall d d' id,
  format_loop v d rest = Ok d' ->
  id ∉ row_id v <$> rest ->
  d' !! id = d !! id.
Proof.
  induction rest as [|line rest IH]; intros d d' id H Hid.
  - apply format_loop_nil in H as ->. reflexivity.
  - apply format_loop_cons in H as (ns & _ & H).
    rewrite fmap_cons in Hid. apply not_elem_of_cons in Hid as [Hne Hid].
    rewrite (IH _ _ _ H Hid). apply lookup_insert_ne. congruence.
Qed.

(** The last row of an identifier decides its count. *)
Lemma format_loop_last v pre : forall d d' row post,
  format_loop v d (pre ++ row :: post) = Ok d' ->
  row_id v row ∉ row_id v <$> post ->
  exists ns,
    map_int (row_numeric v row) = Ok ns /\
    d' !! row_id v row = Some (sum ns).
Proof.
  induction pre as [|line pre IH]; intros d d' row post H Hid.
  - apply format_loop_cons in H as (ns & Hns & H).
    exists ns. split; [exact Hns|].
    rewrite (format_loop_other _ _ _ _ _ H Hid). apply lookup_insert_eq.
  - apply format_loop_cons in H as (ns & _ & H).
    exact (IH _ _ _ _ H Hid).
Qed.

(** X2. The dictionary of [format_oxford] or [format_talon] maps the
    identifier of a row to the sum of the numeric fields of that row,
    provided no later row has the same identifier: the last row of an
    identifier decides. *)
Theorem format_count_of_last_row v header pre row post d :
  format v (header :: pre ++ row :: post) = Ok d ->
  row_id v row ∉ row_id v <$> post ->
  exists ns,
    map_int (row_numeric v row) = Ok ns /\
    d !! row_id v row = Some (sum ns).
Proof.
  intros H Hid.
  assert (format_loop v ∅ (pre ++ row :: post) = Ok d) as Hloop
    by (destruct v; exact H).
  exact (format_loop_last v pre _ _ _ _ Hloop Hid).
Qed.

Lemma format_loop_dom v rows : forall d d',
  format_loop v d rows = Ok d' ->
  dom d' = dom d ∪ list_to_set (row_id v <$> rows).
Proof.
  induction rows as [|line rest IH]; intros d d' H.
  - apply format_loop_nil in H as ->. simpl.
    rewrite (right_id_L ∅ (∪)). reflexivity.
  - apply format_loop_cons in H as (ns & _ & H).
    rewrite (IH _ _ H), dom_insert_L, fmap_cons, list_to_set_cons.
    rewrite (comm_L (∪) {[row_id v line]} (dom d)), (assoc_L (∪)).
    reflexivity.
Qed.

Lemma format_flair_loop_dom rows : forall d d',
  format_flair_loop d rows = Ok d' ->
  dom d' = dom d ∪ list_to_set (flair_id <$> rows).
Proof.
  induction rows as [|line rest IH]; intros d d' H.
  - injection H as <-. simpl. rewrite (right_id_L ∅ (∪)). reflexivity.
  - apply format_flair_loop_cons in H as (ns & _ & H).
    rewrite (IH _ _ H), dom_insert_L, fmap_cons, list_to_set_cons.
    rewrite (comm_L (∪) {[flair_id line]} (dom d)), (assoc_L (∪)).
    reflexivity.
Qed.

(** X3. The keys of the dictionary a reader returns are the identifiers
    of the data rows, all of them and nothing else: for the two readers
    with [int] counts and for [format_flair]. *)
Theorem format_keys_are_row_identifiers :
  (forall v header rows d,
      format v (header :: rows) = Ok d ->
      dom d = list_to_set (row_id v <$> rows)) /\
  (forall header rows d,
      format_flair (header :: rows) = Ok d ->
      dom d = list_to_set (flair_id <$> rows)).
Proof.
  split.
  - intros v header rows d H.
    assert (format_loop v ∅ rows = Ok d) as Hloop by (destruct v; exact H).
    rewrite (format_loop_dom _ _ _ _ Hloop), dom_empty_L.
    apply (left_id_L ∅ (∪)).
  - intros header rows d H. cbn [format_flair] in H.
    rewrite (format_flair_loop_dom _ _ _ H), dom_empty_L.
    apply (left_id_L ∅ (∪)).
Qed.

(** Two rows with different identifiers can change places. *)
Lemma format_loop_permutation v rows rows' :
  rows ≡ₚ rows' ->
  forall d d',
    NoDup (row_id v <$> rows) ->
    format_loop v d rows = Ok d' ->
    format_loop v d rows' = Ok d'.
Proof.
  induction 1 as [|x l l' Hp IH|x y l|l l' l'' Hp1 IH1 Hp2 IH2];
    intros d d' Hnd H.
  - exact H.
  - pose proof (format_loop_outcome v (x :: l) d) as Hok. rewrite H in Hok.
    simpl in Hok. apply andb_true_iff in Hok as [Hx _].
    destruct (format_loop_step v d x l Hx) as (ns & Hns & E).
    destruct (format_loop_step v d x l' Hx) as (ns' & Hns' & E').
    rewrite Hns in Hns'. injection Hns' as <-.
    rewrite E'. rewrite E in H.
    rewrite fmap_cons in Hnd. apply NoDup_cons in Hnd as [_ Hnd].
    exact (IH _ _ Hnd H).
  - pose proof (format_loop_outcome v (y :: x :: l) d) as Hok.
    rewrite H in Hok. simpl in Hok.
    apply andb_true_iff in Hok as [Hy Hok].
    apply andb_true_iff in Hok as [Hx _].
    rewrite !fmap_cons in Hnd. apply NoDup_cons in Hnd as [Hne _].
    apply not_elem_of_cons in Hne as [Hne _].
    destruct (format_loop_step v d y (x :: l) Hy) as (ny & Hny & Ey).
    rewrite Ey in H.
    destruct (format_loop_step v (<[row_id v y := sum ny]> d) x l Hx)
      as (nx & Hnx & Ex).
    rewrite Ex in H.
    destruct (format_loop_step v d x (y :: l) Hx) as (nx' & Hnx' & Ex').
    rewrite Hnx in Hnx'. injection Hnx' as <-. rewrite Ex'.
    destruct (format_loop_step v (<[row_id v x := sum nx]> d) y l Hy)
      as (ny' & Hny' & Ey').
    rewrite Hny in Hny'. injection Hny' as <-. rewrite Ey'.
    rewrite insert_insert_ne by congruence. exact H.
  - apply IH2.
    + rewrite <- Hp1. exact Hnd.
    + apply IH1; assumption.
Qed.

(** X4. When no identifier comes twice, the dictionary of
    [format_oxford] or [format_talon] does not depend on the order of the
    data rows, nor on the header line. *)
Theorem format_order_of_rows_irrelevant v header header' rows rows' d :
  rows ≡ₚ rows' ->
  NoDup (row_id v <$> rows) ->
  format v (header :: rows) = Ok d ->
  format v (header' :: rows') = Ok d.
Proof.
  intros Hp Hnd H.
  assert (format_loop v ∅ rows = Ok d) as Hloop by (destruct v; exact H).
  pose proof (format_loop_permutation v rows rows' Hp _ _ Hnd Hloop).
  destruct v; assumption.
Qed.

End ReaderEntries.

Lemma format_count_of_last_row_witness :
  let header := "ids,sample1,sample2,sample3" +:+ nl in
  let pre := ["T1,4,,2" +:+ nl] in
  let row := "T1,1,," +:+ nl in
  exists d,
    format Oxford (header :: pre ++ row :: []) = Ok d /\
    (row_id Oxford row ∉ row_id Oxford <$> []) /\
    exists ns,
      map_int (row_numeric Oxford row) = Ok ns /\
      d !! row_id Oxford row = Some (sum ns).
Proof.
  intros header pre row.
  assert (row_id Oxford row ∉ row_id Oxford <$> []) as Hid
    by (apply not_elem_of_nil).
  eexists. split; [vm_compute; reflexivity|]. split; [exact Hid|].
  apply (format_count_of_last_row Oxford header pre row []);
    [vm_compute; reflexivity | exact Hid].
Defined.

Lemma format_keys_are_row_identifiers_witness :
  (exists d,
      format Talon sample_talon = Ok d /\
      dom d = list_to_set (row_id Talon <$> drop 1 sample_talon)) /\
  (exists d,
      format_flair sample_flair = Ok d /\
      dom d = list_to_set (flair_id <$> drop 1 sample_flair)).
Proof.
  pose proof format_keys_are_row_identifiers as [Hint Hflair].
  split.
  - eexists. split; [vm_compute; reflexivity|].
    apply (Hint Talon ("header" +:+ nl) (drop 1 sample_talon)).
    vm_compute. reflexivity.
  - eexists. split; [vm_compute; reflexivity|].
    apply (Hflair ("ids" +:+ tab +:+ "sample1" +:+ tab +:+ "sample2" +:+ nl)
             (drop 1 sample_flair)).
    vm_compute. reflexivity.
Defined.

Lemma format_order_of_rows_irrelevant_witness :
  let rows := ["T1,4,,2" +:+ nl; "T2,,,7" +:+ nl] in
  let rows' := ["T2,,,7" +:+ nl; "T1,4,,2" +:+ nl] in
  exists d,
    rows ≡ₚ rows' /\
    NoDup (row_id Oxford <$> rows) /\
    format Oxford (("ids,sample1,sample2,sample3" +:+ nl) :: rows) = Ok d /\
    format Oxford (("transcript,a,b,c" +:+ nl) :: rows') = Ok d.
Proof.
  intros rows rows'.
  assert (rows ≡ₚ rows') as Hp by apply perm_swap.
  assert (NoDup (row_id Oxford <$> rows)) as Hnd
    by (apply (bool_decide_unpack _); vm_compute; exact I).
  eexists. split; [exact Hp|]. split; [exact Hnd|].
  split; [vm_compute; reflexivity|].
  apply (format_order_of_rows_irrelevant
           Oxford ("ids,sample1,sample2,sample3" +:+ nl)
           ("transcript,a,b,c" +:+ nl) rows rows' _ Hp Hnd).
  vm_compute. reflexivity.
Defined.

(** ** format_flair: when it returns *)

Section FlairOutcome.

Lemma map_float_outcome fields :
  match map_float fields with
  | Ok _ => forallb is_float fields = true
  | Raise e => e = ValueError /\ forallb is_float fields = false
  end.
Proof.
  induction fields as [|c rest IH]; [reflexivity|].
  cbn [map_float forallb]. unfold is_float at 1 3. unfold float.
  destruct (float_literal c) as [l|]; cbn.
  - destruct (map_float rest); cbn; exact IH.
  - split; reflexivity.
Qed.

Lemma format_flair_loop_outcome rows : forall d,
  match format_flair_loop d rows with
  | Ok _ => forallb flair_row_ok rows = true
  | Raise e =>
      e = ValueError /\
      exists pre row post,
        rows = pre ++ row :: post /\
        forallb flair_row_ok pre = true /\
        flair_row_ok row = false
  end.
Proof.
  induction rows as [|line rest IH]; intros d; [reflexivity|].
  cbn [format_flair_loop forallb].
  pose proof (split_on_length "009" (strip "010" line)) as Hlen.
  apply lookup_lt_is_Some in Hlen as [tid Htid].
  unfold getitem. rewrite Htid. cbn.
  pose proof (map_float_outcome (drop 1 (split_on "009" (strip "010" line))))
    as Hm.
  fold (flair_fields line) in Hm |- *.
  destruct (map_float (drop 1 (flair_fields line))) as [xs|e]; cbn.
  - specialize (IH (<[ tid := sum_float xs ]> d)).
    unfold flair_row_ok at 1 3. rewrite Hm.
    destruct (format_flair_loop _ rest) as [d'|e]; [exact IH|].
    destruct IH as (-> & pre & row & post & -> & Hpre & Hrow).
    split; [reflexivity|]. exists (line :: pre), row, post.
    cbn [forallb]. unfold flair_row_ok at 1. rewrite Hm. auto.
  - destruct Hm as [-> Hm]. split; [reflexivity|].
    exists [], line, rest. auto.
Qed.

(** X5. [format_flair] on a file with a header line returns exactly when
    every count field of every data row is a literal of [float]; otherwise
    it raises [ValueError], at the first row that has another field. It
    raises nothing else. *)
Theorem format_flair_outcome header rows :
  match format_flair (header :: rows) with
  | Ok _ => forallb flair_row_ok rows = true
  | Raise e =>
      e = ValueError /\
      exists pre row post,
        rows = pre ++ row :: post /\
        forallb flair_row_ok pre = true /\
        flair_row_ok row = false
  end.
Proof. apply format_flair_loop_outcome. Qed.

End FlairOutcome.

(** [format_flair] takes every literal of [float], and stops at a field
    that is none, such as an empty one. *)
Example format_flair_fields :
  (exists d,
      format_flair ["ids" +:+ nl; "F1" +:+ tab +:+ "1e3" +:+ tab +:+ "nan" +:+ nl]
      = Ok d) /\
  format_flair ["ids" +:+ nl; "F1" +:+ tab +:+ "3.0" +:+ tab +:+ nl]
    = Raise ValueError.
Proof. split; [eexists|]; vm_compute; reflexivity. Qed.

(** ** combine: when it returns *)

Section CombineOutcome.
Context {V : Type}.
Variable is_zero : V -> bool.
Variable str_count : V -> string.
Variable counts : gmap string V.

Abbreviation is_header line := (record_kind line = Ok "transcript").
Abbreviation step o := (combine_line is_zero str_count o counts).
Abbreviation loop o := (combine_loop is_zero str_count o counts).

(** One turn of the loop goes through exactly on a line that is long
    enough, and raises [IndexError] otherwise. *)
Lemma combine_line_outcome o write line :
  match step o write line with
  | Ok _ => combine_line_ok line = true
  | Raise e => e = IndexError /\ combine_line_ok line = false
  end.
Proof.
  unfold combine_line, combine_line_ok, record_kind, getitem.
  destruct (split line !! 2) as [kind|]; cbn [mbind Res_bind]; [|auto].
  destruct (String.eqb kind "transcript"); [|reflexivity].
  destruct (split line !! 11) as [field|] eqn:E11; cbn [mbind Res_bind].
  - assert (11 < length (split line)) as Hlen
      by (eapply lookup_lt_Some, E11).
    assert (is_Some (split line !! 9)) as [gene_field E9]
      by (apply lookup_lt_is_Some; lia).
    apply Nat.ltb_lt in Hlen. rewrite Hlen, E9. cbn [mbind Res_bind].
    destruct (counts !! slice_1_m2 field) as [count|].
    + destruct (is_zero count); reflexivity.
    + destruct (counts !! _); reflexivity.
  - apply lookup_ge_None in E11. split; [reflexivity|].
    apply Nat.ltb_ge. lia.
Qed.

Lemma combine_loop_outcome o GTF : forall write,
  let '(tr, outcome) := loop o write GTF in
  match outcome with
  | Ok _ => forallb combine_line_ok GTF = true /\
            length (writes tr) = length GTF
  | Raise e =>
      e = IndexError /\
      exists pre bad post,
        GTF = pre ++ bad :: post /\
        forallb combine_line_ok pre = true /\
        combine_line_ok bad = false /\
        length (writes tr) = length pre
  end.
Proof.
  induction GTF as [|line rest IH]; intros write; [split; reflexivity|].
  cbn [combine_loop].
  pose proof (combine_line_outcome o write line) as Hline.
  destruct (step o write line) as [[evs w1]|e] eqn:Hstep.
  - specialize (IH w1). destruct (loop o w1 rest) as [tr' r].
    pose proof (combine_line_one_write _ _ _ _ _ _ _ _ Hstep) as Hone.
    destruct r as [wf|e].
    + destruct IH as [Hok Hlen]. cbn [forallb]. rewrite Hline, Hok.
      split; [reflexivity|].
      rewrite writes_app, length_app, Hone, Hlen. reflexivity.
    + destruct IH as (-> & pre & bad & post & -> & Hpre & Hbad & Hlen).
      split; [reflexivity|]. exists (line :: pre), bad, post.
      cbn [forallb]. rewrite Hline, Hpre, Hbad.
      rewrite writes_app, length_app, Hone, Hlen. auto.
  - destruct Hline as [-> Hbad]. split; [reflexivity|].
    exists [], line, rest. auto.
Qed.

(** X6. [combine] returns exactly when every line of the annotation file
    has a third field, and twelve fields if it is a transcript header; it
    has then made one write for each line. Otherwise it raises
    [IndexError], and nothing else, at the first line that is too short,
    having made one write for each line before that one. The dictionary of
    counts has no part in this. *)
Theorem combine_outcome gtf_file GTF :
  let '(tr, outcome) := combine is_zero str_count gtf_file GTF counts in
  match outcome with
  | Ok _ => forallb combine_line_ok GTF = true /\
            length (writes tr) = length GTF
  | Raise e =>
      e = IndexError /\
      exists pre bad post,
        GTF = pre ++ bad :: post /\
        forallb combine_line_ok pre = true /\
        combine_line_ok bad = false /\
        length (writes tr) = length pre
  end.
Proof.
  unfold combine.
  destruct (getitem_last_split_on "/" gtf_file) as [o ->].
  pose proof (combine_loop_outcome o GTF true) as H.
  destruct (loop o true GTF) as [tr [w|e]]; exact H.
Qed.

(** A header is dealt with in the same way whatever the flag is. *)
Lemma combine_line_header_flag o write write' line :
  is_header line -> step o write line = step o write' line.
Proof.
  intros Hk. unfold combine_line. rewrite Hk. reflexivity.
Qed.

Lemma combine_loop_header_flag o write write' header post :
  is_header header ->
  loop o write (header :: post) = loop o write' (header :: post).
Proof.
  intros Hk. cbn [combine_loop].
  rewrite (combine_line_header_flag o write write' header Hk). reflexivity.
Qed.

(** The loop on two stretches of lines, one after the other. *)
Lemma combine_loop_app_eq o l1 l2 : forall write,
  loop o write (l1 ++ l2) =
    let '(tr1, outcome1) := loop o write l1 in
    match outcome1 with
    | Ok write' =>
        let '(tr2, outcome2) := loop o write' l2 in (tr1 ++ tr2, outcome2)
    | Raise e => (tr1, Raise e)
    end.
Proof.
  induction l1 as [|line l1 IH]; intros write.
  - cbn. destruct (loop o write l2). reflexivity.
  - cbn [app combine_loop].
    destruct (step o write line) as [[evs w1]|e]; [|reflexivity].
    rewrite IH. destruct (loop o w1 l1) as [tr1 [w2|e]].
    + destruct (loop o w2 l2) as [tr2 r]. rewrite app_assoc. reflexivity.
    + reflexivity.
Qed.

(** X7. A transcript header resets the state of [combine]: the run on a
    file is the run on the lines before a header followed, if that one
    raises nothing, by the run on the lines from the header on. *)
Theorem combine_restarts_at_header gtf_file pre header post :
  is_header header ->
  combine is_zero str_count gtf_file (pre ++ header :: post) counts =
    let '(tr1, outcome1) := combine is_zero str_count gtf_file pre counts in
    match outcome1 with
    | Ok _ =>
        let '(tr2, outcome2) :=
          combine is_zero str_count gtf_file (header :: post) counts in
        (tr1 ++ tr2, outcome2)
    | Raise e => (tr1, Raise e)
    end.
Proof.
  intros Hk. unfold combine.
  destruct (getitem_last_split_on "/" gtf_file) as [o ->].
  rewrite combine_loop_app_eq.
  destruct (loop o true pre) as [tr1 [w|e]]; [|reflexivity].
  rewrite (combine_loop_header_flag o w true header post Hk).
  destruct (loop o true (header :: post)) as [tr2 r]. reflexivity.
Qed.

End CombineOutcome.

Lemma combine_restarts_at_header_witness :
  let pre := take 3 sample_gtf in
  let header := gtf_line "transcript" "G5" "T2" in
  let post := drop 4 sample_gtf in
  record_kind header = Ok "transcript" /\
  combine (Z.eqb 0) str_int "results/oxford.gtf" (pre ++ header :: post)
          sample_counts =
    let '(tr1, outcome1) :=
      combine (Z.eqb 0) str_int "results/oxford.gtf" pre sample_counts in
    match outcome1 with
    | Ok _ =>
        let '(tr2, outcome2) :=
          combine (Z.eqb 0) str_int "results/oxford.gtf" (header :: post)
                  sample_counts in
        (tr1 ++ tr2, outcome2)
    | Raise e => (tr1, Raise e)
    end.
Proof.
  intros pre header post.
  assert (record_kind header = Ok "transcript") as Hk
    by (vm_compute; reflexivity).
  split; [exact Hk|].
  apply (combine_restarts_at_header
           (Z.eqb 0) str_int sample_counts "results/oxford.gtf"
           pre header post Hk).
Defined.

(** A blank line stops [combine], and so does a comment of two words. *)
Example combine_short_lines :
  combine_int "oxford.gtf" [gtf_line "exon" "G1" "T1"; nl] sample_counts
    = ([Write Outfile (gtf_line "exon" "G1" "T1")], Raise IndexError) /\
  combine_int "oxford.gtf" ["# comment" +:+ nl] sample_counts
    = ([], Raise IndexError).
Proof. split; vm_compute; reflexivity. Qed.

(** ** combine: the writes and the log *)

Section CombineTrace.
Context {V : Type}.
Variable is_zero : V -> bool.
Variable str_count : V -> string.
Variable counts : gmap string V.

Abbreviation is_header line := (record_kind line = Ok "transcript").
Abbreviation step o := (combine_line is_zero str_count o counts).
Abbreviation loop o := (combine_loop is_zero str_count o counts).

(** The write a run makes for the line at place [i], and the turn of the
    loop that makes it. *)
Lemma combine_loop_write_at o l write tr write' i line :
  loop o write l = (tr, Ok write') ->
  l !! i = Some line ->
  exists w1 evs w2 x,
    step o w1 line = Ok (evs, w2) /\
    writes evs = [x] /\
    writes tr !! i = Some x.
Proof.
  intros H Hi. rewrite <- (take_drop_middle _ _ _ Hi) in H.
  apply combine_loop_app in H as (tr1 & w1 & tr2 & H1 & H2 & ->).
  apply combine_loop_cons in H2 as (evs & w2 & tr' & Hstep & _ & ->).
  apply combine_loop_length in H1.
  assert (length (writes tr1) = i) as Hlen.
  { rewrite H1, length_take. apply lookup_lt_Some in Hi. lia. }
  pose proof (combine_line_one_write _ _ _ _ _ _ _ _ Hstep) as Hone.
  destruct (writes evs) as [|x [|y rest]] eqn:Hw; try discriminate.
  exists w1, evs, w2, x. split; [exact Hstep|]. split; [exact Hw|].
  rewrite !writes_app, Hw, <- Hlen.
  rewrite lookup_app_r by lia. rewrite Nat.sub_diag. reflexivity.
Qed.

(** The part of the file a run has dealt with. *)
Lemma combine_run gtf_file GTF tr outcome :
  combine is_zero str_count gtf_file GTF counts = (tr, outcome) ->
  exists o write',
    loop o true (take (length (writes tr)) GTF) = (tr, Ok write') /\
    length (writes tr) <= length GTF.
Proof.
  intros H. apply combine_loop_of in H as (o & r & H & _).
  apply combine_loop_processed in H as (n & w' & Hn & Hlen & Hle & _).
  exists o, w'. rewrite Hlen. split; [exact Hn|exact Hle].
Qed.

(** The write made for a header. *)
Lemma combine_line_header_write o write line evs write' :
  is_header line ->
  step o write line = Ok (evs, write') ->
  exists field gene_field,
    split line !! 11 = Some field /\
    split line !! 9 = Some gene_field /\
    writes evs = [header_write is_zero str_count counts line
                    (slice_1_m2 field) (slice_1_m2 gene_field)].
Proof.
  intros Hk H. unfold combine_line in H. rewrite Hk in H.
  cbn [mbind Res_bind] in H. rewrite String.eqb_refl in H.
  apply bind_Ok in H as (field & Hfield & H). apply getitem_Ok in Hfield.
  assert (is_Some (split line !! 9)) as [gene_field E9].
  { apply lookup_lt_is_Some. apply lookup_lt_Some in Hfield. lia. }
  exists field, gene_field. split; [exact Hfield|]. split; [exact E9|].
  unfold header_write.
  destruct (counts !! slice_1_m2 field) as [count|].
  - destruct (is_zero count); injection H as <- _; reflexivity.
  - unfold getitem in H. rewrite E9 in H. cbn [mbind Res_bind] in H.
    destruct (counts !! _) as [count|]; injection H as <- _; reflexivity.
Qed.

(** X8. The write [combine] makes for a transcript header: with the count
    of its transcript identifier to [outfile], or as [removed_line] has
    it to [removed_out] if this count is zero; when the identifier has no
    count, with the count of the identifier followed by [_] and the gene
    identifier to [outfile], whatever this count is, or as [removed_line]
    has it to [removed_out] if there is none either. [removed_line] is
    the line without its last character, followed by a line terminator:
    the line itself when it ends with a line terminator. *)
Theorem combine_header_decision gtf_file GTF tr outcome i line :
  combine is_zero str_count gtf_file GTF counts = (tr, outcome) ->
  GTF !! i = Some line ->
  is_header line ->
  i < length (writes tr) ->
  exists field gene_field,
    split line !! 11 = Some field /\
    split line !! 9 = Some gene_field /\
    writes tr !! i
    = Some (header_write is_zero str_count counts line
              (slice_1_m2 field) (slice_1_m2 gene_field)).
Proof.
  intros H Hi Hk Hlt.
  apply combine_run in H as (o & w' & H & _).
  assert (take (length (writes tr)) GTF !! i = Some line) as Hi'
    by (rewrite lookup_take_lt by exact Hlt; exact Hi).
  destruct (combine_loop_write_at _ _ _ _ _ _ _ H Hi')
    as (w1 & evs & w2 & x & Hstep & Hx & Hw).
  destruct (combine_line_header_write _ _ _ _ _ Hk Hstep)
    as (field & gene_field & H11 & H9 & Hh).
  exists field, gene_field. split; [exact H11|]. split; [exact H9|].
  rewrite Hw. congruence.
Qed.

(** *** What goes to removed_out *)

(** A line that ends with a line terminator is itself again after
    [line[:-1]] and the terminator. *)
Lemma chars_app (s1 s2 : string) : chars (s1 +:+ s2) = chars s1 ++ chars s2.
Proof.
  unfold chars. induction s1 as [|c s1 IH]; [reflexivity|].
  simpl. f_equal. exact IH.
Qed.

Lemma slice_to_m1_nl body : slice_to_m1 (body +:+ nl) = body.
Proof.
  unfold slice_to_m1. rewrite chars_app, length_app.
  change (length (chars nl)) with 1.
  replace (length (chars body) + 1 - 1) with (length (chars body)) by lia.
  rewrite take_app_length. apply string_of_list_ascii_of_string.
Qed.

Lemma removed_line_nl body : removed_line (body +:+ nl) = body +:+ nl.
Proof. unfold removed_line. rewrite slice_to_m1_nl. reflexivity. Qed.

(** X9. When every line of the annotation file ends with a line
    terminator, whatever [combine] writes to [removed_out] is the line of
    the file at that place, unchanged. *)
Theorem combine_removed_lines_are_input_lines
    gtf_file GTF tr outcome i payload :
  combine is_zero str_count gtf_file GTF counts = (tr, outcome) ->
  Forall (fun line => exists body, line = body +:+ nl) GTF ->
  writes tr !! i = Some (RemovedOut, payload) ->
  GTF !! i = Some payload.
Proof.
  intros H Hnl Hw.
  apply combine_run in H as (o & w' & H & Hle).
  apply lookup_lt_Some in Hw as Hlt.
  assert (is_Some (GTF !! i)) as [line Hi] by (apply lookup_lt_is_Some; lia).
  assert (take (length (writes tr)) GTF !! i = Some line) as Hi'
    by (rewrite lookup_take_lt by exact Hlt; exact Hi).
  destruct (combine_loop_write_at _ _ _ _ _ _ _ H Hi')
    as (w1 & evs & w2 & x & Hstep & Hx & Hw').
  rewrite Hw in Hw'. injection Hw' as <-.
  rewrite Hi. f_equal.
  destruct (decide (is_header line)) as [Hk|Hk].
  - destruct (combine_line_header _ _ _ _ _ _ _ _ Hk Hstep)
      as (p & Hp & Hkind).
    rewrite Hx in Hp. injection Hp as Hs <-.
    destruct w2; [discriminate|]. subst payload.
    rewrite Forall_forall in Hnl.
    destruct (Hnl line) as [body ->];
      [eapply list_elem_of_lookup_2, Hi|].
    symmetry. apply removed_line_nl.
  - destruct (combine_line_other _ _ _ _ _ _ _ _ Hk Hstep) as [-> _].
    injection Hx as _ <-. reflexivity.
Qed.

(** *** The log *)

(** One turn of the loop logs one record if it writes a header to
    [removed_out], and none otherwise. *)
Lemma combine_line_logs o write line evs write' :
  step o write line = Ok (evs, write') ->
  exists x,
    writes evs = [x] /\
    length (filter is_log evs)
    = length (filter removed_header [(line, x)]).
Proof.
  intros H. destruct (decide (is_header line)) as [Hk|Hk].
  - unfold combine_line in H. rewrite Hk in H.
    cbn [mbind Res_bind] in H. rewrite String.eqb_refl in H.
    apply bind_Ok in H as (field & _ & H).
    assert (forall f p,
               length (filter removed_header [(line, (f, p))])
               = match f with Outfile => 0 | RemovedOut => 1 end) as Hrem.
    { intros f p.
      assert (removed_header (line, (f, p))
              = match f with Outfile => false | RemovedOut => true end)
        as Hb.
      { unfold removed_header. simpl.
        rewrite bool_decide_eq_true_2 by exact Hk. destruct f; reflexivity. }
      destruct f.
      - rewrite filter_cons_False; [reflexivity|]. rewrite Hb. auto.
      - rewrite filter_cons_True; [reflexivity|]. rewrite Hb. exact I. }
    destruct (counts !! slice_1_m2 field) as [count|].
    + destruct (is_zero count); injection H as <- _;
        eexists; (split; [reflexivity|]); rewrite Hrem; reflexivity.
    + apply bind_Ok in H as (gene_field & _ & H).
      destruct (counts !! _) as [count|]; injection H as <- _;
        eexists; (split; [reflexivity|]); rewrite Hrem; reflexivity.
  - destruct (combine_line_other _ _ _ _ _ _ _ _ Hk H) as [-> _].
    eexists. split; [reflexivity|].
    rewrite (filter_cons_False _ (line, (stream_of write, line))).
    + reflexivity.
    + unfold removed_header. simpl.
      rewrite bool_decide_eq_false_2 by exact Hk. auto.
Qed.

Lemma combine_loop_logs o l : forall write tr write',
  loop o write l = (tr, Ok write') ->
  length (filter is_log tr)
  = length (filter removed_header (zip l (writes tr))).
Proof.
  induction l as [|line rest IH]; intros write tr write' H.
  - injection H as <- _. reflexivity.
  - apply combine_loop_cons in H as (evs & w1 & tr' & Hstep & Hrest & ->).
    destruct (combine_line_logs _ _ _ _ _ Hstep) as (x & Hx & Hlog).
    rewrite filter_app, length_app, Hlog, (IH _ _ _ Hrest).
    rewrite writes_app, Hx.
    change (zip (line :: rest) ([x] ++ writes tr'))
      with ([(line, x)] ++ zip rest (writes tr')).
    rewrite filter_app, length_app. reflexivity.
Qed.

(** X10. [combine] writes one record to the log for each transcript
    header it writes to [removed_out], and no other record. *)
Theorem combine_logs_once_per_removed_header gtf_file GTF tr outcome :
  combine is_zero str_count gtf_file GTF counts = (tr, outcome) ->
  length (filter is_log tr)
  = length (filter removed_header (zip GTF (writes tr))).
Proof.
  intros H. apply combine_run in H as (o & w' & H & _).
  rewrite (combine_loop_logs _ _ _ _ _ H).
  do 2 f_equal. apply zip_with_take_l.
Qed.

End CombineTrace.

Lemma combine_header_decision_witness :
  let line := gtf_line "transcript" "G5" "T2" in
  exists tr outcome,
    combine (Z.eqb 0) str_int "results/oxford.gtf" sample_gtf sample_counts
      = (tr, outcome) /\
    sample_gtf !! 3 = Some line /\
    record_kind line = Ok "transcript" /\
    3 < length (writes tr) /\
    exists field gene_field,
      split line !! 11 = Some field /\
      split line !! 9 = Some gene_field /\
      writes tr !! 3
      = Some (header_write (Z.eqb 0) str_int sample_counts line
                (slice_1_m2 field) (slice_1_m2 gene_field)).
Proof.
  intros line.
  assert (record_kind line = Ok "transcript") as Hk
    by (vm_compute; reflexivity).
  eexists. eexists. split; [vm_compute; reflexivity|].
  split; [reflexivity|]. split; [exact Hk|].
  split; [vm_compute; lia|].
  eapply (combine_header_decision
           (Z.eqb 0) str_int sample_counts "results/oxford.gtf" sample_gtf
           _ _ 3 line);
    [vm_compute; reflexivity | reflexivity | exact Hk | vm_compute; lia].
Defined.

Lemma combine_removed_lines_are_input_lines_witness :
  let GTF := drop 1 sample_gtf in
  let payload := gtf_line "transcript" "G5" "T2" in
  exists tr outcome,
    combine (Z.eqb 0) str_int "results/oxford.gtf" GTF sample_counts
      = (tr, outcome) /\
    Forall (fun line => exists body, line = body +:+ nl) GTF /\
    writes tr !! 2 = Some (RemovedOut, payload) /\
    GTF !! 2 = Some payload.
Proof.
  intros GTF payload.
  assert (Forall (fun line => exists body, line = body +:+ nl) GTF) as Hnl.
  { repeat constructor;
      match goal with
      | |- exists body, ?line = _ => exists (slice_to_m1 line)
      end; vm_compute; reflexivity. }
  eexists. eexists. split; [vm_compute; reflexivity|].
  split; [exact Hnl|]. split; [vm_compute; reflexivity|].
  eapply (combine_removed_lines_are_input_lines
            (Z.eqb 0) str_int sample_counts "results/oxford.gtf" GTF
            _ _ 2 payload);
    [vm_compute; reflexivity | exact Hnl | vm_compute; reflexivity].
Defined.

(** A header that is the last line of a file without a final line
    terminator loses its last character on the way to [removed_out]. *)
Example combine_unterminated_header :
  combine_int "oxford.gtf"
              [slice_to_m1 (gtf_line "transcript" "G5" "T2")] ∅
  = ([ LogError "ORIGIN: oxford.gtf FIRST TRY: T2 SECOND TRY: T2_G5";
       Write RemovedOut
             (slice_to_m1 (slice_to_m1 (gtf_line "transcript" "G5" "T2"))
                +:+ nl) ],
     Ok tt).
Proof. vm_compute. reflexivity. Qed.

Lemma combine_logs_once_per_removed_header_witness :
  exists tr outcome,
    combine (Z.eqb 0) str_int "results/oxford.gtf" sample_gtf sample_counts
      = (tr, outcome) /\
    length (filter is_log tr) = 2 /\
    length (filter is_log tr)
    = length (filter removed_header (zip sample_gtf (writes tr))).
Proof.
  eexists. eexists. split; [vm_compute; reflexivity|].
  split; [vm_compute; reflexivity|].
  eapply (combine_logs_once_per_removed_header
            (Z.eqb 0) str_int sample_counts "results/oxford.gtf" sample_gtf).
  vm_compute. reflexivity.
Defined.

(** ** A reader and combine together *)

Section ReaderCombine.
Local Open Scope Z_scope.

(** X11. A reader and [combine] one after the other, as [main] runs them
    for oxford and talon: a transcript header whose identifier is that of
    a row of the abundance file, the last one with this identifier, goes
    to [removed_out] as [removed_line] has it (as it stands, when it ends
    with a line terminator) when the numeric fields of the row add up
    to zero (so when all of them are empty), and to [outfile] with their
    sum as its count otherwise. *)
Theorem abundance_row_decides_header
    v header pre row post counts ns gtf_file GTF tr outcome i line field :
  format v (header :: pre ++ row :: post) = Ok counts ->
  row_id v row ∉ row_id v <$> post ->
  map_int (row_numeric v row) = Ok ns ->
  combine_int gtf_file GTF counts = (tr, outcome) ->
  GTF !! i = Some line ->
  record_kind line = Ok "transcript" ->
  split line !! 11%nat = Some field ->
  slice_1_m2 field = row_id v row ->
  (i < length (writes tr))%nat ->
  writes tr !! i
  = Some (if sum ns =? 0 then (RemovedOut, removed_line line)
          else (Outfile, kept_line str_int line (sum ns))).
Proof.
  intros Hf Hid Hns Hc Hi Hk H11 Htid Hlt.
  assert (format_loop v ∅ (pre ++ row :: post) = Ok counts) as Hloop
    by (destruct v; exact Hf).
  destruct (format_loop_last v pre _ _ _ _ Hloop Hid) as (ns' & Hns' & Hcount).
  rewrite Hns in Hns'. injection Hns' as <-.
  apply combine_run in Hc as (o & w' & Hc & _).
  assert (take (length (writes tr)) GTF !! i = Some line) as Hi'
    by (rewrite lookup_take_lt by exact Hlt; exact Hi).
  destruct (combine_loop_write_at _ _ _ _ _ _ _ _ _ _ Hc Hi')
    as (w1 & evs & w2 & x & Hstep & Hx & Hw).
  destruct (combine_line_header_write _ _ _ _ _ _ _ _ Hk Hstep)
    as (field' & gene_field & H11' & _ & Hh).
  rewrite H11 in H11'. injection H11' as <-.
  rewrite Hw. f_equal. rewrite Hx in Hh. injection Hh as ->.
  unfold header_write. rewrite Htid, Hcount.
  rewrite (Z.eqb_sym 0). reflexivity.
Qed.

End ReaderCombine.

Lemma abundance_row_decides_header_witness :
  let header := "ids,sample1,sample2,sample3" +:+ nl in
  let pre := ["T1,4,,2" +:+ nl] in
  let row := "T2,,," +:+ nl in
  let line := gtf_line "transcript" "G5" "T2" in
  exists counts tr outcome field,
    format Oxford (header :: pre ++ row :: []) = Ok counts /\
    (row_id Oxford row ∉ row_id Oxford <$> []) /\
    map_int (row_numeric Oxford row) = Ok [] /\
    combine_int "results/oxford.gtf" sample_gtf counts = (tr, outcome) /\
    sample_gtf !! 3 = Some line /\
    record_kind line = Ok "transcript" /\
    split line !! 11 = Some field /\
    slice_1_m2 field = row_id Oxford row /\
    3 < length (writes tr) /\
    writes tr !! 3 = Some (RemovedOut, removed_line line).
Proof.
  intros header pre row line.
  assert (row_id Oxford row ∉ row_id Oxford <$> []) as Hid
    by (apply not_elem_of_nil).
  assert (record_kind line = Ok "transcript") as Hk
    by (vm_compute; reflexivity).
  eexists. eexists. eexists. eexists.
  split; [vm_compute; reflexivity|]. split; [exact Hid|].
  split; [vm_compute; reflexivity|]. split; [vm_compute; reflexivity|].
  split; [reflexivity|]. split; [exact Hk|].
  split; [vm_compute; reflexivity|]. split; [vm_compute; reflexivity|].
  split; [vm_compute; lia|].
  eapply (abundance_row_decides_header
            Oxford header pre row [] _ [] "results/oxford.gtf" sample_gtf
            _ _ 3 line);
    [vm_compute; reflexivity | exact Hid | vm_compute; reflexivity
    | vm_compute; reflexivity | reflexivity | exact Hk
    | vm_compute; reflexivity | vm_compute; reflexivity | vm_compute; lia].
Defined.

(** ** format_flair and combine together *)

Section FlairCombine.
Context (str_count : number -> string).

Lemma number_is_zero_integral_count ns :
  number_is_zero (integral_count ns) = (N_sum ns =? 0)%N.
Proof.
  destruct ns as [|n ns]; [reflexivity|].
  cbn [integral_count number_is_zero].
  destruct (N_sum (n :: ns)); reflexivity.
Qed.

(** X12. [format_flair] and [combine] one after the other, as [main]
    runs them for flair: take a row of the abundance file, the last one
    with its identifier, whose count fields are decimals of integral value
    with a sum below [2^53]. A transcript header with this identifier goes
    to [removed_out] as [removed_line] has it (as it stands, when it ends
    with a line terminator) when the sum is zero, also when the row has
    no count field, and to [outfile] with the [float] of the sum as its
    count otherwise, however a [float] is printed. *)
Theorem flair_row_decides_header
    header pre row post counts ns gtf_file GTF tr outcome i line field :
  format_flair (header :: pre ++ row :: post) = Ok counts ->
  flair_id row ∉ flair_id <$> post ->
  flair_values row = Some ns ->
  (N_sum ns < 2 ^ 53)%N ->
  combine number_is_zero str_count gtf_file GTF counts = (tr, outcome) ->
  GTF !! i = Some line ->
  record_kind line = Ok "transcript" ->
  split line !! 11 = Some field ->
  slice_1_m2 field = flair_id row ->
  i < length (writes tr) ->
  writes tr !! i
  = Some (if (N_sum ns =? 0)%N then (RemovedOut, removed_line line)
          else (Outfile, kept_line str_count line (integral_count ns))).
Proof.
  intros Hf Hid Hns Hsum Hc Hi Hk H11 Htid Hlt.
  cbn [format_flair] in Hf.
  apply format_flair_loop_last in Hf as (xs & Hxs & Hcount); [|exact Hid].
  unfold flair_values in Hns.
  rewrite (map_float_values _ _ Hns Hsum) in Hxs. injection Hxs as <-.
  rewrite (sum_float_values _ Hsum) in Hcount.
  apply combine_run in Hc as (o & w' & Hc & _).
  assert (take (length (writes tr)) GTF !! i = Some line) as Hi'
    by (rewrite lookup_take_lt by exact Hlt; exact Hi).
  destruct (combine_loop_write_at _ _ _ _ _ _ _ _ _ _ Hc Hi')
    as (w1 & evs & w2 & x & Hstep & Hx & Hw).
  destruct (combine_line_header_write _ _ _ _ _ _ _ _ Hk Hstep)
    as (field' & gene_field & H11' & _ & Hh).
  rewrite H11 in H11'. injection H11' as <-.
  rewrite Hw. f_equal. rewrite Hx in Hh. injection Hh as ->.
  unfold header_write. rewrite Htid, Hcount.
  rewrite number_is_zero_integral_count. reflexivity.
Qed.

End FlairCombine.

Lemma flair_row_decides_header_witness :
  let header := "ids" +:+ tab +:+ "sample1" +:+ tab +:+ "sample2" +:+ nl in
  let pre := ["T1" +:+ tab +:+ "3.0" +:+ tab +:+ "2.0" +:+ nl] in
  let row := "T2" +:+ tab +:+ "0.0" +:+ tab +:+ "0.0" +:+ nl in
  let line := gtf_line "transcript" "G5" "T2" in
  let str_count := fun _ : number => "?" in
  exists counts tr outcome field,
    format_flair (header :: pre ++ row :: []) = Ok counts /\
    (flair_id row ∉ flair_id <$> []) /\
    flair_values row = Some [0; 0]%N /\
    (N_sum [0; 0] < 2 ^ 53)%N /\
    combine number_is_zero str_count "results/flair.gtf" sample_gtf counts
      = (tr, outcome) /\
    sample_gtf !! 3 = Some line /\
    record_kind line = Ok "transcript" /\
    split line !! 11 = Some field /\
    slice_1_m2 field = flair_id row /\
    3 < length (writes tr) /\
    writes tr !! 3 = Some (RemovedOut, removed_line line).
Proof.
  intros header pre row line str_count.
  assert (flair_id row ∉ flair_id <$> []) as Hid by (apply not_elem_of_nil).
  assert (record_kind line = Ok "transcript") as Hk
    by (vm_compute; reflexivity).
  assert (N_sum [0; 0] < 2 ^ 53)%N as Hsum by (vm_compute; reflexivity).
  eexists. eexists. eexists. eexists.
  split; [vm_compute; reflexivity|]. split; [exact Hid|].
  split; [vm_compute; reflexivity|]. split; [exact Hsum|].
  split; [vm_compute; reflexivity|].
  split; [reflexivity|]. split; [exact Hk|].
  split; [vm_compute; reflexivity|]. split; [vm_compute; reflexivity|].
  split; [vm_compute; lia|].
  eapply (flair_row_decides_header
            str_count header pre row [] _ [0; 0]%N "results/flair.gtf"
            sample_gtf _ _ 3 line);
    [vm_compute; reflexivity | exact Hid | vm_compute; reflexivity
    | exact Hsum | vm_compute; reflexivity | reflexivity | exact Hk
    | vm_compute; reflexivity | vm_compute; reflexivity | vm_compute; lia].
Defined.

(** ** gtf *)

Section GtfFacts.
Implicit Types (d : gmap string (list string)).

(** The three kinds of line: one that is passed over, one that is stored
    under its identifier, and one that is too short. *)
Lemma gtf_loop_skip d line rest :
  gtf_line_ok line = true ->
  gtf_key line = None ->
  gtf_loop d (line :: rest) = gtf_loop d rest.
Proof.
  unfold gtf_line_ok, gtf_key. cbn [gtf_loop]. intros Hok Hkey.
  destruct (startswith "#" line); [reflexivity|].
  unfold getitem. simpl in Hok.
  destruct (split line !! 2) as [kind|]; [|discriminate].
  cbn [mbind Res_bind].
  destruct (String.eqb kind "gene"); [reflexivity|].
  simpl in Hok. apply Nat.ltb_lt, lookup_lt_is_Some in Hok as [field Hf].
  rewrite Hf in Hkey. discriminate.
Qed.

Lemma gtf_loop_file d line rest id :
  gtf_key line = Some id ->
  gtf_line_ok line = true /\
  gtf_loop d (line :: rest)
  = gtf_loop (<[ id := default [] (d !! id) ++ [strip "010" line] ]> d) rest.
Proof.
  unfold gtf_line_ok, gtf_key. cbn [gtf_loop]. intros Hkey.
  destruct (startswith "#" line); [discriminate|].
  unfold getitem.
  destruct (split line !! 2) as [kind|]; [|discriminate].
  cbn [mbind Res_bind].
  destruct (String.eqb kind "gene"); [discriminate|].
  destruct (split line !! 11) as [field|] eqn:Hf; [|discriminate].
  injection Hkey as <-. split.
  - simpl. apply Nat.ltb_lt. eapply lookup_lt_Some, Hf.
  - cbn [mbind Res_bind]. unfold dd_getitem.
    destruct (d !! slice_1_m2 field) as [lines|]; simpl; [reflexivity|].
    rewrite insert_insert_eq. reflexivity.
Qed.

Lemma gtf_loop_bad d line rest :
  gtf_line_ok line = false ->
  gtf_loop d (line :: rest) = Raise IndexError.
Proof.
  unfold gtf_line_ok. cbn [gtf_loop]. intros Hok.
  destruct (startswith "#" line); [discriminate|].
  unfold getitem. simpl in Hok.
  destruct (split line !! 2) as [kind|]; [|reflexivity].
  cbn [mbind Res_bind].
  destruct (String.eqb kind "gene"); [discriminate|].
  simpl in Hok. apply Nat.ltb_ge, lookup_ge_None in Hok.
  rewrite Hok. reflexivity.
Qed.

Lemma gtf_loop_outcome GTF : forall d,
  match gtf_loop d GTF with
  | Ok _ => forallb gtf_line_ok GTF = true
  | Raise e =>
      e = IndexError /\
      exists pre bad post,
        GTF = pre ++ bad :: post /\
        forallb gtf_line_ok pre = true /\
        gtf_line_ok bad = false
  end.
Proof.
  induction GTF as [|line rest IH]; intros d; [reflexivity|].
  destruct (gtf_line_ok line) eqn:Hok.
  - assert (exists d1, gtf_loop d (line :: rest) = gtf_loop d1 rest)
      as [d1 ->].
    { destruct (gtf_key line) as [id|] eqn:Hkey.
      - eexists. apply (gtf_loop_file d line rest id Hkey).
      - exists d. apply gtf_loop_skip; assumption. }
    specialize (IH d1). destruct (gtf_loop d1 rest) as [d'|e].
    + cbn [forallb]. rewrite Hok. exact IH.
    + destruct IH as (-> & pre & bad & post & -> & Hpre & Hbad).
      split; [reflexivity|]. exists (line :: pre), bad, post.
      cbn [forallb]. rewrite Hok. auto.
  - rewrite (gtf_loop_bad d line rest Hok). split; [reflexivity|].
    exists [], line, rest. auto.
Qed.

(** X13. [gtf] returns exactly when every line that does not start with
    [#] has a third field, and twelve fields unless the third is [gene].
    Otherwise it raises [IndexError], and nothing else, at the first line
    that is too short. *)
Theorem gtf_outcome GTF :
  match gtf GTF with
  | Ok _ => forallb gtf_line_ok GTF = true
  | Raise e =>
      e = IndexError /\
      exists pre bad post,
        GTF = pre ++ bad :: post /\
        forallb gtf_line_ok pre = true /\
        gtf_line_ok bad = false
  end.
Proof. apply gtf_loop_outcome. Qed.

(** The loop appends to each record the lines of its identifier. *)
Lemma gtf_loop_records GTF : forall d d' id,
  gtf_loop d GTF = Ok d' ->
  default [] (d' !! id)
  = default [] (d !! id)
      ++ (strip "010" <$> filter (fun line => gtf_key line = Some id) GTF).
Proof.
  induction GTF as [|line rest IH]; intros d d' id H.
  - injection H as <-. simpl. rewrite app_nil_r. reflexivity.
  - pose proof (gtf_loop_outcome (line :: rest) d) as Hok. rewrite H in Hok.
    cbn [forallb] in Hok. apply andb_true_iff in Hok as [Hok _].
    destruct (gtf_key line) as [key|] eqn:Hkey.
    + destruct (gtf_loop_file d line rest key Hkey) as [_ E].
      rewrite E in H. rewrite (IH _ _ id H).
      destruct (decide (key = id)) as [->|Hne].
      * rewrite lookup_insert_eq, filter_cons_True by exact Hkey.
        simpl. rewrite <- app_assoc. reflexivity.
      * rewrite lookup_insert_ne by exact Hne.
        rewrite filter_cons_False by congruence. reflexivity.
    + rewrite (gtf_loop_skip d line rest Hok Hkey) in H.
      rewrite (IH _ _ id H).
      rewrite filter_cons_False by congruence. reflexivity.
Qed.

Lemma gtf_loop_nonempty GTF : forall d d',
  gtf_loop d GTF = Ok d' ->
  (forall id, d !! id <> Some []) ->
  forall id, d' !! id <> Some [].
Proof.
  induction GTF as [|line rest IH]; intros d d' H Hd.
  - injection H as <-. exact Hd.
  - pose proof (gtf_loop_outcome (line :: rest) d) as Hok. rewrite H in Hok.
    cbn [forallb] in Hok. apply andb_true_iff in Hok as [Hok _].
    destruct (gtf_key line) as [key|] eqn:Hkey.
    + destruct (gtf_loop_file d line rest key Hkey) as [_ E].
      rewrite E in H. apply (IH _ _ H). intros id.
      destruct (decide (key = id)) as [->|Hne].
      * rewrite lookup_insert_eq. intros Heq. injection Heq as Heq.
        apply app_eq_nil in Heq as [_ Heq]. discriminate.
      * rewrite lookup_insert_ne by exact Hne. apply Hd.
    + rewrite (gtf_loop_skip d line rest Hok Hkey) in H.
      apply (IH _ _ H Hd).
Qed.

(** X14. The record [gtf] holds for an identifier is the list of the
    lines of the file stored under that identifier, in the order of the
    file and without their line terminators; comment and gene lines are in
    no record, and no record is empty. *)
Theorem gtf_records_are_the_lines_of_the_transcript GTF d id :
  gtf GTF = Ok d ->
  default [] (d !! id)
  = strip "010" <$> filter (fun line => gtf_key line = Some id) GTF /\
  d !! id <> Some [].
Proof.
  intros H. split.
  - rewrite (gtf_loop_records GTF ∅ d id H), lookup_empty. reflexivity.
  - apply (gtf_loop_nonempty GTF ∅ d H). intros k.
    rewrite lookup_empty. discriminate.
Qed.

End GtfFacts.

Lemma gtf_records_are_the_lines_of_the_transcript_witness :
  exists d,
    gtf sample_annotation = Ok d /\
    default [] (d !! "T1")
    = strip "010"
        <$> filter (fun line => gtf_key line = Some "T1") sample_annotation /\
    d !! "T1" <> Some [].
Proof.
  eexists. split; [vm_compute; reflexivity|].
  apply (gtf_records_are_the_lines_of_the_transcript sample_annotation).
  vm_compute. reflexivity.
Defined.

(** [gtf] stops at a blank line and at a line of fewer than twelve fields
    that is neither a comment nor a gene line. *)
Example gtf_short_lines :
  gtf [gtf_line "exon" "G1" "T1"; nl] = Raise IndexError /\
  gtf ["chr1" +:+ tab +:+ "tool" +:+ tab +:+ "exon" +:+ nl]
    = Raise IndexError /\
  gtf ["#" +:+ nl; "chr1" +:+ tab +:+ "tool" +:+ tab +:+ "gene" +:+ nl] = Ok ∅.
Proof. repeat split; vm_compute; reflexivity. Qed.

(** ** categorize_tracking: outcome and content *)

Section CategorizeOutcome.
Implicit Types (b : buckets) (d : list (string * list string)).

(** The inner loop goes through exactly when every field is the sentinel
    or has a [|], and appends the identifier of each field. *)
Lemma transcript_loop_outcome transcripts : forall count ids,
  match transcript_loop transcripts count ids with
  | Ok (_, out) =>
      forallb transcript_ok transcripts = true /\
      out = ids ++ (transcript_id_of <$> transcripts)
  | Raise e =>
      e = IndexError /\ forallb transcript_ok transcripts = false
  end.
Proof.
  induction transcripts as [|t rest IH]; intros count ids.
  - simpl. rewrite app_nil_r. auto.
  - cbn [transcript_loop forallb fmap list_fmap].
    unfold transcript_ok at 1 3, transcript_id_of at 1.
    destruct (String.eqb t "-") eqn:Ht.
    + specialize (IH (S count) (ids ++ [t])).
      destruct (transcript_loop rest _ _) as [[n out]|e]; simpl.
      * destruct IH as [-> ->]. rewrite <- app_assoc. auto.
      * exact IH.
    + pose proof (getitem_outcome (split_on "|" t) 1) as Hg.
      destruct (getitem (split_on "|" t) 1) as [tid|e]; cbn [mbind Res_bind].
      * destruct Hg as [Htid Hlen]. apply Nat.ltb_lt in Hlen.
        rewrite Hlen, Htid. simpl.
        specialize (IH count (ids ++ [tid])).
        destruct (transcript_loop rest _ _) as [[n out]|e].
        -- destruct IH as [-> ->]. rewrite <- app_assoc. auto.
        -- exact IH.
      * destruct Hg as [-> Hlen]. apply Nat.ltb_ge in Hlen.
        rewrite Hlen. auto.
Qed.

Lemma categorize_line_outcome b line :
  match categorize_line b line with
  | Ok _ => tracking_line_ok line = true
  | Raise e => e = IndexError /\ tracking_line_ok line = false
  end.
Proof.
  unfold categorize_line, tracking_line_ok.
  pose proof (transcript_loop_outcome (drop 4 (split line)) 0 []) as Hl.
  destruct (transcript_loop _ 0 []) as [[count ids]|e]; cbn [mbind Res_bind].
  - destruct Hl as [-> _]. simpl.
    pose proof (getitem_outcome (split line) 0) as Hg.
    destruct (getitem (split line) 0) as [key|e]; cbn [mbind Res_bind].
    + destruct Hg as [_ Hlen]. apply Nat.ltb_lt in Hlen. rewrite Hlen.
      destruct (count =? 1); [reflexivity|].
      destruct (count =? 2); reflexivity.
    + destruct Hg as [-> Hlen]. apply Nat.ltb_ge in Hlen. rewrite Hlen.
      auto.
  - destruct Hl as [-> ->]. auto.
Qed.

Lemma categorize_loop_outcome tracking : forall b,
  match categorize_loop b tracking with
  | Ok _ => forallb tracking_line_ok tracking = true
  | Raise e =>
      e = IndexError /\
      exists pre bad post,
        tracking = pre ++ bad :: post /\
        forallb tracking_line_ok pre = true /\
        tracking_line_ok bad = false
  end.
Proof.
  induction tracking as [|line rest IH]; intros b; [reflexivity|].
  cbn [categorize_loop forallb].
  pose proof (categorize_line_outcome b line) as Hline.
  destruct (categorize_line b line) as [b1|e]; cbn [mbind Res_bind].
  - rewrite Hline. specialize (IH b1).
    destruct (categorize_loop b1 rest) as [b'|e]; [exact IH|].
    destruct IH as (-> & pre & bad & post & -> & Hpre & Hbad).
    split; [reflexivity|]. exists (line :: pre), bad, post.
    cbn [forallb]. rewrite Hline. auto.
  - destruct Hline as [-> Hbad]. split; [reflexivity|].
    exists [], line, rest. auto.
Qed.

(** X15. [categorize_tracking] returns exactly when no line is blank and
    every pipeline field (from the fifth field on) is the sentinel or has
    a [|] in it. Otherwise it raises [IndexError], and nothing else, at the
    first line that is not so. *)
Theorem categorize_tracking_outcome tracking :
  match categorize_tracking tracking with
  | Ok _ => forallb tracking_line_ok tracking = true
  | Raise e =>
      e = IndexError /\
      exists pre bad post,
        tracking = pre ++ bad :: post /\
        forallb tracking_line_ok pre = true /\
        tracking_line_ok bad = false
  end.
Proof. apply categorize_loop_outcome. Qed.

(** *** The buckets as filters of the file *)

(** Assigning to a key the dictionary does not have appends an item. *)
Lemma setitem_fresh {V : Type} key (v : V) (d : list (string * V)) :
  get key d = None -> setitem key v d = d ++ [(key, v)].
Proof.
  induction d as [|[k v'] d IH]; simpl; intros Hget; [reflexivity|].
  destruct (String.eqb k key); [discriminate|].
  rewrite IH by exact Hget. reflexivity.
Qed.

Lemma get_app_fresh {V : Type} key key' (v : V) (d : list (string * V)) :
  key <> key' -> get key' (d ++ [(key, v)]) = get key' d.
Proof.
  intros Hne. induction d as [|[k v'] d IH]; simpl.
  - destruct (String.eqb_spec key key'); [contradiction|reflexivity].
  - rewrite IH. reflexivity.
Qed.

Lemma categorize_line_group b line b' :
  categorize_line b line = Ok b' ->
  forall k,
    bucket k b' =
      if decide (k = bucket_for (sentinels line))
      then setitem (group_id line) (transcript_ids_of line) (bucket k b)
      else bucket k b.
Proof.
  intros H. destruct (categorize_line_bucket _ _ _ H) as (ids & Hloop & Hb).
  pose proof (transcript_loop_outcome (drop 4 (split line)) 0 []) as Hl.
  rewrite Hloop in Hl. destruct Hl as [_ ->]. exact Hb.
Qed.

Lemma categorize_loop_buckets tracking : forall b b',
  categorize_loop b tracking = Ok b' ->
  NoDup (group_id <$> tracking) ->
  (forall line k, line ∈ tracking -> get (group_id line) (bucket k b) = None) ->
  forall k,
    bucket k b'
    = bucket k b
        ++ (group_of <$>
              filter (fun line => bucket_for (sentinels line) = k) tracking).
Proof.
  induction tracking as [|line rest IH]; intros b b' H Hnd Hfresh k.
  - injection H as <-. simpl. rewrite app_nil_r. reflexivity.
  - simpl in H. apply bind_Ok in H as (b1 & Hline & Hrest).
    rewrite fmap_cons in Hnd. apply NoDup_cons in Hnd as [Hhead Hnd].
    pose proof (categorize_line_group _ _ _ Hline) as Hb.
    assert (forall line' k',
               line' ∈ rest -> get (group_id line') (bucket k' b1) = None)
      as Hfresh1.
    { intros line' k' Hin.
      assert (group_id line <> group_id line') as Hne.
      { intros Heq. apply Hhead. rewrite Heq.
        apply list_elem_of_fmap. eauto. }
      rewrite Hb. case_decide.
      - rewrite setitem_fresh by (apply Hfresh; left).
        rewrite get_app_fresh by exact Hne. apply Hfresh. right. exact Hin.
      - apply Hfresh. right. exact Hin. }
    rewrite (IH _ _ Hrest Hnd Hfresh1 k), Hb.
    destruct (decide (k = bucket_for (sentinels line))) as [->|Hne].
    + rewrite setitem_fresh by (apply Hfresh; left).
      rewrite filter_cons_True by reflexivity.
      rewrite fmap_cons, <- app_assoc. reflexivity.
    + rewrite filter_cons_False by congruence. reflexivity.
Qed.

(** X16. For a tracking file in which no group identifier comes twice,
    each of the three dictionaries holds, in the order of the file, the
    lines with the sentinel count of that dictionary: each line under its
    group identifier, with the identifier of every pipeline field (the
    part between the first and the second [|], or the sentinel). *)
Theorem categorize_tracking_buckets tracking b :
  categorize_tracking tracking = Ok b ->
  NoDup (group_id <$> tracking) ->
  forall k,
    bucket k b
    = group_of <$>
        filter (fun line => bucket_for (sentinels line) = k) tracking.
Proof.
  intros H Hnd k.
  rewrite (categorize_loop_buckets tracking _ _ H Hnd).
  - destruct k; reflexivity.
  - intros line []; reflexivity.
Qed.

End CategorizeOutcome.

Lemma categorize_tracking_buckets_witness :
  exists b,
    categorize_tracking sample_tracking = Ok b /\
    NoDup (group_id <$> sample_tracking) /\
    forall k,
      bucket k b
      = group_of <$>
          filter (fun line => bucket_for (sentinels line) = k)
                 sample_tracking.
Proof.
  assert (NoDup (group_id <$> sample_tracking)) as Hnd
    by (apply (bool_decide_unpack _); vm_compute; exact I).
  eexists. split; [vm_compute; reflexivity|]. split; [exact Hnd|].
  apply (categorize_tracking_buckets sample_tracking);
    [vm_compute; reflexivity | exact Hnd].
Defined.

(** A pipeline field without [|] stops [categorize_tracking], and so does
    a blank line; a line of two fields is filed under [three_match] with no
    identifier. *)
Example categorize_short_lines :
  categorize_tracking broken_tracking = Raise IndexError /\
  categorize_tracking [nl] = Raise IndexError /\
  categorize_tracking ["TCONS_00000009 XLOC_000009" +:+ nl]
    = Ok (Buckets [("TCONS_00000009", [])] [] []).
Proof. repeat split; vm_compute; reflexivity. Qed.

(** ** write: outcome and shared dictionaries *)

Section WriteOutcome.
Implicit Types (ix : indexes) (ids : list string) (p q : pipeline).
Implicit Types (d : gmap string (list string)).

(** The chain picks an identifier exactly when the group has the slots
    it reads. *)
Lemma chosen_outcome ids :
  match chosen ids with
  | Ok _ => slots_ok ids = true
  | Raise e => e = IndexError /\ slots_ok ids = false
  end.
Proof.
  unfold chosen, slots_ok, getitem.
  destruct ids as [|id0 [|id1 [|id2 rest]]]; simpl;
    repeat match goal with
      | |- context [String.eqb ?x "-"] => destruct (String.eqb x "-"); simpl
      end; auto.
Qed.

Lemma write_group_outcome ix tcons_id ids :
  match write_group ix tcons_id ids with
  | Ok (out, ix') =>
      slots_ok ids = true /\
      out = chosen_lines ix (tcons_id, ids) /\
      forall p,
        index_of p ix'
        = index_of p ix ∪ gset_to_gmap [] (looked_up p [(tcons_id, ids)])
  | Raise e => e = IndexError /\ slots_ok ids = false
  end.
Proof.
  rewrite write_group_chosen. unfold chosen_lines. simpl.
  pose proof (chosen_outcome ids) as Hc.
  destruct (chosen ids) as [[q id]|e]; simpl; [|exact Hc].
  split; [exact Hc|]. split; [reflexivity|]. intros p.
  rewrite index_of_with_index.
  destruct (decide (p = q)) as [->|Hne].
  - rewrite decide_True by reflexivity.
    rewrite (right_id_L ∅ (∪)), gset_to_gmap_singleton. reflexivity.
  - rewrite decide_False by congruence.
    rewrite gset_to_gmap_empty, (right_id_L ∅ (∪)). reflexivity.
Qed.

(** Keys with empty records change the record of no identifier. *)
Lemma record_empty_records p ix ix' (S : gset string) id :
  index_of p ix' = index_of p ix ∪ gset_to_gmap [] S ->
  record p ix' id = record p ix id.
Proof.
  intros H. unfold record. rewrite H, lookup_union, lookup_gset_to_gmap.
  destruct (index_of p ix !! id) as [v|]; simpl.
  - destruct (guard (id ∈ S)); reflexivity.
  - destruct (guard (id ∈ S)); reflexivity.
Qed.

Lemma chosen_lines_empty_records ix ix' (S : pipeline -> gset string) group :
  (forall p, index_of p ix' = index_of p ix ∪ gset_to_gmap [] (S p)) ->
  chosen_lines ix' group = chosen_lines ix group.
Proof.
  intros H. unfold chosen_lines.
  destruct (chosen group.2) as [[p id]|e]; [|reflexivity].
  rewrite (record_empty_records p ix ix' (S p) id (H p)). reflexivity.
Qed.

Lemma empty_records_union (S1 S2 : gset string) :
  gset_to_gmap (@nil string) (S1 ∪ S2)
  = gset_to_gmap [] S1 ∪ gset_to_gmap [] S2.
Proof.
  apply map_eq. intros k. rewrite lookup_union, !lookup_gset_to_gmap.
  destruct (decide (k ∈ S1)) as [H1|H1], (decide (k ∈ S2)) as [H2|H2].
  - rewrite (option_guard_True (k ∈ S1 ∪ S2))
      by (apply elem_of_union; auto).
    rewrite (option_guard_True (k ∈ S1)) by exact H1.
    rewrite (option_guard_True (k ∈ S2)) by exact H2. reflexivity.
  - rewrite (option_guard_True (k ∈ S1 ∪ S2))
      by (apply elem_of_union; auto).
    rewrite (option_guard_True (k ∈ S1)) by exact H1.
    rewrite (option_guard_False (k ∈ S2)) by exact H2. reflexivity.
  - rewrite (option_guard_True (k ∈ S1 ∪ S2))
      by (apply elem_of_union; auto).
    rewrite (option_guard_False (k ∈ S1)) by exact H1.
    rewrite (option_guard_True (k ∈ S2)) by exact H2. reflexivity.
  - rewrite (option_guard_False (k ∈ S1 ∪ S2))
      by (rewrite elem_of_union; tauto).
    rewrite (option_guard_False (k ∈ S1)) by exact H1.
    rewrite (option_guard_False (k ∈ S2)) by exact H2. reflexivity.
Qed.

Lemma looked_up_cons p tcons_id ids rest :
  looked_up p ((tcons_id, ids) :: rest)
  = looked_up p [(tcons_id, ids)] ∪ looked_up p rest.
Proof.
  simpl. destruct (chosen ids) as [[q id]|e].
  - destruct (decide (q = p)).
    + rewrite (right_id_L ∅ (∪)). reflexivity.
    + rewrite (left_id_L ∅ (∪)). reflexivity.
  - rewrite (left_id_L ∅ (∪)). reflexivity.
Qed.

(** Everything about a call of [write]: when it returns, the file it
    writes and the dictionaries it leaves. *)
Lemma write_closed_form tracking_dict : forall ix,
  match write tracking_dict ix with
  | Ok (out, ix') =>
      forallb (fun group => slots_ok group.2) tracking_dict = true /\
      out = mjoin (chosen_lines ix <$> tracking_dict) /\
      forall p,
        index_of p ix'
        = index_of p ix ∪ gset_to_gmap [] (looked_up p tracking_dict)
  | Raise e =>
      e = IndexError /\
      exists pre bad post,
        tracking_dict = pre ++ bad :: post /\
        forallb (fun group => slots_ok group.2) pre = true /\
        slots_ok bad.2 = false
  end.
Proof.
  induction tracking_dict as [|[tcons_id ids] rest IH]; intros ix.
  - simpl. split; [reflexivity|]. split; [reflexivity|]. intros p.
    rewrite gset_to_gmap_empty, (right_id_L ∅ (∪)). reflexivity.
  - cbn [write].
    pose proof (write_group_outcome ix tcons_id ids) as Hg.
    destruct (write_group ix tcons_id ids) as [[out ix1]|e];
      cbn [mbind Res_bind].
    + destruct Hg as (Hok & -> & Hix1). specialize (IH ix1).
      destruct (write rest ix1) as [[out' ix'']|e]; cbn [mbind Res_bind].
      * destruct IH as (Hall & -> & Hix). split; [|split].
        -- cbn [forallb]. simpl. rewrite Hok, Hall. reflexivity.
        -- rewrite fmap_cons. cbn [mjoin list_join]. f_equal. f_equal.
           apply list_fmap_ext. intros _ group _.
           apply (chosen_lines_empty_records _ _ _ _ Hix1).
        -- intros p.
           rewrite Hix, Hix1, (looked_up_cons p tcons_id ids rest).
           rewrite <- (assoc_L (∪)). f_equal.
           symmetry. apply empty_records_union.
      * destruct IH as (-> & pre & bad & post & -> & Hpre & Hbad).
        split; [reflexivity|]. exists ((tcons_id, ids) :: pre), bad, post.
        cbn [forallb]. simpl. rewrite Hok. auto.
    + destruct Hg as [-> Hbad]. split; [reflexivity|].
      exists [], (tcons_id, ids), rest. auto.
Qed.

(** X17. [write] returns exactly when every group has the slots the chain
    reads: a first one, a second one if the first is the sentinel, a third
    one if the second is the sentinel too. Otherwise it raises
    [IndexError], and nothing else, at the first group that has not. *)
Theorem write_outcome tracking_dict ix :
  match write tracking_dict ix with
  | Ok _ => forallb (fun group => slots_ok group.2) tracking_dict = true
  | Raise e =>
      e = IndexError /\
      exists pre bad post,
        tracking_dict = pre ++ bad :: post /\
        forallb (fun group => slots_ok group.2) pre = true /\
        slots_ok bad.2 = false
  end.
Proof.
  pose proof (write_closed_form tracking_dict ix) as H.
  destruct (write tracking_dict ix) as [[out ix']|e]; [apply H|exact H].
Qed.

(** X18. What a call of [write] stores in the three dictionaries does not
    change the file a later call writes: the later call writes the file it
    writes on the dictionaries as they were before. *)
Theorem write_file_independent_of_earlier_calls
    tracking_dict1 tracking_dict2 ix out1 ix1 out2 ix2 :
  write tracking_dict1 ix = Ok (out1, ix1) ->
  write tracking_dict2 ix = Ok (out2, ix2) ->
  exists ix2', write tracking_dict2 ix1 = Ok (out2, ix2').
Proof.
  intros H1 H2.
  pose proof (write_closed_form tracking_dict1 ix) as C1. rewrite H1 in C1.
  pose proof (write_closed_form tracking_dict2 ix) as C2. rewrite H2 in C2.
  pose proof (write_closed_form tracking_dict2 ix1) as C3.
  destruct C1 as (_ & _ & Hix1). destruct C2 as (Hok & -> & _).
  destruct (write tracking_dict2 ix1) as [[out ix2']|e].
  - destruct C3 as (_ & -> & _). exists ix2'. do 3 f_equal.
    apply list_fmap_ext. intros _ group _.
    apply (chosen_lines_empty_records _ _ _ _ Hix1).
  - destruct C3 as (_ & pre & bad & post & -> & _ & Hbad).
    rewrite forallb_app in Hok. apply andb_true_iff in Hok as [_ Hok].
    cbn [forallb] in Hok. rewrite Hbad in Hok. discriminate.
Qed.

(** X19. A group of three sentinels is not passed over: [write] reads the
    talon dictionary at the sentinel. When talon has no transcript of this
    name, the group adds nothing to the file, which is the file of the
    bucket without the group, and the talon dictionary gains the key [-]
    with an empty record. *)
Theorem write_three_sentinels_read_talon pre tcons_id post ix out ix' :
  write (pre ++ (tcons_id, ["-"; "-"; "-"]) :: post) ix = Ok (out, ix') ->
  talon ix !! "-" = None ->
  talon ix' !! "-" = Some [] /\
  exists ix'', write (pre ++ post) ix = Ok (out, ix'').
Proof.
  intros H Hmiss.
  pose proof (write_closed_form (pre ++ (tcons_id, ["-"; "-"; "-"]) :: post)
                ix) as C.
  rewrite H in C. destruct C as (Hok & -> & Hix). split.
  - change (talon ix') with (index_of Q3 ix'). rewrite (Hix Q3).
    rewrite lookup_union. change (index_of Q3 ix) with (talon ix).
    rewrite Hmiss, (left_id_L None (∪)).
    apply lookup_gset_to_gmap_Some. split; [|reflexivity].
    clear. induction pre as [|[t ids] pre IH].
    + simpl. apply elem_of_union. left. apply elem_of_singleton. reflexivity.
    + rewrite <- app_comm_cons, looked_up_cons. apply elem_of_union.
      right. exact IH.
  - pose proof (write_closed_form (pre ++ post) ix) as C.
    destruct (write (pre ++ post) ix) as [[out ix'']|e].
    + destruct C as (_ & -> & _). exists ix''. do 2 f_equal.
      assert (chosen_lines ix (tcons_id, ["-"; "-"; "-"]) = []) as Hnone.
      { change (chosen_lines ix (tcons_id, ["-"; "-"; "-"]))
          with (tagged tcons_id <$> default [] (talon ix !! "-")).
        rewrite Hmiss. reflexivity. }
      rewrite !fmap_app, fmap_cons, !join_app, Hnone. reflexivity.
    + destruct C as (_ & pre' & bad & post' & E & _ & Hbad).
      assert (forallb (fun group => slots_ok group.2) (pre ++ post) = true)
        as Hok'.
      { rewrite forallb_app in Hok |- *. cbn [forallb] in Hok.
        apply andb_true_iff in Hok as [-> Hok].
        apply andb_true_iff in Hok as [_ ->]. reflexivity. }
      rewrite E, forallb_app in Hok'. cbn [forallb] in Hok'.
      rewrite Hbad in Hok'. rewrite andb_false_r in Hok'. discriminate.
Qed.

End WriteOutcome.

(** A group without identifiers stops [write], and so does a group whose
    slots end with a sentinel before the third. *)
Example write_short_groups :
  write [("TCONS_00000009", [])] sample_indexes = Raise IndexError /\
  write (sample_bucket ++ [("TCONS_00000009", ["-"; "-"])]) sample_indexes
    = Raise IndexError.
Proof. split; vm_compute; reflexivity. Qed.

Lemma write_file_independent_of_earlier_calls_witness :
  exists out1 ix1 out2 ix2,
    write stray_bucket sample_indexes = Ok (out1, ix1) /\
    write sample_bucket sample_indexes = Ok (out2, ix2) /\
    ix1 <> sample_indexes /\
    exists ix2', write sample_bucket ix1 = Ok (out2, ix2').
Proof.
  eexists. eexists. eexists. eexists.
  split; [vm_compute; reflexivity|]. split; [vm_compute; reflexivity|].
  split.
  - intros Heq. apply (f_equal (fun ix => oxford ix !! "T404")) in Heq.
    vm_compute in Heq. discriminate.
  - eapply (write_file_independent_of_earlier_calls
              stray_bucket sample_bucket sample_indexes);
      vm_compute; reflexivity.
Defined.

Lemma write_three_sentinels_read_talon_witness :
  let pre := [("TCONS_00000001", ["T1"; "F1"; "-"])] in
  let post := [("TCONS_00000003", ["-"; "-"; "L3"])] in
  exists out ix',
    write (pre ++ ("TCONS_00000007", ["-"; "-"; "-"]) :: post) sample_indexes
      = Ok (out, ix') /\
    talon sample_indexes !! "-" = None /\
    talon ix' !! "-" = Some [] /\
    exists ix'', write (pre ++ post) sample_indexes = Ok (out, ix'').
Proof.
  intros pre post.
  assert (talon sample_indexes !! "-" = None) as Hmiss
    by (vm_compute; reflexivity).
  eexists. eexists. split; [vm_compute; reflexivity|]. split; [exact Hmiss|].
  eapply (write_three_sentinels_read_talon
            pre "TCONS_00000007" post sample_indexes);
    [vm_compute; reflexivity | exact Hmiss].
Defined.

(** ** main of extract_overlap.py *)

Section MainFacts.
Implicit Types (ix : indexes) (b : buckets).

Lemma main_Ok tracking oxford_gtf flair_gtf talon_gtf outs :
  main tracking oxford_gtf flair_gtf talon_gtf = Ok outs ->
  exists b ox fl ta ix1 ix2 ix3,
    categorize_tracking tracking = Ok b /\
    gtf oxford_gtf = Ok ox /\
    gtf flair_gtf = Ok fl /\
    gtf talon_gtf = Ok ta /\
    write (three_match b) (Indexes ox fl ta)
      = Ok (output ThreeMatch outs, ix1) /\
    write (two_match b) ix1 = Ok (output TwoMatch outs, ix2) /\
    write (no_match b) ix2 = Ok (output NoMatch outs, ix3).
Proof.
  unfold main. intros H.
  apply bind_Ok in H as ([t3 t2 t1] & Hb & H).
  apply bind_Ok in H as (ox & Hox & H).
  apply bind_Ok in H as (fl & Hfl & H).
  apply bind_Ok in H as (ta & Hta & H).
  apply bind_Ok in H as ([o3 ix1] & H3 & H).
  apply bind_Ok in H as ([o2 ix2] & H2 & H).
  apply bind_Ok in H as ([o1 ix3] & H1 & H).
  injection H as <-.
  exists (Buckets t3 t2 t1), ox, fl, ta, ix1, ix2, ix3. auto 10.
Qed.

(** Each call of [write] in [main] writes what it would write on the
    dictionaries as [gtf] built them. *)
Lemma main_calls tracking oxford_gtf flair_gtf talon_gtf outs :
  main tracking oxford_gtf flair_gtf talon_gtf = Ok outs ->
  exists b ox fl ta,
    categorize_tracking tracking = Ok b /\
    gtf oxford_gtf = Ok ox /\
    gtf flair_gtf = Ok fl /\
    gtf talon_gtf = Ok ta /\
    forall k,
      forallb (fun group => slots_ok group.2) (bucket k b) = true /\
      output k outs = mjoin (chosen_lines (Indexes ox fl ta) <$> bucket k b).
Proof.
  intros H.
  apply main_Ok in H
    as (b & ox & fl & ta & ix1 & ix2 & ix3 & Hb & Hox & Hfl & Hta
        & H3 & H2 & H1).
  exists b, ox, fl, ta. repeat (split; [assumption|]).
  pose proof (write_closed_form (three_match b) (Indexes ox fl ta)) as C3.
  rewrite H3 in C3. destruct C3 as (Hok3 & E3 & Hix1).
  pose proof (write_closed_form (two_match b) ix1) as C2.
  rewrite H2 in C2. destruct C2 as (Hok2 & E2 & Hix2).
  pose proof (write_closed_form (no_match b) ix2) as C1.
  rewrite H1 in C1. destruct C1 as (Hok1 & E1 & _).
  assert (forall p,
             index_of p ix2
             = index_of p (Indexes ox fl ta)
                 ∪ gset_to_gmap [] (looked_up p (three_match b)
                                      ∪ looked_up p (two_match b)))
    as Hix2'.
  { intros p. rewrite Hix2, Hix1, <- (assoc_L (∪)). f_equal.
    symmetry. apply empty_records_union. }
  intros [].
  - split; [exact Hok3|exact E3].
  - split; [exact Hok2|]. rewrite E2. f_equal.
    apply list_fmap_ext. intros _ group _.
    apply (chosen_lines_empty_records _ _ _ _ Hix1).
  - split; [exact Hok1|]. rewrite E1. f_equal.
    apply list_fmap_ext. intros _ group _.
    apply (chosen_lines_empty_records _ _
             (fun p => looked_up p (three_match b) ∪ looked_up p (two_match b))
             _ Hix2').
Qed.

(** X20. [main] hands the same three dictionaries to its three calls of
    [write]. Each of the three files it writes is nevertheless the file
    [write] writes for that bucket on the dictionaries as [gtf] built
    them. *)
Theorem main_files_as_from_fresh_dictionaries
    tracking oxford_gtf flair_gtf talon_gtf outs :
  main tracking oxford_gtf flair_gtf talon_gtf = Ok outs ->
  exists b ox fl ta,
    categorize_tracking tracking = Ok b /\
    gtf oxford_gtf = Ok ox /\
    gtf flair_gtf = Ok fl /\
    gtf talon_gtf = Ok ta /\
    forall k,
      exists ix', write (bucket k b) (Indexes ox fl ta) = Ok (output k outs, ix').
Proof.
  intros H.
  apply main_calls in H as (b & ox & fl & ta & Hb & Hox & Hfl & Hta & Hk).
  exists b, ox, fl, ta. repeat (split; [assumption|]).
  intros k. destruct (Hk k) as [Hok ->].
  pose proof (write_closed_form (bucket k b) (Indexes ox fl ta)) as C.
  destruct (write (bucket k b) (Indexes ox fl ta)) as [[out ix']|e].
  - destruct C as (_ & -> & _). eauto.
  - destruct C as (_ & pre & bad & post & E & _ & Hbad).
    rewrite E, forallb_app in Hok. apply andb_true_iff in Hok as [_ Hok].
    cbn [forallb] in Hok. rewrite Hbad in Hok. discriminate.
Qed.

(** The record of an identifier in a dictionary of [gtf], read off the
    file. *)
Lemma chosen_lines_gtf ox fl ta oxford_gtf flair_gtf talon_gtf group :
  gtf oxford_gtf = Ok ox ->
  gtf flair_gtf = Ok fl ->
  gtf talon_gtf = Ok ta ->
  chosen_lines (Indexes ox fl ta) group
  = group_lines oxford_gtf flair_gtf talon_gtf group.
Proof.
  intros Hox Hfl Hta. unfold chosen_lines, group_lines.
  destruct (chosen group.2) as [[p id]|e]; [|reflexivity].
  unfold record, gtf in *.
  assert (exists d, index_of p (Indexes ox fl ta) = d /\
                    gtf_loop ∅ (annotation p oxford_gtf flair_gtf talon_gtf)
                    = Ok d) as (d & -> & Hd)
    by (destruct p; eauto).
  rewrite (gtf_loop_records _ ∅ d id Hd), lookup_empty. simpl.
  rewrite <- list_fmap_compose. unfold tagged. reflexivity.
Qed.

(** X21. From the input files to the output files of [main]: the file of
    a bucket holds, group after group in the order of the bucket, the
    lines of the annotation file of the pipeline the chain picks that
    belong to the picked transcript, in the order of that file, each
    without its line terminator and followed by a space, the field
    [match_id], the group identifier between double quotes, a semicolon
    and a line terminator. So every line of an output file is a line of
    an annotation file with this field appended. *)
Theorem main_writes_the_lines_of_the_chosen_transcripts
    tracking oxford_gtf flair_gtf talon_gtf outs :
  main tracking oxford_gtf flair_gtf talon_gtf = Ok outs ->
  exists b,
    categorize_tracking tracking = Ok b /\
    forall k,
      output k outs
      = mjoin (group_lines oxford_gtf flair_gtf talon_gtf <$> bucket k b) /\
      forall out_line,
        out_line ∈ output k outs ->
        exists group p id line,
          group ∈ bucket k b /\
          chosen group.2 = Ok (p, id) /\
          line ∈ annotation p oxford_gtf flair_gtf talon_gtf /\
          gtf_key line = Some id /\
          out_line
          = strip "010" line +:+ " match_id " +:+ dq +:+ group.1 +:+ dq
              +:+ ";" +:+ nl.
Proof.
  intros H.
  apply main_calls in H as (b & ox & fl & ta & Hb & Hox & Hfl & Hta & Hk).
  exists b. split; [exact Hb|]. intros k. destruct (Hk k) as [_ Hout].
  assert (output k outs
          = mjoin (group_lines oxford_gtf flair_gtf talon_gtf <$> bucket k b))
    as E.
  { rewrite Hout. f_equal. apply list_fmap_ext. intros _ group _.
    apply chosen_lines_gtf; assumption. }
  split; [exact E|]. intros out_line Hin. rewrite E in Hin.
  apply list_elem_of_join in Hin as (lines & Hin & Hlines).
  apply list_elem_of_fmap in Hlines as (group & -> & Hgroup).
  unfold group_lines in Hin.
  destruct (chosen group.2) as [[p id]|e] eqn:Hc;
    [|apply elem_of_nil in Hin; contradiction].
  apply list_elem_of_fmap in Hin as (line & -> & Hline).
  apply list_elem_of_filter in Hline as [Hkey Hline].
  exists group, p, id, line. auto.
Qed.

Lemma main_Raise tracking oxford_gtf flair_gtf talon_gtf e :
  main tracking oxford_gtf flair_gtf talon_gtf = Raise e -> e = IndexError.
Proof.
  unfold main. intros H.
  pose proof (categorize_loop_outcome tracking (Buckets [] [] [])) as Hc.
  fold (categorize_tracking tracking) in Hc.
  destruct (categorize_tracking tracking) as [[t3 t2 t1]|e0];
    cbn [mbind Res_bind] in H;
    [|injection H as <-; apply Hc].
  pose proof (gtf_loop_outcome oxford_gtf ∅) as Hox.
  fold (gtf oxford_gtf) in Hox.
  destruct (gtf oxford_gtf) as [ox|e0]; cbn [mbind Res_bind] in H;
    [|injection H as <-; apply Hox].
  pose proof (gtf_loop_outcome flair_gtf ∅) as Hfl.
  fold (gtf flair_gtf) in Hfl.
  destruct (gtf flair_gtf) as [fl|e0]; cbn [mbind Res_bind] in H;
    [|injection H as <-; apply Hfl].
  pose proof (gtf_loop_outcome talon_gtf ∅) as Hta.
  fold (gtf talon_gtf) in Hta.
  destruct (gtf talon_gtf) as [ta|e0]; cbn [mbind Res_bind] in H;
    [|injection H as <-; apply Hta].
  pose proof (write_closed_form t3 (Indexes ox fl ta)) as H3.
  destruct (write t3 (Indexes ox fl ta)) as [[o3 ix1]|e0];
    cbn [mbind Res_bind] in H; [|injection H as <-; apply H3].
  pose proof (write_closed_form t2 ix1) as H2.
  destruct (write t2 ix1) as [[o2 ix2]|e0];
    cbn [mbind Res_bind] in H; [|injection H as <-; apply H2].
  pose proof (write_closed_form t1 ix2) as H1.
  destruct (write t1 ix2) as [[o1 ix3]|e0];
    cbn [mbind Res_bind] in H; [discriminate|injection H as <-; apply H1].
Qed.

(** X22. Whatever its input files hold, the only exception [main]
    raises is [IndexError]: no missing transcript makes it fail with a
    [KeyError]. *)
Theorem main_raises_only_IndexError
    tracking oxford_gtf flair_gtf talon_gtf e :
  main tracking oxford_gtf flair_gtf talon_gtf = Raise e -> e = IndexError.
Proof. apply main_Raise. Qed.

(** X23. A tracking line of fewer than five fields, in a file in which no
    group identifier comes twice, makes [main] raise [IndexError]: a blank
    line stops [categorize_tracking], and a line with one to four fields
    is filed under [three_match] without identifiers, where [write] fails
    on it. *)
Theorem main_stops_at_short_tracking_line
    tracking oxford_gtf flair_gtf talon_gtf line :
  NoDup (group_id <$> tracking) ->
  line ∈ tracking ->
  length (split line) < 5 ->
  main tracking oxford_gtf flair_gtf talon_gtf = Raise IndexError.
Proof.
  intros Hnd Hin Hlen.
  destruct (main tracking oxford_gtf flair_gtf talon_gtf) as [outs|e] eqn:H.
  - exfalso.
    apply main_calls in H as (b & ox & fl & ta & Hb & _ & _ & _ & Hk).
    destruct (Hk ThreeMatch) as [Hok _].
    rewrite (categorize_loop_buckets tracking _ _ Hb Hnd) in Hok
      by (intros l []; reflexivity).
    cbn [bucket three_match app] in Hok.
    assert (drop 4 (split line) = []) as Hdrop
      by (apply drop_ge; lia).
    assert (group_of line
              ∈ group_of <$>
                  filter (fun l => bucket_for (sentinels l) = ThreeMatch)
                         tracking) as Hg.
    { apply list_elem_of_fmap. exists line. split; [reflexivity|].
      apply list_elem_of_filter. split; [|exact Hin].
      unfold sentinels. rewrite Hdrop. reflexivity. }
    rewrite forallb_forall in Hok.
    apply list_elem_of_In, Hok in Hg.
    unfold group_of, transcript_ids_of in Hg. rewrite Hdrop in Hg.
    discriminate.
  - f_equal. apply (main_Raise _ _ _ _ _ H).
Qed.

End MainFacts.

(** The three files for the sample tracking file: oxford stands for the
    group of three and for the group of two, talon for the group of one. *)
Example main_sample :
  main sample_tracking sample_annotation sample_flair_gtf sample_talon_gtf
  = Ok ([ strip "010" (gtf_line "transcript" "G1" "T1")
            +:+ " match_id " +:+ dq +:+ "TCONS_00000001" +:+ dq +:+ ";" +:+ nl;
          strip "010" (gtf_line "exon" "G1" "T1")
            +:+ " match_id " +:+ dq +:+ "TCONS_00000001" +:+ dq +:+ ";" +:+ nl;
          strip "010" (gtf_line "exon" "G1" "T1")
            +:+ " match_id " +:+ dq +:+ "TCONS_00000001" +:+ dq +:+ ";"
            +:+ nl ],
        [ strip "010" (gtf_line "transcript" "G5" "T2")
            +:+ " match_id " +:+ dq +:+ "TCONS_00000002" +:+ dq +:+ ";"
            +:+ nl ],
        [ strip "010" (gtf_line "transcript" "G3" "L3")
            +:+ " match_id " +:+ dq +:+ "TCONS_00000003" +:+ dq +:+ ";" +:+ nl;
          strip "010" (gtf_line "exon" "G3" "L3")
            +:+ " match_id " +:+ dq +:+ "TCONS_00000003" +:+ dq +:+ ";"
            +:+ nl ]).
Proof. vm_compute. reflexivity. Qed.

Lemma main_files_as_from_fresh_dictionaries_witness :
  exists outs,
    main sample_tracking sample_annotation sample_flair_gtf sample_talon_gtf
      = Ok outs /\
    exists b ox fl ta,
      categorize_tracking sample_tracking = Ok b /\
      gtf sample_annotation = Ok ox /\
      gtf sample_flair_gtf = Ok fl /\
      gtf sample_talon_gtf = Ok ta /\
      forall k,
        exists ix',
          write (bucket k b) (Indexes ox fl ta) = Ok (output k outs, ix').
Proof.
  eexists. split; [vm_compute; reflexivity|].
  apply (main_files_as_from_fresh_dictionaries
           sample_tracking sample_annotation sample_flair_gtf
           sample_talon_gtf).
  vm_compute. reflexivity.
Defined.

Lemma main_writes_the_lines_of_the_chosen_transcripts_witness :
  exists outs,
    main sample_tracking sample_annotation sample_flair_gtf sample_talon_gtf
      = Ok outs /\
    output NoMatch outs
    = [ strip "010" (gtf_line "transcript" "G3" "L3")
          +:+ " match_id " +:+ dq +:+ "TCONS_00000003" +:+ dq +:+ ";" +:+ nl;
        strip "010" (gtf_line "exon" "G3" "L3")
          +:+ " match_id " +:+ dq +:+ "TCONS_00000003" +:+ dq +:+ ";"
          +:+ nl ] /\
    match output NoMatch outs with
    | first_line :: _ => nat_of_ascii <$> chars first_line
    | [] => []
    end
    = [ 99; 104; 114; 49; 9; 116; 111; 111; 108; 9; 116; 114; 97; 110; 115;
        99; 114; 105; 112; 116; 9; 49; 48; 48; 9; 57; 48; 48; 9; 46; 9; 43;
        9; 46; 9; 103; 101; 110; 101; 95; 105; 100; 32; 34; 71; 51; 34; 59;
        32; 116; 114; 97; 110; 115; 99; 114; 105; 112; 116; 95; 105; 100; 32;
        34; 76; 51; 34; 59; 32; 109; 97; 116; 99; 104; 95; 105; 100; 32; 34;
        84; 67; 79; 78; 83; 95; 48; 48; 48; 48; 48; 48; 48; 51; 34; 59; 10 ] /\
    exists b,
      categorize_tracking sample_tracking = Ok b /\
      forall k,
        output k outs
        = mjoin (group_lines sample_annotation sample_flair_gtf
                             sample_talon_gtf <$> bucket k b) /\
        forall out_line,
          out_line ∈ output k outs ->
          exists group p id line,
            group ∈ bucket k b /\
            chosen group.2 = Ok (p, id) /\
            line ∈ annotation p sample_annotation sample_flair_gtf
                              sample_talon_gtf /\
            gtf_key line = Some id /\
            out_line
            = strip "010" line +:+ " match_id " +:+ dq +:+ group.1 +:+ dq
                +:+ ";" +:+ nl.
Proof.
  eexists. split; [vm_compute; reflexivity|].
  split; [vm_compute; reflexivity|]. split; [vm_compute; reflexivity|].
  apply (main_writes_the_lines_of_the_chosen_transcripts
           sample_tracking sample_annotation sample_flair_gtf
           sample_talon_gtf).
  vm_compute. reflexivity.
Defined.

Lemma main_raises_only_IndexError_witness :
  exists e,
    main broken_tracking sample_annotation sample_flair_gtf sample_talon_gtf
      = Raise e /\
    e = IndexError.
Proof.
  eexists. split; [vm_compute; reflexivity|].
  apply (main_raises_only_IndexError
           broken_tracking sample_annotation sample_flair_gtf
           sample_talon_gtf).
  vm_compute. reflexivity.
Defined.

Lemma main_stops_at_short_tracking_line_witness :
  let line := "TCONS_00000009 XLOC_000009" +:+ nl in
  NoDup (group_id <$> short_tracking) /\
  line ∈ short_tracking /\
  length (split line) < 5 /\
  (exists b, categorize_tracking short_tracking = Ok b) /\
  main short_tracking sample_annotation sample_flair_gtf sample_talon_gtf
    = Raise IndexError.
Proof.
  intros line.
  assert (NoDup (group_id <$> short_tracking)) as Hnd
    by (apply (bool_decide_unpack _); vm_compute; exact I).
  assert (line ∈ short_tracking) as Hin
    by (apply (bool_decide_unpack _); vm_compute; exact I).
  assert (length (split line) < 5) as Hlen by (vm_compute; lia).
  split; [exact Hnd|]. split; [exact Hin|]. split; [exact Hlen|].
  split; [eexists; vm_compute; reflexivity|].
  apply (main_stops_at_short_tracking_line
           short_tracking sample_annotation sample_flair_gtf sample_talon_gtf
           line Hnd Hin Hlen).
Defined.
